(** * convert_menu.py: Hugo menu content to POS records

    A shallow embedding of [MenuConverter] (src/convert_menu.py) and the
    properties of its validation, parsing and transformation stages.

    Conventions of the embedding.
    - Text is ASCII ([string] of the Standard Library).
    - A Python [float] is represented by the decimal numeral it denotes
      (sign, mantissa, power of ten), or an infinity or NaN; the rounding of
      that numeral to a binary64 is outside the model.
    - A [dict] with string keys whose order is not observed is a [gmap];
      a [dict] that is iterated, or whose keys are not strings ([menu_items],
      the table of a POS system, an output record), is an insertion-ordered
      association list with Python's test on keys.
    - The mapping file is an untyped document ([yaml_node]): a level of it
      may be a mapping, a sequence or a scalar, as the file has it.
    - Exceptions are values of [outcome]; log lines and file writes are
      events collected in order by the monad [M]. An exception is known by
      its class (a [KeyError] also by its key): [exn_str] stands for the
      message that [{e}] prints.
    - [yaml.safe_load], and [json] and [yaml] on the objects that the model
      carries opaquely, are parameters: the theorems hold for each of them. *)

From Stdlib Require Import ZArith NArith Ascii String List Bool Lia DecimalString.
From stdpp Require Import base option gmap strings list fin_maps.

Local Open Scope string_scope.

(** ** Python built-ins used by the script *)

Module Py.

(** [s.startswith(p)] *)
Definition startswith (s p : string) : bool := String.prefix p s.

(** [s.endswith(p)] *)
Fixpoint endswith (s p : string) : bool :=
  String.eqb s p ||
  match s with
  | EmptyString => false
  | String _ s' => endswith s' p
  end.

(** [s.split(sep)] for a one-character separator: never the empty list. *)
Fixpoint split (sep : ascii) (s : string) : list string :=
  match s with
  | EmptyString => [EmptyString]
  | String c s' =>
      if Ascii.eqb c sep then EmptyString :: split sep s'
      else match split sep s' with
           | [] => [String c EmptyString]
           | l :: ls => String c l :: ls
           end
  end.

(** [sep.join(l)] *)
Definition join (sep : string) (l : list string) : string :=
  String.concat sep l.

(** [s.replace(old, new)], left to right over non-overlapping occurrences
    of a non-empty [old]; [skip] counts the characters of an occurrence
    that is being passed over. *)
Fixpoint replace_from (skip : nat) (old new s : string) : string :=
  match s with
  | EmptyString => EmptyString
  | String c s' =>
      match skip with
      | S k => replace_from k old new s'
      | O =>
          if String.prefix old s
          then new +:+ replace_from (String.length old - 1) old new s'
          else String c (replace_from 0 old new s')
      end
  end.

Definition replace (s old new : string) : string :=
  replace_from 0 old new s.

(** Whitespace of [str.strip()] within ASCII. *)
Definition isspace (c : ascii) : bool :=
  let n := nat_of_ascii c in
  ((9 <=? n)%nat && (n <=? 13)%nat) || ((28 <=? n)%nat && (n <=? 32)%nat).

Fixpoint lstrip_by (sp : ascii -> bool) (s : string) : string :=
  match s with
  | EmptyString => EmptyString
  | String c s' => if sp c then lstrip_by sp s' else s
  end.

Fixpoint rstrip_by (sp : ascii -> bool) (s : string) : string :=
  match s with
  | EmptyString => EmptyString
  | String c s' =>
      match rstrip_by sp s' with
      | EmptyString => if sp c then EmptyString else String c EmptyString
      | r => String c r
      end
  end.

(** [s.strip()] *)
Definition strip (s : string) : string :=
  rstrip_by isspace (lstrip_by isspace s).

(** *** Numbers *)

(** A float: the decimal numeral [(-1)^neg * mant * 10^exp], kept with a
    mantissa that has no trailing zero (and exponent 0 when it is 0). *)
Inductive pyfloat : Type :=
| FNan
| FInf (neg : bool)
| FDec (neg : bool) (mant : N) (exp : Z).

Definition is_digit (c : ascii) : bool :=
  let n := nat_of_ascii c in (48 <=? n)%nat && (n <=? 57)%nat.

Definition digit_val (c : ascii) : N := N.of_nat (nat_of_ascii c - 48).

(** Value of a digit string read most significant digit first. *)
Fixpoint digits_value_from (acc : N) (s : string) : N :=
  match s with
  | EmptyString => acc
  | String c s' => digits_value_from (acc * 10 + digit_val c)%N s'
  end.

Definition digits_value (s : string) : N := digits_value_from 0 s.

(** Longest prefix of digits, and the rest. *)
Fixpoint span_digits (s : string) : string * string :=
  match s with
  | EmptyString => (EmptyString, EmptyString)
  | String c s' =>
      if is_digit c
      then let '(d, r) := span_digits s' in (String c d, r)
      else (EmptyString, s)
  end.

(** Digits without their trailing zeros, and how many were dropped. *)
Fixpoint drop_trailing_zeros (s : string) : string * nat :=
  match s with
  | EmptyString => (EmptyString, 0)
  | String c s' =>
      match drop_trailing_zeros s' with
      | (EmptyString, k) =>
          if Ascii.eqb c "0" then (EmptyString, S k)
          else (String c EmptyString, k)
      | (r, k) => (String c r, k)
      end
  end.

Definition make_dec (neg : bool) (digits : string) (e : Z) : pyfloat :=
  let '(d, k) := drop_trailing_zeros digits in
  let m := digits_value d in
  if (m =? 0)%N then FDec neg 0 0 else FDec neg m (e + Z.of_nat k).

Definition lower (c : ascii) : ascii :=
  let n := nat_of_ascii c in
  if (65 <=? n)%nat && (n <=? 90)%nat then ascii_of_nat (n + 32) else c.

Fixpoint lower_string (s : string) : string :=
  match s with
  | EmptyString => EmptyString
  | String c s' => String (lower c) (lower_string s')
  end.

(** An optional sign: whether it is a minus, and the rest. *)
Definition read_sign (s : string) : bool * string :=
  match s with
  | String "-" r => (true, r)
  | String "+" r => (false, r)
  | _ => (false, s)
  end.

(** The exponent part [e|E [sign] digits]; when no digit follows the
    letter, nothing is consumed. *)
Definition read_exponent (s : string) : Z * string :=
  match s with
  | String c r =>
      if Ascii.eqb (lower c) "e" then
        let '(eneg, r1) := read_sign r in
        match span_digits r1 with
        | (EmptyString, _) => (0%Z, s)
        | (ed, r2) =>
            let v := Z.of_N (digits_value ed) in
            ((if eneg then - v else v)%Z, r2)
        end
      else (0%Z, s)
  | EmptyString => (0%Z, s)
  end.

(** A decimal numeral that spans the whole of [s]:
    [sign] [digits] [. [digits]] [exponent], with a digit in the mantissa. *)
Definition parse_decimal (s : string) : option pyfloat :=
  let '(neg, r0) := read_sign s in
  let '(ip, r1) := span_digits r0 in
  let '(fp, r2) :=
    match r1 with
    | String "." r => span_digits r
    | _ => (EmptyString, r1)
    end in
  match ip +:+ fp with
  | EmptyString => None
  | ds =>
      let '(e, r3) := read_exponent r2 in
      match r3 with
      | EmptyString => Some (make_dec neg ds (e - Z.of_nat (String.length fp)))
      | _ => None
      end
  end.

(** [inf], [infinity] and [nan] with an optional sign, in any case. *)
Definition parse_inf_or_nan (s : string) : option pyfloat :=
  let '(neg, r) := read_sign s in
  let w := lower_string r in
  if String.eqb w "inf" || String.eqb w "infinity" then Some (FInf neg)
  else if String.eqb w "nan" then Some FNan
  else None.

(** Underscores are dropped when each stands between two digits; any
    other underscore makes the text invalid. [prev] is the previous
    character, if any. *)
Fixpoint drop_underscores (prev : option ascii) (s : string) : option string :=
  match s with
  | EmptyString =>
      match prev with
      | Some "_"%char => None
      | _ => Some EmptyString
      end
  | String c s' =>
      if Ascii.eqb c "_" then
        match prev with
        | Some p => if is_digit p then drop_underscores (Some c) s' else None
        | None => None
        end
      else
        match prev with
        | Some "_"%char =>
            if is_digit c
            then String c <$> drop_underscores (Some c) s'
            else None
        | _ => String c <$> drop_underscores (Some c) s'
        end
  end.

(** Whitespace that [float()] skips on both sides. *)
Definition c_isspace (c : ascii) : bool :=
  let n := nat_of_ascii c in
  ((9 <=? n)%nat && (n <=? 13)%nat) || (n =? 32)%nat.

(** [float(s)] for a string: [None] stands for [ValueError]. *)
Definition float (s : string) : option pyfloat :=
  let t := rstrip_by c_isspace (lstrip_by c_isspace s) in
  match drop_underscores None t with
  | None => None
  | Some u =>
      match parse_decimal u with
      | Some f => Some f
      | None => parse_inf_or_nan u
      end
  end.

(** [x >= 0] on floats (false on NaN; true on both zeros). *)
Definition nonneg (f : pyfloat) : bool :=
  match f with
  | FNan => false
  | FInf neg => negb neg
  | FDec neg m _ => negb neg || (m =? 0)%N
  end.

(** [bool(x)] on floats. *)
Definition float_truth (f : pyfloat) : bool :=
  match f with
  | FDec _ m _ => negb (m =? 0)%N
  | _ => true
  end.

(** [str(n)] for an integer. *)
Definition str_int (z : Z) : string := NilZero.string_of_int (Z.to_int z).

Fixpoint zeros (n : nat) : string :=
  match n with
  | O => EmptyString
  | S k => String "0" (zeros k)
  end.

(** First [n] characters, and the rest. *)
Fixpoint split_at (n : nat) (s : string) : string * string :=
  match n, s with
  | S k, String c s' => let '(a, b) := split_at k s' in (String c a, b)
  | _, _ => (EmptyString, s)
  end.

(** [repr(x)] of a float: positional notation when the decimal point
    falls within [-4 < decpt <= 16], scientific notation otherwise. *)
Definition repr_float (f : pyfloat) : string :=
  match f with
  | FNan => "nan"
  | FInf neg => if neg then "-inf" else "inf"
  | FDec neg m e =>
      let sign := if neg then "-" else "" in
      let ds := NilZero.string_of_uint (N.to_uint m) in
      let n := Z.of_nat (String.length ds) in
      let decpt := (n + e)%Z in
      if ((decpt <=? -4) || (16 <? decpt))%Z then
        let x := (decpt - 1)%Z in
        let xs := NilZero.string_of_uint (N.to_uint (Z.abs_N x)) in
        let xs := if (String.length xs <? 2)%nat then "0" +:+ xs else xs in
        let '(d1, rest) := split_at 1 ds in
        sign +:+ d1 +:+ (match rest with EmptyString => "" | _ => "." +:+ rest end)
             +:+ "e" +:+ (if (x <? 0)%Z then "-" else "+") +:+ xs
      else if (decpt <=? 0)%Z then
        sign +:+ "0." +:+ zeros (Z.to_nat (- decpt)) +:+ ds
      else if (n <=? decpt)%Z then
        sign +:+ ds +:+ zeros (Z.to_nat (decpt - n)) +:+ ".0"
      else
        let '(a, b) := split_at (Z.to_nat decpt) ds in
        sign +:+ a +:+ "." +:+ b
  end.

End Py.

(** ** Values, items and paths *)

(** A value of a front-matter field or of an item. [PyObj] is any other
    object [yaml.safe_load] can build (a sequence, a nested mapping, a
    date): the script only tests such a value for truth and formats it
    with [str()], so it is carried by these two observations. *)
Inductive pyval : Type :=
| PyNone
| PyBool (b : bool)
| PyInt (z : Z)
| PyFloat (f : Py.pyfloat)
| PyStr (s : string)
| PyObj (truth : bool) (text : string).

#[global] Instance pyfloat_eq_dec : EqDecision Py.pyfloat.
Proof. solve_decision. Defined.

#[global] Instance pyval_eq_dec : EqDecision pyval.
Proof. solve_decision. Defined.

(** [bool(v)], the test behind [not v]. *)
Definition truthy (v : pyval) : bool :=
  match v with
  | PyNone => false
  | PyBool b => b
  | PyInt z => negb (z =? 0)%Z
  | PyFloat f => Py.float_truth f
  | PyStr s => negb (String.eqb s "")
  | PyObj t _ => t
  end.

(** [str(v)] *)
Definition py_str (v : pyval) : string :=
  match v with
  | PyNone => "None"
  | PyBool b => if b then "True" else "False"
  | PyInt z => Py.str_int z
  | PyFloat f => Py.repr_float f
  | PyStr s => s
  | PyObj _ t => t
  end.

(** [item_data]: a dict from field names to values. *)
Abbreviation item := (gmap string pyval).

(** A [pathlib.Path], by its parts. *)
Abbreviation path := (list string).

(** [p.name] *)
Definition path_name (p : path) : string := List.last p "".

(** [s.rfind('.')] *)
Fixpoint rfind_dot (s : string) : option nat :=
  match s with
  | EmptyString => None
  | String c s' =>
      match rfind_dot s' with
      | Some i => Some (S i)
      | None => if Ascii.eqb c "." then Some 0 else None
      end
  end.

(** [p.stem]: the name up to its last dot, when that dot is neither the
    first nor the last character. *)
Definition path_stem (p : path) : string :=
  let name := path_name p in
  match rfind_dot name with
  | Some i =>
      if (0 <? i)%nat && (i <? String.length name - 1)%nat
      then String.substring 0 i name
      else name
  | None => name
  end.

(** [p.relative_to(base)]: [None] stands for [ValueError]. *)
Fixpoint relative_to (p base : path) {struct base} : option path :=
  match base with
  | [] => Some p
  | b :: bs =>
      match p with
      | x :: xs => if String.eqb b x then relative_to xs bs else None
      | [] => None
      end
  end.

(** [str(p)] for a POSIX path. *)
Definition path_str (p : path) : string :=
  match p with
  | [] => "."
  | "/" :: rest => "/" +:+ Py.join "/" rest
  | _ => Py.join "/" p
  end.

(** ** POS data *)

#[local] Set Warnings "-register-all".

(** The mapping document as [yaml.safe_load] builds it and as the script
    looks into it. A mapping is given by its entries under string keys: the
    script looks up string keys only, and a key that is no string equals
    none of them. A list or a set is given by its elements. Any other value
    is a scalar, or a date or a byte string carried as a [PyObj]. Only a
    mapping has [.get], and only the values of the last kind can be hashed. *)
Inductive yaml_node : Type :=
| NMap (d : gmap string yaml_node)
| NSeq (elems : list pyval)
| NAtom (v : pyval).
#[local] Set Warnings "register-all".

(** [x or {}] for the mapping document. A mapping stays what it is: one
    that is empty gives way to the empty mapping. *)
Definition node_or_empty (n : yaml_node) : yaml_node :=
  match n with
  | NMap d => NMap d
  | NSeq [] => NMap ∅
  | NSeq _ => n
  | NAtom v => if truthy v then n else NMap ∅
  end.

(** The key a value is as a dict key. Python compares keys with [==]:
    numbers by value across [bool], [int] and [float], everything else
    within its own type (an opaque object by its text). [float('nan')], of
    which PyYAML builds one object, is found again by identity. *)
Definition key_norm (v : pyval) : pyval :=
  match v with
  | PyBool b => PyInt (if b then 1 else 0)
  | PyFloat (Py.FDec neg m e) =>
      if (0 <=? e)%Z
      then PyInt ((if neg then -1 else 1) * Z.of_N m * 10 ^ e)
      else v
  | _ => v
  end.

Definition key_eqb (a b : pyval) : bool :=
  bool_decide (key_norm a = key_norm b).

(** One output record, in the order of its dict display, and the table of
    a POS system: a dict keyed by external identifier. *)
Abbreviation pos_record := (list (string * pyval)).
Abbreviation pos_table := (list (pyval * pos_record)).

(** [t[k] = r]: an equal key keeps its place and its first key object. *)
Fixpoint table_set (k : pyval) (r : pos_record) (t : pos_table) : pos_table :=
  match t with
  | [] => [(k, r)]
  | (k', r') :: t' =>
      if key_eqb k' k then (k', r) :: t' else (k', r') :: table_set k r t'
  end.

(** [t.get(k)] *)
Fixpoint table_get (k : pyval) (t : pos_table) : option pos_record :=
  match t with
  | [] => None
  | (k', r) :: t' => if key_eqb k' k then Some r else table_get k t'
  end.

(** [pos_items]: the dict with the two fixed keys ['loyverse'] and ['odoo']. *)
Record pos_items : Type := PosItems {
  loyverse : pos_table;
  odoo : pos_table
}.

(** [pos_items.items()], in insertion order. *)
Definition pos_systems (p : pos_items) : list (string * pos_table) :=
  [("loyverse", loyverse p); ("odoo", odoo p)].

(** [menu_items]: slug to item, in insertion order. *)
Abbreviation menu := (list (string * gmap string pyval)).

(** [d[k] = v] on an insertion-ordered dict: an existing key keeps its place. *)
Fixpoint dict_set {A : Type} (k : string) (v : A) (d : list (string * A))
  : list (string * A) :=
  match d with
  | [] => [(k, v)]
  | (k', v') :: d' =>
      if String.eqb k' k then (k, v) :: d' else (k', v') :: dict_set k v d'
  end.

(** [d.get(k)] on an insertion-ordered dict. *)
Fixpoint dict_get {A : Type} (k : string) (d : list (string * A)) : option A :=
  match d with
  | [] => None
  | (k', v) :: d' => if String.eqb k' k then Some v else dict_get k d'
  end.

(** ** Effects *)

Inductive exn : Type :=
| TypeError
| ValueError
| KeyError (key : string)
| AttributeError
| YAMLError
| OSError.

Definition exn_str (e : exn) : string :=
  match e with
  | TypeError => "TypeError"
  | ValueError => "ValueError"
  | KeyError k => "'" +:+ k +:+ "'"
  | AttributeError => "AttributeError"
  | YAMLError => "YAMLError"
  | OSError => "OSError"
  end.

Inductive outcome (A : Type) : Type :=
| Return (a : A)
| Raise (e : exn).
Arguments Return {A} a.
Arguments Raise {A} e.

Inductive level : Type := INFO | WARNING | ERROR.

(** A row of the coverage report. *)
Record report_row : Type := ReportRow {
  row_slug : string;
  row_title : pyval;
  row_category : pyval;
  row_price : pyval;
  row_loyverse_mapped : bool;
  row_odoo_mapped : bool
}.

(** What is written to a file: the serialisers are library code, so a
    written file is described by the data handed to them. A report that
    fails before its table is left with its heading only. *)
Inductive payload : Type :=
| YamlDump (p : pos_items)
| JsonDump (p : pos_items)
| YamlDumpTable (t : pos_table)
| ReportHeading (cwd : path) (total : nat)
| Report (cwd : path) (total : nat) (rows : list report_row).

Inductive event : Type :=
| Log (l : level) (msg : string)
| WriteFile (file : path) (data : payload).

(** Computations that log, write files and may raise. *)
Definition M (A : Type) : Type := (outcome A * list event)%type.

#[global] Instance M_ret : MRet M := fun A a => (Return a, []).

#[global] Instance M_bind : MBind M := fun A B f m =>
  match m with
  | (Return a, t) => let '(r, t') := f a in (r, (t ++ t')%list)
  | (Raise e, t) => (Raise e, t)
  end.

Definition emit (e : event) : M unit := (Return tt, [e]).

Definition raise {A : Type} (e : exn) : M A := (Raise e, []).

(** [try: m except Exception as e: h e] *)
Definition catch {A : Type} (m : M A) (h : exn -> M A) : M A :=
  match m with
  | (Return a, t) => (Return a, t)
  | (Raise e, t) => let '(r, t') := h e in (r, (t ++ t')%list)
  end.

Definition logger_info (msg : string) : M unit := emit (Log INFO msg).
Definition logger_warning (msg : string) : M unit := emit (Log WARNING msg).
Definition logger_error (msg : string) : M unit := emit (Log ERROR msg).

(** The files written by a run, in order. *)
Definition written (t : list event) : list path :=
  omap (fun e => match e with WriteFile f _ => Some f | Log _ _ => None end) t.

(** ** The YAML loader and the file system *)

(** What [yaml.safe_load] returns for a front-matter block: a mapping of
    fields, or some other value. *)
Inductive yaml_value : Type :=
| YMap (d : gmap string pyval)
| YVal (v : pyval).

(** Result of a load: the document, or the exception that
    [yaml.safe_load] raises: [yaml.YAMLError] for a text that is not YAML,
    or what a constructor raises (a [ValueError] for a date that does not
    exist). *)
Inductive loaded (A : Type) : Type :=
| Loaded (a : A)
| Failed (e : exn).
Arguments Loaded {A} a.
Arguments Failed {A} e.

Abbreviation Malformed := (Failed YAMLError).

(** The directory trees the script reads and writes. [content_files] lists
    every file under the content directory by its path relative to it, in
    the order of the directory walk, with its text ([None]: the file cannot
    be read). [data_files] has the files of the data directory by name, in
    the same way. [writable] tells whether a file can be opened for
    writing. *)
Record filesystem : Type := FileSystem {
  content_files : list (path * option string);
  data_files : gmap string (option string);
  cwd : path;
  writable : path -> bool
}.

(** [self] *)
Record MenuConverter : Type := Converter {
  content_dir : path;
  data_dir : path;
  menu_data : yaml_value;
  pos_mapping : yaml_node
}.

(** [MenuConverter(content_dir, data_dir)] *)
Definition init (content_dir data_dir : path) : MenuConverter :=
  Converter content_dir data_dir (YMap ∅) (NMap ∅).

#[global] Instance outcome_ret : MRet outcome := fun A a => Return a.

#[global] Instance outcome_bind : MBind outcome := fun A B f o =>
  match o with
  | Return a => f a
  | Raise e => Raise e
  end.

(** A pure computation inside [M]. *)
Definition lift {A : Type} (o : outcome A) : M A := (o, []).

(** [d[k]] *)
Definition getitem (d : item) (k : string) : outcome pyval :=
  match d !! k with
  | Some v => Return v
  | None => Raise (KeyError k)
  end.

(** [d.get(k, dflt)] *)
Definition get (d : item) (k : string) (dflt : pyval) : pyval :=
  default dflt (d !! k).

(** ** MenuConverter *)

Section MenuConverter.

(** [yaml.safe_load], at the two types the script reads documents at: a
    front-matter block, and the mapping file. The library is a parameter
    of the development. *)
Variable yaml_safe_load : string -> loaded yaml_value.
Variable yaml_load_mapping : string -> loaded yaml_node.

(** [json.loads(json.dumps(o))] and [yaml.safe_load(yaml.dump(o))] for an
    opaque object [o]: what is read back, or the exception ([TypeError]
    from [json] for a date, a byte string or a set). *)
Variable json_object : pyval -> outcome pyval.
Variable yaml_object : pyval -> outcome pyval.

(** [x or {}] for a front-matter document. *)
Definition or_empty (y : yaml_value) : yaml_value :=
  match y with
  | YMap d => YMap d
  | YVal v => if truthy v then YVal v else YMap ∅
  end.

Definition load_pos_mapping (fs : filesystem) (self : MenuConverter)
  : M MenuConverter :=
  let mapping_file := (data_dir self ++ ["pos-mapping.yaml"])%list in
  match data_files fs !! "pos-mapping.yaml" with
  | Some (Some text) =>
      match yaml_load_mapping text with
      | Loaded m =>
          logger_info ("Loaded POS mapping from " +:+ path_str mapping_file);;
          mret (Converter (content_dir self) (data_dir self) (menu_data self)
                          (node_or_empty m))
      | Failed e => raise e
      end
  | Some None => raise OSError
  | None =>
      logger_warning ("POS mapping file not found: " +:+ path_str mapping_file);;
      mret self
  end.

Definition load_menu_data (fs : filesystem) (self : MenuConverter)
  : M MenuConverter :=
  let menu_file := (data_dir self ++ ["menudata.yaml"])%list in
  match data_files fs !! "menudata.yaml" with
  | Some (Some text) =>
      match yaml_safe_load text with
      | Loaded y =>
          logger_info ("Loaded existing menu data from " +:+ path_str menu_file);;
          mret (Converter (content_dir self) (data_dir self) (or_empty y)
                          (pos_mapping self))
      | Failed e => raise e
      end
  | Some None => raise OSError
  | None => mret self
  end.

Definition extract_category (self : MenuConverter) (file_path : path)
  : outcome string :=
  match relative_to file_path (content_dir self) with
  | None => Raise ValueError
  | Some relative_path =>
      if (1 <? length relative_path)%nat
      then Return (List.hd "" relative_path)
      else Return "uncategorized"
  end.

Definition required_fields : list string := ["title"; "price"].

(** The first required field that is absent or falsy, if any. *)
Fixpoint first_missing (fields : list string) (item_data : item)
  : option string :=
  match fields with
  | [] => None
  | field :: rest =>
      match item_data !! field with
      | Some v => if truthy v then first_missing rest item_data else Some field
      | None => Some field
      end
  end.

(** [str(item_data['price']).replace('$', '').replace(',', '')] *)
Definition price_text (price : pyval) : string :=
  Py.replace (Py.replace (py_str price) "$" "") "," "".

(** Returns the verdict together with [item_data], which the method
    updates in place. *)
Definition validate_menu_item (item_data : item) : M (bool * item) :=
  match first_missing required_fields item_data with
  | Some field =>
      logger_warning ("Menu item missing required field '" +:+ field +:+ "': "
                      +:+ py_str (get item_data "slug" (PyStr "unknown")));;
      mret (false, item_data)
  | None =>
      match Py.float (price_text (get item_data "price" PyNone)) with
      | Some price =>
          mret (true, <["price_numeric" := PyFloat price]> item_data)
      | None =>
          logger_warning ("Invalid price format for item "
                          +:+ py_str (get item_data "slug" (PyStr "unknown"))
                          +:+ ": " +:+ py_str (get item_data "price" PyNone));;
          mret (false, item_data)
      end
  end.

(** The loop over the lines: the lines collected between the first and the
    second delimiter, and the index after the second delimiter (0 when the
    loop ends without meeting it). *)
Fixpoint front_matter_loop (lines : list string) (i : nat)
    (in_front_matter : bool) (front_matter : list string)
  : list string * nat :=
  match lines with
  | [] => (front_matter, 0)
  | line :: rest =>
      if Py.startswith line "---" then
        if negb in_front_matter
        then front_matter_loop rest (S i) true front_matter
        else (front_matter, S i)
      else if in_front_matter
      then front_matter_loop rest (S i) in_front_matter (front_matter ++ [line])
      else front_matter_loop rest (S i) in_front_matter front_matter
  end.

Definition parse_menu_item (self : MenuConverter) (file_path : path)
    (content : string) : M (option item) :=
  let lines := Py.split "010" content in
  match lines with
  | [] => mret None
  | first :: _ =>
      if negb (Py.startswith first "---") then mret None
      else
        let '(front_matter, content_start) :=
          front_matter_loop lines 0 false [] in
        match front_matter with
        | [] => mret None
        | _ =>
            match yaml_safe_load (Py.join (String "010" "") front_matter) with
            | Failed YAMLError =>
                logger_error ("Error parsing YAML in " +:+ path_str file_path
                              +:+ ": " +:+ exn_str YAMLError);;
                mret None
            | Failed e => raise e
            | Loaded y =>
                match or_empty y with
                | YVal _ => raise TypeError
                | YMap item_data =>
                    let item_data :=
                      <["slug" := PyStr (path_stem file_path)]> item_data in
                    let item_data :=
                      <["file_path" := PyStr (path_str file_path)]> item_data in
                    category ← lift (extract_category self file_path);
                    let item_data :=
                      <["category" := PyStr category]> item_data in
                    let content_lines := drop content_start lines in
                    let item_data :=
                      <["content" :=
                          PyStr (Py.strip (Py.join (String "010" "") content_lines))]>
                        item_data in
                    '(ok, item_data) ← validate_menu_item item_data;
                    if (ok : bool) then mret (Some item_data) else mret None
                end
            end
        end
  end.

(** The [try] block of the scan for one file: read, parse, record. *)
Definition scan_file (self : MenuConverter) (content_file : path)
    (text : option string) (menu_items : menu) : M menu :=
  catch
    (content ← match text with
               | Some content => mret content
               | None => raise OSError
               end;
     item_data ← parse_menu_item self content_file content;
     match item_data with
     | Some item_data =>
         if decide (item_data = ∅) then mret menu_items
         else
           slug ← lift (getitem item_data "slug");
           mret (dict_set (py_str slug) item_data menu_items)
     | None => mret menu_items
     end)
    (fun e =>
       logger_error ("Error processing " +:+ path_str content_file
                     +:+ ": " +:+ exn_str e);;
       mret menu_items).

Fixpoint scan_loop (self : MenuConverter) (files : list (path * option string))
    (menu_items : menu) : M menu :=
  match files with
  | [] => mret menu_items
  | (relative, text) :: rest =>
      let content_file := (content_dir self ++ relative)%list in
      if Py.startswith (path_name content_file) "_index.md"
      then scan_loop self rest menu_items
      else
        menu_items ← scan_file self content_file text menu_items;
        scan_loop self rest menu_items
  end.

(** [self.content_dir.rglob("*.md")] *)
Definition rglob_md (fs : filesystem) : list (path * option string) :=
  List.filter (fun f => Py.endswith (path_name (fst f)) ".md") (content_files fs).

Definition scan_menu_items (fs : filesystem) (self : MenuConverter) : M menu :=
  menu_items ← scan_loop self (rglob_md fs) [];
  logger_info ("Found " +:+ Py.str_int (Z.of_nat (length menu_items))
               +:+ " menu items");;
  mret menu_items.

(** [n.get(k, dflt)]: a value that is no mapping has no [get]. *)
Definition node_get (n : yaml_node) (k : string) (dflt : yaml_node)
  : outcome yaml_node :=
  match n with
  | NMap d => Return (default dflt (d !! k))
  | _ => Raise AttributeError
  end.

(** [global_mappings.get(system, {}).get('items', {})] *)
Definition system_items (global_mappings : yaml_node) (system : string)
  : outcome yaml_node :=
  system_mappings ← node_get global_mappings system (NMap ∅);
  node_get system_mappings "items" (NMap ∅).

(** [global_mappings.get(system, {}).get('items', {}).get(slug, f"omg-sushi-{slug}")] *)
Definition system_id (global_mappings : yaml_node) (system slug : string)
  : outcome yaml_node :=
  system_global ← system_items global_mappings system;
  node_get system_global slug (NAtom (PyStr ("omg-sushi-" +:+ slug))).

(** [loyverse_id] and [odoo_id] of the loop, from the loaded mapping. *)
Definition loyverse_id (self : MenuConverter) (slug : string)
  : outcome yaml_node :=
  global_mappings ← node_get (pos_mapping self) "global" (NMap ∅);
  system_id global_mappings "loyverse" slug.

Definition odoo_id (self : MenuConverter) (slug : string)
  : outcome yaml_node :=
  global_mappings ← node_get (pos_mapping self) "global" (NMap ∅);
  system_id global_mappings "odoo" slug.

(** [hash(id)], which the assignment [table[id] = ...] needs: a list, a
    set or a mapping is unhashable. *)
Definition hash_key (id : yaml_node) : outcome pyval :=
  match id with
  | NAtom v => Return v
  | _ => Raise TypeError
  end.

(** [pos_items['loyverse'][loyverse_id] = {...}], as the key and the record
    of the assignment: the dict display is evaluated first ([KeyError] for
    a field the item lacks), then the identifier is hashed. *)
Definition loyverse_record (item_data : item) (slug : string) (id : yaml_node)
  : outcome (pyval * pos_record) :=
  name ← getitem item_data "title";
  price ← getitem item_data "price_numeric";
  category ← getitem item_data "category";
  sku ← hash_key id;
  mret (sku,
        [("name", name);
         ("price", price);
         ("description", get item_data "description" (PyStr ""));
         ("category", category);
         ("available", get item_data "available" (PyBool true));
         ("sku", sku);
         ("hugo_slug", PyStr slug)]).

Definition odoo_record (item_data : item) (slug : string) (id : yaml_node)
  : outcome (pyval * pos_record) :=
  name ← getitem item_data "title";
  list_price ← getitem item_data "price_numeric";
  categ_id ← getitem item_data "category";
  default_code ← hash_key id;
  mret (default_code,
        [("name", name);
         ("list_price", list_price);
         ("description", get item_data "description" (PyStr ""));
         ("categ_id", categ_id);
         ("active", get item_data "available" (PyBool true));
         ("default_code", default_code);
         ("hugo_slug", PyStr slug)]).

(** The body of the loop of [convert_to_pos_format] for one item. *)
Definition convert_item (self : MenuConverter) (slug : string)
    (item_data : item) (pos : pos_items) : outcome pos_items :=
  global_mappings ← node_get (pos_mapping self) "global" (NMap ∅);
  loyverse_id ← system_id global_mappings "loyverse" slug;
  '(lkey, lrec) ← loyverse_record item_data slug loyverse_id;
  let pos := PosItems (table_set lkey lrec (loyverse pos)) (odoo pos) in
  odoo_id ← system_id global_mappings "odoo" slug;
  '(okey, orec) ← odoo_record item_data slug odoo_id;
  mret (PosItems (loyverse pos) (table_set okey orec (odoo pos))).

Fixpoint convert_loop (self : MenuConverter) (menu_items : menu)
    (pos : pos_items) : outcome pos_items :=
  match menu_items with
  | [] => mret pos
  | (slug, item_data) :: rest =>
      pos ← convert_item self slug item_data pos;
      convert_loop self rest pos
  end.

Definition convert_to_pos_format (self : MenuConverter) (menu_items : menu)
  : outcome pos_items :=
  convert_loop self menu_items (PosItems [] []).

(** *** The serialisers

    [json.dump] and [yaml.dump] followed by the matching load, on the data
    of the tables: what the reader gets back, or the exception raised on
    the way. The order of the keys of a dict that is read back is no part
    of the data ([yaml.dump] sorts them, [==] ignores it). *)

(** A value: JSON and YAML have every scalar, each read back as it was. *)
Definition json_value (v : pyval) : outcome pyval :=
  match v with
  | PyObj _ _ => json_object v
  | _ => Return v
  end.

Definition yaml_value_back (v : pyval) : outcome pyval :=
  match v with
  | PyObj _ _ => yaml_object v
  | _ => Return v
  end.

(** The name JSON gives a key: a JSON object has string names only. *)
Definition json_key (k : pyval) : outcome string :=
  match k with
  | PyStr s => Return s
  | PyInt z => Return (Py.str_int z)
  | PyBool b => Return (if b then "true" else "false")
  | PyNone => Return "null"
  | PyFloat Py.FNan => Return "NaN"
  | PyFloat (Py.FInf neg) => Return (if neg then "-Infinity" else "Infinity")
  | PyFloat f => Return (Py.repr_float f)
  | PyObj _ _ => Raise TypeError
  end.

Fixpoint json_record (r : pos_record) : outcome pos_record :=
  match r with
  | [] => mret []
  | (field, v) :: rest =>
      v ← json_value v;
      rest ← json_record rest;
      mret ((field, v) :: rest)
  end.

(** [acc] is the object read back so far: a name that comes again takes
    the later value. *)
Fixpoint json_table (t : pos_table) (acc : pos_table) : outcome pos_table :=
  match t with
  | [] => mret acc
  | (k, r) :: rest =>
      name ← json_key k;
      r ← json_record r;
      json_table rest (table_set (PyStr name) r acc)
  end.

(** [json.loads(json.dumps(pos_items))] *)
Definition json_items (p : pos_items) : outcome pos_items :=
  l ← json_table (loyverse p) [];
  o ← json_table (odoo p) [];
  mret (PosItems l o).

Fixpoint yaml_record (r : pos_record) : outcome pos_record :=
  match r with
  | [] => mret []
  | (field, v) :: rest =>
      v ← yaml_value_back v;
      rest ← yaml_record rest;
      mret ((field, v) :: rest)
  end.

Fixpoint yaml_table (t : pos_table) (acc : pos_table) : outcome pos_table :=
  match t with
  | [] => mret acc
  | (k, r) :: rest =>
      k ← yaml_value_back k;
      r ← yaml_record r;
      yaml_table rest (table_set k r acc)
  end.

(** [yaml.safe_load(yaml.dump(pos_items))] *)
Definition yaml_items (p : pos_items) : outcome pos_items :=
  l ← yaml_table (loyverse p) [];
  o ← yaml_table (odoo p) [];
  mret (PosItems l o).

(** [with open(file, 'w') as f:] and the data handed to the writer. *)
Definition write_file (fs : filesystem) (file : path) (data : payload)
  : M unit :=
  if writable fs file then emit (WriteFile file data) else raise OSError.

Fixpoint save_system_files (fs : filesystem) (self : MenuConverter)
    (systems : list (string * pos_table)) : M unit :=
  match systems with
  | [] => mret tt
  | (pos_system, items) :: rest =>
      let system_file :=
        (data_dir self ++ ["pos-menu-" +:+ pos_system +:+ ".yaml"])%list in
      write_file fs system_file (YamlDumpTable items);;
      logger_info ("Saved " +:+ pos_system +:+ " menu data to "
                   +:+ path_str system_file);;
      save_system_files fs self rest
  end.

(** [json.dump] raises on a value or a key that JSON does not have, with
    the file open and partly written. *)
Definition save_pos_data (fs : filesystem) (self : MenuConverter)
    (pos : pos_items) : M unit :=
  let pos_file := (data_dir self ++ ["pos-menu-data.yaml"])%list in
  write_file fs pos_file (YamlDump pos);;
  logger_info ("Saved POS menu data to " +:+ path_str pos_file);;
  let json_file := (data_dir self ++ ["pos-menu-data.json"])%list in
  write_file fs json_file (JsonDump pos);;
  lift (json_items pos);;
  logger_info ("Saved POS menu data to " +:+ path_str json_file);;
  save_system_files fs self (pos_systems pos).

(** [f"{x:.2f}"]: a number takes the format and a string or [None] does
    not; an opaque object is taken to refuse it, as a list or a mapping
    does. After validation the price is a float. *)
Definition format_2f (v : pyval) : outcome pyval :=
  match v with
  | PyStr _ => Raise ValueError
  | PyNone | PyObj _ _ => Raise TypeError
  | _ => Return v
  end.

(** [s in t] for strings: [s] occurs in [t]. *)
Fixpoint occurs_in (s t : string) : bool :=
  String.prefix s t ||
  match t with
  | EmptyString => false
  | String _ t' => occurs_in s t'
  end.

(** [slug in n]: a key of a mapping, an element of a list or a set, a
    part of a string; nothing else can be searched. *)
Definition node_contains (n : yaml_node) (slug : string) : outcome bool :=
  match n with
  | NMap d => Return (bool_decide (is_Some (d !! slug)))
  | NSeq elems => Return (existsb (fun v => key_eqb v (PyStr slug)) elems)
  | NAtom (PyStr s) => Return (occurs_in slug s)
  | NAtom _ => Raise TypeError
  end.

(** The rows of the report written before the loop ends or raises. *)
Fixpoint report_rows (loyverse_mappings odoo_mappings : yaml_node)
    (menu_items : menu) : list report_row * option exn :=
  match menu_items with
  | [] => ([], None)
  | (slug, item_data) :: rest =>
      let row :=
        loyverse_mapped ← node_contains loyverse_mappings slug;
        odoo_mapped ← node_contains odoo_mappings slug;
        title ← getitem item_data "title";
        category ← getitem item_data "category";
        price ← getitem item_data "price_numeric";
        price ← format_2f price;
        mret (ReportRow slug title category price
                loyverse_mapped odoo_mapped) in
      match row with
      | Raise e => ([], Some e)
      | Return r =>
          let '(rows, failure) :=
            report_rows loyverse_mappings odoo_mappings rest in
          (r :: rows, failure)
      end
  end.

Definition generate_mapping_report (fs : filesystem) (self : MenuConverter)
    (menu_items : menu) : M unit :=
  let report_file := (data_dir self ++ ["mapping-report.md"])%list in
  if negb (writable fs report_file) then raise OSError
  else
    let mappings :=
      global_mappings ← node_get (pos_mapping self) "global" (NMap ∅);
      loyverse_mappings ← system_items global_mappings "loyverse";
      odoo_mappings ← system_items global_mappings "odoo";
      mret (loyverse_mappings, odoo_mappings) in
    match mappings with
    | Raise e =>
        emit (WriteFile report_file
                (ReportHeading (cwd fs) (length menu_items)));;
        raise e
    | Return (loyverse_mappings, odoo_mappings) =>
        let '(rows, failure) :=
          report_rows loyverse_mappings odoo_mappings menu_items in
        emit (WriteFile report_file
                (Report (cwd fs) (length menu_items) rows));;
        match failure with
        | Some e => raise e
        | None =>
            logger_info ("Generated mapping report: " +:+ path_str report_file)
        end
    end.

Definition run_conversion (fs : filesystem) (self : MenuConverter) : M unit :=
  logger_info "Starting menu conversion process...";;
  self ← load_pos_mapping fs self;
  self ← load_menu_data fs self;
  menu_items ← scan_menu_items fs self;
  match menu_items with
  | [] => logger_warning "No menu items found"
  | _ =>
      pos ← lift (convert_to_pos_format self menu_items);
      save_pos_data fs self pos;;
      generate_mapping_report fs self menu_items;;
      logger_info "Menu conversion completed successfully!"
  end.

End MenuConverter.

(** ** A loader for the examples

    The theorems below hold for every loader. To run the definitions on
    concrete files, [flat_yaml] reads the flat fragment of YAML that menu
    front matter is written in: one [key: value] per line, where a value is
    a single-quoted string, a decimal integer, [true], [false], nothing, or
    else a plain string. A lone line without a colon is a plain scalar; any
    other text is rejected. *)

Fixpoint split_colon (s : string) : option (string * string) :=
  match s with
  | EmptyString => None
  | String c r =>
      if Ascii.eqb c ":" then Some (EmptyString, r)
      else match split_colon r with
           | Some (k, v) => Some (String c k, v)
           | None => None
           end
  end.

Definition flat_scalar (s : string) : loaded pyval :=
  match s with
  | EmptyString => Loaded PyNone
  | String c r =>
      if Ascii.eqb c "'" then
        if Py.endswith r "'"
        then Loaded (PyStr (String.substring 0 (String.length r - 1) r))
        else Malformed
      else if String.eqb s "true" then Loaded (PyBool true)
      else if String.eqb s "false" then Loaded (PyBool false)
      else match Py.span_digits s with
           | (_, EmptyString) => Loaded (PyInt (Z.of_N (Py.digits_value s)))
           | _ => Loaded (PyStr s)
           end
  end.

Fixpoint flat_fields (lines : list string) (d : item) : loaded item :=
  match lines with
  | [] => Loaded d
  | line :: rest =>
      match split_colon line with
      | None => Malformed
      | Some (k, v) =>
          match flat_scalar (Py.strip v) with
          | Loaded x => flat_fields rest (<[Py.strip k := x]> d)
          | Failed e => Failed e
          end
      end
  end.

Definition flat_yaml (text : string) : loaded yaml_value :=
  let lines :=
    List.filter (fun l => negb (String.eqb (Py.strip l) ""))
                (Py.split "010" text) in
  match lines with
  | [] => Loaded (YVal PyNone)
  | [line] =>
      match split_colon line with
      | None => Loaded (YVal (PyStr (Py.strip line)))
      | Some _ =>
          match flat_fields lines ∅ with
          | Loaded d => Loaded (YMap d)
          | Failed e => Failed e
          end
      end
  | _ =>
      match flat_fields lines ∅ with
      | Loaded d => Loaded (YMap d)
      | Failed e => Failed e
      end
  end.

(** A mapping loader for runs without a mapping file: every text is the
    empty document. *)
Definition no_mapping (text : string) : loaded yaml_node :=
  Loaded (NAtom PyNone).

(** Serialisers for the examples: an opaque object is refused by [json]
    and read back as it was by [yaml]. *)
Definition json_refuses (o : pyval) : outcome pyval := Raise TypeError.

Definition yaml_keeps (o : pyval) : outcome pyval := Return o.

(** The file of the scenario: [content/rolls/spicy-tuna.md]. *)
Definition spicy_tuna_md : string :=
"---
title: Spicy Tuna Roll
price: '$12.50'
---
Fresh tuna.
".

Definition hugo : MenuConverter := init ["content"] ["data"].

(** ** Vocabulary of the properties *)

(** [s] with every character of [cs] removed. *)
Fixpoint without_chars (cs : list ascii) (s : string) : string :=
  match s with
  | EmptyString => EmptyString
  | String c s' =>
      if existsb (Ascii.eqb c) cs then without_chars cs s'
      else String c (without_chars cs s')
  end.

(** The verdict of the validator. *)
Definition accepts (item_data : item) : bool :=
  match validate_menu_item item_data with
  | (Return (ok, _), _) => ok
  | (Raise _, _) => false
  end.

(** The field is present and truthy (for a string: non-empty). *)
Definition present (field : string) (item_data : item) : bool :=
  match item_data !! field with
  | Some v => truthy v
  | None => false
  end.

(** The price, stripped of ['$'] and [','], reads as a number. *)
Definition price_number (item_data : item) : option Py.pyfloat :=
  match item_data !! "price" with
  | Some v => Py.float (without_chars ["$"; ","]%char (py_str v))
  | None => None
  end.

(** ... and that number is not negative. *)
Definition price_nonneg (item_data : item) : bool :=
  match price_number item_data with
  | Some f => Py.nonneg f
  | None => false
  end.

(** The entries of a level of the mapping: those of a mapping, and none
    of anything else. *)
Definition entries (n : yaml_node) : gmap string yaml_node :=
  match n with
  | NMap d => d
  | _ => ∅
  end.

(** The explicit entry of the loaded mapping for a system and a slug,
    [pos_mapping['global'][system]['items'][slug]], when every level down
    to it exists and is a mapping. *)
Definition explicit_entry (self : MenuConverter) (system slug : string)
  : option yaml_node :=
  global_mappings ← entries (pos_mapping self) !! "global";
  system_mappings ← entries global_mappings !! system;
  items ← entries system_mappings !! "items";
  entries items !! slug.

(** The identifier the item of [slug] is due in [system]. *)
Definition expected_id (self : MenuConverter) (system slug : string)
  : yaml_node :=
  match explicit_entry self system slug with
  | Some id => id
  | None => NAtom (PyStr ("omg-sushi-" +:+ slug))
  end.

(** A level that the lookups pass through is in order when it is absent or
    a mapping; the mapping is well shaped for a system when the document
    and its levels ['global'], the system and ['items'] are. *)
Definition mapping_or_absent (level : option yaml_node) : bool :=
  match level with
  | None | Some (NMap _) => true
  | Some _ => false
  end.

Definition well_shaped (self : MenuConverter) (system : string) : bool :=
  mapping_or_absent (Some (pos_mapping self)) &&
  mapping_or_absent (entries (pos_mapping self) !! "global") &&
  mapping_or_absent (global_mappings ← entries (pos_mapping self) !! "global";
                     entries global_mappings !! system) &&
  mapping_or_absent (global_mappings ← entries (pos_mapping self) !! "global";
                     system_mappings ← entries global_mappings !! system;
                     entries system_mappings !! "items").

(** An identifier that can be a key: a scalar, not a list or a mapping. *)
Definition hashable (id : yaml_node) : bool :=
  match id with
  | NAtom _ => true
  | _ => false
  end.

(** The mapping serves the items of a menu: it is well shaped for both
    systems and the identifiers due to the items can be keys. *)
Definition usable_mapping (self : MenuConverter) (menu_items : menu) : Prop :=
  well_shaped self "loyverse" = true /\
  well_shaped self "odoo" = true /\
  forall slug, slug ∈ menu_items.*1 ->
    hashable (expected_id self "loyverse" slug) = true /\
    hashable (expected_id self "odoo" slug) = true.

(** An item as validation and parsing leave it: the fields the transformer
    reads without a default are there. *)
Definition valid_item (item_data : item) : Prop :=
  is_Some (item_data !! "title") ∧
  is_Some (item_data !! "price_numeric") ∧
  is_Some (item_data !! "category").

Definition valid_menu (menu_items : menu) : Prop :=
  Forall (fun e => valid_item (snd e)) menu_items.

(** The first line of a text, and the lines of its front-matter block. *)
Definition first_line (content : string) : string :=
  List.hd "" (Py.split "010" content).

Definition front_matter_lines (content : string) : list string :=
  fst (front_matter_loop (Py.split "010" content) 0 false []).

Definition front_matter_text (content : string) : string :=
  Py.join (String "010" "") (front_matter_lines content).

(** The body text of a file: what follows the second delimiter, stripped. *)
Definition body_text (content : string) : string :=
  let lines := Py.split "010" content in
  Py.strip (Py.join (String "010" "")
              (drop (snd (front_matter_loop lines 0 false [])) lines)).

(** The record the parser hands to the validator: the fields of the front
    matter [d] and, over them, the computed ones. *)
Definition prepared_item (file_path : path) (content category : string)
    (d : item) : item :=
  <["content" := PyStr (body_text content)]>
    (<["category" := PyStr category]>
       (<["file_path" := PyStr (path_str file_path)]>
          (<["slug" := PyStr (path_stem file_path)]> d))).

(** The category a file is due by its path relative to the content root. *)
Definition category_of (relative : path) : string :=
  match relative with
  | segment :: _ :: _ => segment
  | _ => "uncategorized"
  end.

(** Insertions into a table, in order. *)
Definition insert_all (steps : list (pyval * pos_record)) (t : pos_table)
  : pos_table :=
  foldl (fun t e => table_set (fst e) (snd e) t) t steps.

(** The insertion an item causes in the table of a system: the key is the
    identifier computed for its slug, the value the record built for it. *)
Definition loyverse_step (self : MenuConverter) (e : string * item)
    (s : pyval * pos_record) : Prop :=
  loyverse_id self (fst e) = Return (NAtom (fst s)) /\
  loyverse_record (snd e) (fst e) (NAtom (fst s)) = Return s.

Definition odoo_step (self : MenuConverter) (e : string * item)
    (s : pyval * pos_record) : Prop :=
  odoo_id self (fst e) = Return (NAtom (fst s)) /\
  odoo_record (snd e) (fst e) (NAtom (fst s)) = Return s.

(** The keys of a table, as Python compares them. *)
Definition table_keys (t : pos_table) : list pyval := key_norm <$> t.*1.

(** The key an identifier is in a table, when it can be one. *)
Definition id_key (id : yaml_node) : option pyval :=
  match id with
  | NAtom v => Some (key_norm v)
  | _ => None
  end.

(** A value that YAML and JSON both read back as it was: a string, a
    number that is not NaN, a boolean or [None]; and an opaque object when
    the two libraries read it back so (a list of such values, not a date). *)
Definition read_back (json yaml : pyval -> outcome pyval) (v : pyval) : Prop :=
  match v with
  | PyObj _ _ => json v = Return v /\ yaml v = Return v
  | PyFloat Py.FNan => False
  | _ => True
  end.

Definition plain_record (json yaml : pyval -> outcome pyval) (r : pos_record)
  : Prop :=
  Forall (fun field => read_back json yaml (snd field)) r.

Definition string_key (k : pyval) : bool :=
  match k with
  | PyStr _ => true
  | _ => false
  end.

(** A table of such records under string identifiers, as a dict has them:
    no identifier twice. *)
Definition plain_table (json yaml : pyval -> outcome pyval) (t : pos_table)
  : Prop :=
  NoDup (table_keys t) /\
  Forall (fun e => string_key (fst e) = true /\
                   plain_record json yaml (snd e)) t.

(** Equal data, whatever the order of the keys: each key is bound in both
    tables or in neither, and to records with the same fields. *)
Definition same_record (r1 r2 : pos_record) : Prop :=
  forall field, dict_get field r1 = dict_get field r2.

Definition same_table (t1 t2 : pos_table) : Prop :=
  forall k,
    match table_get k t1, table_get k t2 with
    | Some r1, Some r2 => same_record r1 r2
    | None, None => True
    | _, _ => False
    end.

(** The two warnings of the validator. *)
Definition missing_field_warning (item_data : item) (field : string) : event :=
  Log WARNING ("Menu item missing required field '" +:+ field +:+ "': "
               +:+ py_str (get item_data "slug" (PyStr "unknown"))).

Definition invalid_price_warning (item_data : item) : event :=
  Log WARNING ("Invalid price format for item "
               +:+ py_str (get item_data "slug" (PyStr "unknown"))
               +:+ ": " +:+ py_str (get item_data "price" PyNone)).

(** The error the parser logs for a block that does not load. *)
Definition yaml_error_log (file_path : path) : event :=
  Log ERROR ("Error parsing YAML in " +:+ path_str file_path
             +:+ ": " +:+ exn_str YAMLError).

(** An entry that a scan of [files] puts in the menu: the item parsed from
    one of the files, under the stem of its name. *)
Definition scanned (loader : string -> loaded yaml_value)
    (self : MenuConverter) (files : list (path * option string))
    (e : string * item) : Prop :=
  exists relative content tp,
    (relative, Some content) ∈ files /\
    parse_menu_item loader self (content_dir self ++ relative) content
      = (Return (Some (snd e)), tp) /\
    fst e = path_stem (content_dir self ++ relative).

(** ** Example data *)

Definition negative_price_item : item :=
  {[ "title" := PyStr "Roll"; "price" := PyStr "-5" ]}.

Definition zero_price_item : item :=
  {[ "title" := PyStr "Roll"; "price" := PyInt 0 ]}.

Definition plain_item (title : string) : item :=
  {[ "title" := PyStr title;
     "price" := PyStr "8";
     "price_numeric" := PyFloat (Py.FDec false 8 0);
     "category" := PyStr "rolls" ]}.

Definition two_items : menu :=
  [("maki", plain_item "Maki"); ("nigiri", plain_item "Nigiri")].

(** A mapping that gives both slugs the same Loyverse identifier. *)
Definition shared_id_mapping : yaml_node :=
  NMap {[ "global" :=
    NMap {[ "loyverse" :=
      NMap {[ "items" :=
        NMap {[ "maki" := NAtom (PyStr "L-1");
                "nigiri" := NAtom (PyStr "L-1") ]} ]} ]} ]}.

Definition shared_id_converter : MenuConverter :=
  Converter ["content"] ["data"] (YMap ∅) shared_id_mapping.

(** A mapping that gives the spicy tuna roll a Loyverse identifier, one
    whose [items:] level was left empty, and one whose identifier is a
    number. *)
Definition spicy_tuna_mapping (id : yaml_node) : yaml_node :=
  NMap {[ "global" :=
    NMap {[ "loyverse" := NMap {[ "items" := NMap {[ "spicy-tuna" := id ]} ]} ]} ]}.

Definition mapped_converter : MenuConverter :=
  Converter ["content"] ["data"] (YMap ∅)
    (spicy_tuna_mapping (NAtom (PyStr "LV-7"))).

Definition empty_items_mapping : yaml_node :=
  NMap {[ "global" :=
    NMap {[ "loyverse" := NMap {[ "items" := NAtom PyNone ]} ]} ]}.

Definition empty_items_converter : MenuConverter :=
  Converter ["content"] ["data"] (YMap ∅) empty_items_mapping.

Definition int_id_converter : MenuConverter :=
  Converter ["content"] ["data"] (YMap ∅)
    (spicy_tuna_mapping (NAtom (PyInt 1042))).

Definition spicy_tuna_path : path := ["content"; "rolls"; "spicy-tuna.md"].

Definition empty_tree : filesystem :=
  FileSystem [] ∅ ["srv"; "site"] (fun _ => true).

(** The item the parser makes of that file. *)
Definition spicy_tuna_item : item :=
  {[ "title" := PyStr "Spicy Tuna Roll";
     "price" := PyStr "$12.50";
     "slug" := PyStr "spicy-tuna";
     "file_path" := PyStr "content/rolls/spicy-tuna.md";
     "category" := PyStr "rolls";
     "content" := PyStr "Fresh tuna.";
     "price_numeric" := PyFloat (Py.FDec false 125 (-1)) ]}.

(** A content tree with one menu item, an index file and a stray file. *)
Definition one_item_tree : filesystem :=
  FileSystem
    [(["rolls"; "spicy-tuna.md"], Some spicy_tuna_md);
     (["rolls"; "_index.md"], Some spicy_tuna_md);
     (["notes.txt"], Some "x")]
    ∅ ["srv"; "site"] (fun _ => true).

(** A file whose front matter does not parse. *)
Definition broken_md : string :=
"---
title: 'Spicy
---
".


(** ** Vocabulary of the further properties *)

(** What one file of the walk adds to the menu: nothing for an index file,
    for a file that cannot be read and for a parse that yields no item or
    raises; otherwise the parsed item, under the stem of the file name. *)
Definition contribution (loader : string -> loaded yaml_value)
    (self : MenuConverter) (f : path * option string)
  : option (string * item) :=
  let content_file := (content_dir self ++ fst f)%list in
  if Py.startswith (path_name content_file) "_index.md" then None
  else
    match snd f with
    | None => None
    | Some content =>
        match parse_menu_item loader self content_file content with
        | (Return (Some parsed), _) => Some (path_stem content_file, parsed)
        | _ => None
        end
    end.

(** The menu that a sequence of entries builds, assigned in order. *)
Definition menu_of (entries : list (string * item)) (menu0 : menu) : menu :=
  foldl (fun m e => dict_set (fst e) (snd e) m) menu0 entries.

(** A second file with the stem of the first, in another directory, and a
    tree that holds both and a file that does not parse. *)
Definition specials_tree : filesystem :=
  FileSystem
    [(["rolls"; "spicy-tuna.md"], Some spicy_tuna_md);
     (["rolls"; "broken.md"], Some broken_md);
     (["specials"; "spicy-tuna.md"], Some spicy_tuna_md)]
    ∅ ["srv"; "site"] (fun _ => true).

(** The fields the parser and the validator compute. *)
Definition computed_fields : list string :=
  ["slug"; "file_path"; "category"; "content"; "price_numeric"].

(** A line: a string without a newline character. *)
Fixpoint no_newline (s : string) : bool :=
  match s with
  | EmptyString => true
  | String c s' => negb (Ascii.eqb c "010") && no_newline s'
  end.

(** An unterminated front matter. *)
Definition unclosed_md : string :=
"---
title: Edamame
price: 4".

(** The first of [fields] that is not a key of the item, if any. *)
Fixpoint first_absent (fields : list string) (item_data : item)
  : option string :=
  match fields with
  | [] => None
  | field :: rest =>
      match item_data !! field with
      | Some _ => first_absent rest item_data
      | None => Some field
      end
  end.

(** The fields the transformer reads without a default, in the order it
    reads them. *)
Definition mandatory_fields : list string :=
  ["title"; "price_numeric"; "category"].

(** An item that skipped validation: it has no [price_numeric]. *)
Definition unvalidated_item : item :=
  {[ "title" := PyStr "Gyoza"; "price" := PyStr "6";
     "category" := PyStr "sides" ]}.

(** The files a trace writes, with what is written to each. *)
Definition writes (t : list event) : list (path * payload) :=
  omap (fun e => match e with
                 | WriteFile f data => Some (f, data)
                 | Log _ _ => None
                 end) t.

(** An item the report can print: it has a title and a category, and its
    [price_numeric] is a float. *)
Definition reportable (item_data : item) : Prop :=
  is_Some (item_data !! "title") /\
  is_Some (item_data !! "category") /\
  exists f, item_data !! "price_numeric" = Some (PyFloat f).

(** The five output files, in the order they are written. *)
Definition output_files (self : MenuConverter) : list path :=
  [(data_dir self ++ ["pos-menu-data.yaml"])%list;
   (data_dir self ++ ["pos-menu-data.json"])%list;
   (data_dir self ++ ["pos-menu-loyverse.yaml"])%list;
   (data_dir self ++ ["pos-menu-odoo.yaml"])%list;
   (data_dir self ++ ["mapping-report.md"])%list].

(** * Properties *)

(** ** Strings and paths *)

Lemma prefix_single (c a : ascii) (s : string) :
  String.prefix (String c "") (String a s) = Ascii.eqb a c.
Proof.
  simpl. destruct (ascii_dec c a) as [->|Hne].
  - rewrite Ascii.eqb_refl. now destruct s.
  - symmetry. apply Ascii.eqb_neq. congruence.
Qed.

Lemma replace_single_char (c : ascii) (s : string) :
  Py.replace s (String c "") "" = without_chars [c] s.
Proof.
  unfold Py.replace. induction s as [|a s IH].
  - reflexivity.
  - cbn [Py.replace_from without_chars existsb].
    rewrite prefix_single, orb_false_r.
    destruct (Ascii.eqb a c); cbn; now rewrite IH.
Qed.

Lemma without_chars_twice (c1 c2 : ascii) (s : string) :
  without_chars [c2] (without_chars [c1] s) = without_chars [c1; c2] s.
Proof.
  induction s as [|a s IH]; cbn; [reflexivity|].
  destruct (Ascii.eqb a c1); cbn.
  - exact IH.
  - destruct (Ascii.eqb a c2); cbn; now rewrite IH.
Qed.

(** The two [replace] calls of the validator remove exactly the ['$'] and
    [','] characters. *)
Lemma price_text_strips (v : pyval) :
  price_text v = without_chars ["$"; ","]%char (py_str v).
Proof.
  unfold price_text. now rewrite !replace_single_char, without_chars_twice.
Qed.

Lemma relative_to_app (base relative : path) :
  relative_to (base ++ relative) base = Some relative.
Proof.
  induction base as [|b base IH]; cbn; [reflexivity|].
  now rewrite String.eqb_refl.
Qed.

Lemma path_name_app (dirs : path) (name : string) :
  path_name (dirs ++ [name]) = name.
Proof. unfold path_name. apply last_last. Qed.

Lemma append_nil (s : string) : "" +:+ s = s.
Proof. reflexivity. Qed.

Lemma append_cons (a : ascii) (s1 s2 : string) :
  String a s1 +:+ s2 = String a (s1 +:+ s2).
Proof. reflexivity. Qed.

Lemma rfind_dot_extension (base ext : string) :
  rfind_dot ext = None ->
  rfind_dot (base +:+ String "." ext) = Some (String.length base).
Proof.
  intros Hext. induction base as [|a base IH].
  - rewrite append_nil. cbn. now rewrite Hext.
  - rewrite append_cons. cbn. now rewrite IH.
Qed.

Lemma length_append (s1 s2 : string) :
  String.length (s1 +:+ s2) = String.length s1 + String.length s2.
Proof.
  induction s1 as [|a s1 IH]; [reflexivity|].
  rewrite append_cons. cbn. now rewrite IH.
Qed.

Lemma substring_append (s1 s2 : string) :
  String.substring 0 (String.length s1) (s1 +:+ s2) = s1.
Proof.
  induction s1 as [|a s1 IH].
  - rewrite append_nil. now destruct s2.
  - rewrite append_cons. cbn. now rewrite IH.
Qed.

(** [stem] strips a last extension: a name [base.ext] with a non-empty
    [base] and a non-empty, dot-free [ext] has stem [base]. *)
Lemma path_stem_extension (dirs : path) (base ext : string) :
  base <> "" -> ext <> "" -> rfind_dot ext = None ->
  path_stem (dirs ++ [base +:+ String "." ext]) = base.
Proof.
  intros Hbase Hext Hdot. unfold path_stem.
  rewrite path_name_app, rfind_dot_extension by assumption.
  rewrite length_append. cbn [String.length].
  assert (0 < String.length base) by (destruct base; cbn; [congruence | lia]).
  assert (0 < String.length ext) by (destruct ext; cbn; [congruence | lia]).
  replace ((0 <? String.length base)%nat) with true
    by (symmetry; apply Nat.ltb_lt; lia).
  replace ((String.length base <?
            String.length base + S (String.length ext) - 1)%nat) with true
    by (symmetry; apply Nat.ltb_lt; lia).
  apply substring_append.
Qed.

(** ** The validator *)

Lemma first_missing_required (d : item) :
  first_missing required_fields d =
    if present "title" d then
      if present "price" d then None else Some "price"
    else Some "title".
Proof.
  unfold required_fields, present. cbn.
  destruct (d !! "title") as [t|]; [|reflexivity].
  destruct (truthy t); [|reflexivity].
  destruct (d !! "price") as [p|]; [|reflexivity].
  now destruct (truthy p).
Qed.

(** The three ways out of [validate_menu_item]. *)
Lemma validate_menu_item_cases (d : item) :
  validate_menu_item d =
    match first_missing required_fields d with
    | Some field => (Return (false, d), [missing_field_warning d field])
    | None =>
        match Py.float (price_text (get d "price" PyNone)) with
        | Some f => (Return (true, <["price_numeric" := PyFloat f]> d), [])
        | None => (Return (false, d), [invalid_price_warning d])
        end
    end.
Proof.
  unfold validate_menu_item.
  destruct (first_missing required_fields d); [reflexivity|].
  now destruct (Py.float (price_text (get d "price" PyNone))).
Qed.

Lemma price_number_get (d : item) (p : pyval) :
  d !! "price" = Some p ->
  Py.float (price_text (get d "price" PyNone)) = price_number d.
Proof.
  intros Hp. unfold get, price_number. rewrite Hp. cbn.
  now rewrite price_text_strips.
Qed.

Lemma present_Some (field : string) (d : item) :
  present field d = true -> exists v, d !! field = Some v /\ truthy v = true.
Proof.
  unfold present. destruct (d !! field) as [v|]; [eauto | discriminate].
Qed.

(** An accepted item: what was checked, and what was added. *)
Lemma validate_menu_item_true (d d' : item) (t : list event) :
  validate_menu_item d = (Return (true, d'), t) ->
  exists price f,
    d !! "price" = Some price /\ truthy price = true /\
    present "title" d = true /\
    Py.float (without_chars ["$"; ","]%char (py_str price)) = Some f /\
    d' = <["price_numeric" := PyFloat f]> d /\ t = [].
Proof.
  rewrite validate_menu_item_cases, first_missing_required.
  destruct (present "title" d) eqn:Ht; [|discriminate].
  destruct (present "price" d) eqn:Hp; [|discriminate].
  destruct (present_Some _ _ Hp) as (p & Hlook & Htruth).
  rewrite (price_number_get d p Hlook).
  unfold price_number. rewrite Hlook.
  destruct (Py.float _) as [f|] eqn:Hf; [|discriminate].
  intros [= <- <-]. now exists p, f.
Qed.

(** C1, as amended. The validator accepts a record if and only if its
    [title] and [price] fields are present and truthy and the price, with
    every ['$'] and [','] removed, reads as a number, of either sign;
    otherwise it returns [False], leaves the record as it was and logs one
    warning. It never raises. *)
Theorem validate_menu_item_accepts (d : item) :
  (accepts d = true <->
     present "title" d = true /\ present "price" d = true /\
     is_Some (price_number d)) /\
  (accepts d = false ->
     exists w, validate_menu_item d = (Return (false, d), [w])).
Proof.
  unfold accepts. rewrite validate_menu_item_cases, first_missing_required.
  destruct (present "title" d) eqn:Ht.
  2:{ split; [split; [discriminate | intros (? & _); discriminate] | eauto]. }
  destruct (present "price" d) eqn:Hp.
  2:{ split; [split; [discriminate | intros (_ & ? & _); discriminate] | eauto]. }
  destruct (present_Some _ _ Hp) as (p & Hlook & _).
  rewrite (price_number_get d p Hlook).
  destruct (price_number d) as [f|] eqn:Hf.
  - split; [split; [eauto | reflexivity] | discriminate].
  - split; [split; [discriminate | intros (_ & _ & [? ?]); discriminate] | eauto].
Qed.

(** C1, as stated, fails: a record with a title and the price ["-5"] is
    accepted, although its price is not a non-negative number. *)
Lemma validate_menu_item_negative_price :
  ~ (accepts negative_price_item = true <->
       present "title" negative_price_item = true /\
       price_nonneg negative_price_item = true).
Proof.
  intros [Hto _].
  assert (Hacc : accepts negative_price_item = true) by (vm_compute; reflexivity).
  destruct (Hto Hacc) as [_ Hneg].
  vm_compute in Hneg. discriminate.
Qed.

(** C9. A record whose [price] is falsy (the number 0, an empty string) is
    rejected by the required-field check, with the warning for a missing
    field, which names [price] when the title is in order; and yet the
    price 0 reads as a non-negative number. *)
Theorem validate_menu_item_falsy_price (d : item) (v : pyval) :
  d !! "price" = Some v -> truthy v = false ->
  accepts d = false /\
  (exists field,
     first_missing required_fields d = Some field /\
     validate_menu_item d = (Return (false, d), [missing_field_warning d field]) /\
     (present "title" d = true -> field = "price")) /\
  (v = PyInt 0 -> price_nonneg d = true).
Proof.
  intros Hlook Hfalsy.
  assert (Hp : present "price" d = false) by (unfold present; now rewrite Hlook).
  unfold accepts. rewrite validate_menu_item_cases, first_missing_required, Hp.
  split; [now destruct (present "title" d)|]. split.
  - destruct (present "title" d).
    + exists "price". auto.
    + exists "title". repeat split. discriminate.
  - intros ->. unfold price_nonneg, price_number. rewrite Hlook.
    vm_compute. reflexivity.
Qed.

Lemma validate_menu_item_zero_price :
  accepts zero_price_item = false /\ price_nonneg zero_price_item = true.
Proof.
  destruct (validate_menu_item_falsy_price zero_price_item (PyInt 0))
    as (Hrej & _ & Hnum).
  - vm_compute; reflexivity.
  - reflexivity.
  - split; [exact Hrej | now apply Hnum].
Defined.

(** ** The front-matter parser *)

(** The ways through [parse_menu_item], in the order the method takes them. *)
Lemma parse_menu_item_cases loader self fp content :
  parse_menu_item loader self fp content =
    if negb (Py.startswith (first_line content) "---") then (Return None, [])
    else
      match front_matter_lines content with
      | [] => (Return None, [])
      | _ :: _ =>
          match loader (front_matter_text content) with
          | Failed YAMLError => (Return None, [yaml_error_log fp])
          | Failed e => (Raise e, [])
          | Loaded y =>
              match or_empty y with
              | YVal _ => (Raise TypeError, [])
              | YMap d =>
                  match extract_category self fp with
                  | Raise e => (Raise e, [])
                  | Return category =>
                      match validate_menu_item
                              (prepared_item fp content category d) with
                      | (Return (true, parsed), t) => (Return (Some parsed), t)
                      | (Return (false, _), t) => (Return None, t)
                      | (Raise e, t) => (Raise e, t)
                      end
                  end
              end
          end
      end.
Proof.
  unfold parse_menu_item, first_line, front_matter_text, front_matter_lines,
    prepared_item, body_text.
  destruct (Py.split "010" content) as [|first rest] eqn:Hlines.
  { cbn. now destruct (Py.startswith "" "---"). }
  cbn [hd].
  destruct (Py.startswith first "---"); cbn [negb]; [|reflexivity].
  destruct (front_matter_loop (first :: rest) 0 false []) as [fm start].
  cbn [fst snd].
  destruct fm as [|l fm]; [reflexivity|].
  destruct (loader _) as [y|e]; [|now destruct e].
  destruct (or_empty y) as [d|v]; [|reflexivity].
  destruct (extract_category self fp) as [cat|e]; [|reflexivity].
  unfold lift, mbind, M_bind at 1.
  rewrite validate_menu_item_cases.
  destruct (first_missing required_fields _); [reflexivity|].
  now destruct (Py.float _).
Qed.

(** A parsed item comes from a front-matter mapping that was loaded, given
    its computed fields and accepted by the validator. *)
Lemma parse_menu_item_some loader self fp content (parsed : item) t :
  parse_menu_item loader self fp content = (Return (Some parsed), t) ->
  exists y d category,
    Py.startswith (first_line content) "---" = true /\
    loader (front_matter_text content) = Loaded y /\
    or_empty y = YMap d /\
    extract_category self fp = Return category /\
    validate_menu_item (prepared_item fp content category d)
      = (Return (true, parsed), t).
Proof.
  rewrite parse_menu_item_cases.
  destruct (Py.startswith (first_line content) "---"); [|discriminate].
  destruct (front_matter_lines content); [discriminate|].
  destruct (loader _) as [y|e]; [|destruct e; discriminate].
  destruct (or_empty y) as [d|v] eqn:Hor; [|discriminate].
  destruct (extract_category self fp) as [cat|e]; [|discriminate].
  destruct (validate_menu_item _) as [[[[|] d'] | e] t'] eqn:Hval;
    try discriminate.
  intros [= <- <-]. exists y, d, cat. auto.
Qed.

Lemma extract_category_under_root (self : MenuConverter) (relative : path) :
  extract_category self (content_dir self ++ relative)
    = Return (category_of relative).
Proof.
  unfold extract_category. rewrite relative_to_app.
  destruct relative as [|segment [|next more]]; reflexivity.
Qed.

(** The fields of a parsed item. *)
Lemma parse_menu_item_fields loader self fp content (parsed : item) t :
  parse_menu_item loader self fp content = (Return (Some parsed), t) ->
  exists y d category price f,
    loader (front_matter_text content) = Loaded y /\
    or_empty y = YMap d /\
    extract_category self fp = Return category /\
    d !! "price" = Some price /\
    Py.float (without_chars ["$"; ","]%char (py_str price)) = Some f /\
    parsed !! "price" = Some price /\
    parsed !! "price_numeric" = Some (PyFloat f) /\
    parsed !! "slug" = Some (PyStr (path_stem fp)) /\
    parsed !! "category" = Some (PyStr category) /\
    is_Some (parsed !! "title").
Proof.
  intros Hparse.
  destruct (parse_menu_item_some _ _ _ _ _ _ Hparse)
    as (y & d & category & _ & Hload & Hor & Hcat & Hval).
  destruct (validate_menu_item_true _ _ _ Hval)
    as (price & f & Hprice & _ & Htitle & Hfloat & -> & _).
  exists y, d, category, price, f.
  unfold prepared_item in *.
  destruct (present_Some _ _ Htitle) as (title & Htitle' & _).
  simplify_map_eq. repeat split; eauto.
Qed.

Example parse_spicy_tuna :
  parse_menu_item flat_yaml hugo spicy_tuna_path spicy_tuna_md
    = (Return (Some spicy_tuna_item), []).
Proof. vm_compute. reflexivity. Qed.

(** C2. For every content file that passes parsing and validation, the
    item's [price_numeric] is the float read from the front matter's
    [price], converted to a string, with every ['$'] and [','] removed; the
    [price] field itself is kept as it was. *)
Theorem parse_menu_item_price_numeric loader self fp content (parsed : item) t :
  parse_menu_item loader self fp content = (Return (Some parsed), t) ->
  exists y d price f,
    loader (front_matter_text content) = Loaded y /\
    or_empty y = YMap d /\
    d !! "price" = Some price /\
    parsed !! "price" = Some price /\
    Py.float (without_chars ["$"; ","]%char (py_str price)) = Some f /\
    parsed !! "price_numeric" = Some (PyFloat f).
Proof.
  intros Hparse.
  destruct (parse_menu_item_fields _ _ _ _ _ _ Hparse)
    as (y & d & category & price & f & ? & ? & _ & ? & ? & ? & ? & _).
  now exists y, d, price, f.
Qed.

Lemma spicy_tuna_price_numeric :
  parse_menu_item flat_yaml hugo spicy_tuna_path spicy_tuna_md
    = (Return (Some spicy_tuna_item), []) /\
  exists y d price f,
    flat_yaml (front_matter_text spicy_tuna_md) = Loaded y /\
    or_empty y = YMap d /\
    d !! "price" = Some price /\
    spicy_tuna_item !! "price" = Some price /\
    Py.float (without_chars ["$"; ","]%char (py_str price)) = Some f /\
    spicy_tuna_item !! "price_numeric" = Some (PyFloat f).
Proof.
  assert (H : parse_menu_item flat_yaml hugo spicy_tuna_path spicy_tuna_md
              = (Return (Some spicy_tuna_item), []))
    by (vm_compute; reflexivity).
  split; [exact H|].
  exact (parse_menu_item_price_numeric flat_yaml hugo spicy_tuna_path
           spicy_tuna_md spicy_tuna_item [] H).
Defined.

(** C5. For every parsed content file under the content root, the item's
    [category] is the first segment of the path relative to the root when
    the file sits in a subdirectory and ["uncategorized"] when it sits
    directly at the root, and its [slug] is the stem of the file name: for a
    name [base.ext], [base]. *)
Theorem parse_menu_item_slug_category loader self (relative : path) content
    (parsed : item) t :
  parse_menu_item loader self (content_dir self ++ relative) content
    = (Return (Some parsed), t) ->
  parsed !! "category" = Some (PyStr (category_of relative)) /\
  (forall name, relative = [name] ->
     parsed !! "category" = Some (PyStr "uncategorized")) /\
  (forall segment next more, relative = segment :: next :: more ->
     parsed !! "category" = Some (PyStr segment)) /\
  parsed !! "slug" = Some (PyStr (path_stem (content_dir self ++ relative))) /\
  (forall dirs base ext,
     relative = (dirs ++ [base +:+ String "." ext])%list ->
     base <> "" -> ext <> "" -> rfind_dot ext = None ->
     parsed !! "slug" = Some (PyStr base)).
Proof.
  intros Hparse.
  destruct (parse_menu_item_fields _ _ _ _ _ _ Hparse)
    as (y & d & category & price & f & _ & _ & Hcat & _ & _ & _ & _ & Hslug
          & Hcategory & _).
  rewrite extract_category_under_root in Hcat. injection Hcat as Heq. subst category.
  repeat split; try assumption.
  - now intros name ->.
  - now intros segment next more ->.
  - intros dirs base ext -> Hbase Hext Hdot.
    rewrite Hslug, app_assoc. now rewrite path_stem_extension.
Qed.

Lemma spicy_tuna_slug_category :
  spicy_tuna_item !! "category" = Some (PyStr "rolls") /\
  spicy_tuna_item !! "slug" = Some (PyStr "spicy-tuna").
Proof.
  assert (H : parse_menu_item flat_yaml hugo
                (content_dir hugo ++ ["rolls"; "spicy-tuna.md"]) spicy_tuna_md
              = (Return (Some spicy_tuna_item), []))
    by (vm_compute; reflexivity).
  destruct (parse_menu_item_slug_category flat_yaml hugo _ _ _ _ H)
    as (_ & _ & Hsub & _ & Hext).
  split.
  - exact (Hsub "rolls" "spicy-tuna.md" [] eq_refl).
  - apply (Hext ["rolls"] "spicy-tuna" "md"); [reflexivity | | | reflexivity];
      discriminate.
Defined.

Example parse_root_file_uncategorized :
  exists parsed,
    parse_menu_item flat_yaml hugo ["content"; "edamame.md"] spicy_tuna_md
      = (Return (Some parsed), []) /\
    parsed !! "category" = Some (PyStr "uncategorized") /\
    parsed !! "slug" = Some (PyStr "edamame").
Proof. eexists. vm_compute. repeat split. Qed.




Example parse_without_delimiter :
  parse_menu_item flat_yaml hugo spicy_tuna_path "title: Spicy Tuna Roll"
    = (Return None, []).
Proof. vm_compute. reflexivity. Qed.

Example parse_empty_block :
  parse_menu_item flat_yaml hugo spicy_tuna_path
    (Py.join (String "010" "") ["---"; "---"; "Fresh tuna."])
    = (Return None, []).
Proof. vm_compute. reflexivity. Qed.

(** A blank block loads as nothing: the item has no title and is dropped
    with a warning. *)
Example parse_blank_block :
  parse_menu_item flat_yaml hugo spicy_tuna_path
    (Py.join (String "010" "") ["---"; ""; "---"; "Fresh tuna."])
    = (Return None,
       [Log WARNING "Menu item missing required field 'title': spicy-tuna"]).
Proof. vm_compute. reflexivity. Qed.

(** ** The scanner and the run *)

Lemma bind_return {A B : Type} (a : A) (t : list event) (f : A -> M B) :
  ((Return a, t) : M A) ≫= f = (fst (f a), (t ++ snd (f a))%list).
Proof. unfold mbind, M_bind. now destruct (f a). Qed.

Lemma bind_raise {A B : Type} (e : exn) (t : list event) (f : A -> M B) :
  ((Raise e, t) : M A) ≫= f = (Raise e, t).
Proof. reflexivity. Qed.

Lemma written_app (t1 t2 : list event) :
  written (t1 ++ t2) = (written t1 ++ written t2)%list.
Proof. apply omap_app. Qed.

Lemma validate_menu_item_writes_nothing (d : item) :
  written (snd (validate_menu_item d)) = [].
Proof.
  rewrite validate_menu_item_cases.
  destruct (first_missing required_fields d); [reflexivity|].
  now destruct (Py.float _).
Qed.

Lemma parse_menu_item_writes_nothing loader self fp content :
  written (snd (parse_menu_item loader self fp content)) = [].
Proof.
  rewrite parse_menu_item_cases.
  destruct (negb _); [reflexivity|].
  destruct (front_matter_lines content); [reflexivity|].
  destruct (loader _) as [y|e]; [|now destruct e].
  destruct (or_empty y); [|reflexivity].
  destruct (extract_category self fp); [|reflexivity].
  pose proof (validate_menu_item_writes_nothing
                (prepared_item fp content a d)) as Hval.
  now destruct (validate_menu_item _) as [[[[|] ?]|?] ?].
Qed.

Lemma scan_file_returns loader self fp text (menu_items : menu) :
  exists menu' t,
    scan_file loader self fp text menu_items = (Return menu', t) /\
    written t = [] /\
    (menu' = menu_items \/
     exists content (parsed : item) tp,
       text = Some content /\
       parse_menu_item loader self fp content = (Return (Some parsed), tp) /\
       menu' = dict_set (path_stem fp) parsed menu_items).
Proof.
  unfold scan_file. destruct text as [content|].
  2:{ cbn. eauto 10. }
  pose proof (parse_menu_item_writes_nothing loader self fp content) as Hw.
  cbn [mbind M_bind mret M_ret].
  destruct (parse_menu_item loader self fp content) as [[[parsed|]|e] tp]
    eqn:Hparse; cbn [snd] in Hw.
  - destruct (parse_menu_item_fields _ _ _ _ _ _ Hparse)
      as (y & d & category & price & f & _ & _ & _ & _ & _ & _ & _ & Hslug & _).
    cbn. destruct (decide (parsed = ∅)) as [Hempty|Hne].
    + rewrite Hempty, lookup_empty in Hslug. discriminate.
    + unfold getitem. rewrite Hslug. cbn.
      exists (dict_set (path_stem fp) parsed menu_items), (tp ++ [])%list.
      rewrite written_app, Hw. eauto 10.
  - cbn. exists menu_items, (tp ++ [])%list. rewrite written_app, Hw. auto.
  - cbn. eexists menu_items, _. rewrite written_app, Hw. auto.
Qed.

Lemma dict_set_elem {A : Type} (k k' : string) (v v' : A) (d : list (string * A)) :
  (k', v') ∈ dict_set k v d -> (k' = k /\ v' = v) \/ (k', v') ∈ d.
Proof.
  induction d as [|[k0 v0] d IH]; cbn.
  - intros Hin. apply list_elem_of_singleton in Hin. injection Hin as -> ->. auto.
  - destruct (String.eqb_spec k0 k) as [->|Hne]; intros Hin;
      apply elem_of_cons in Hin as [Heq|Hin].
    + injection Heq as -> ->. auto.
    + right. now apply elem_of_cons; right.
    + right. rewrite Heq. apply elem_of_cons. now left.
    + destruct (IH Hin) as [?|?]; [now left|]. right. apply elem_of_cons. now right.
Qed.

Lemma dict_set_keys {A : Type} (k : string) (v : A) (d : list (string * A)) :
  ((dict_set k v d).*1 = d.*1) \/
  ((k ∉ (d.*1)) /\ ((dict_set k v d).*1 = (d.*1 ++ [k])%list)).
Proof.
  induction d as [|[k0 v0] d IH]; cbn.
  - right. split; [apply not_elem_of_nil | reflexivity].
  - destruct (String.eqb_spec k0 k) as [->|Hne]; cbn; [now left|].
    destruct IH as [-> | [Hnotin ->]]; [now left|].
    right. split; [|reflexivity].
    rewrite not_elem_of_cons. split; [congruence | assumption].
Qed.

Lemma dict_set_NoDup {A : Type} (k : string) (v : A) (d : list (string * A)) :
  NoDup d.*1 -> NoDup (dict_set k v d).*1.
Proof.
  intros Hnd. destruct (dict_set_keys k v d) as [-> | [Hnotin ->]]; [assumption|].
  apply NoDup_app. repeat split; [assumption | | apply NoDup_singleton].
  intros x Hx Hk. apply list_elem_of_singleton in Hk. now subst.
Qed.

Section Scan.

Variable loader : string -> loaded yaml_value.
Variable self : MenuConverter.

Lemma scan_loop_returns (files : list (path * option string)) (menu0 : menu) :
  exists menu_items t,
    scan_loop loader self files menu0 = (Return menu_items, t) /\
    written t = [] /\
    (NoDup menu0.*1 -> NoDup menu_items.*1) /\
    (forall e, e ∈ menu_items -> e ∈ menu0 \/ scanned loader self files e).
Proof.
  revert menu0. induction files as [|[relative text] files IH]; intros menu0.
  - exists menu0, []. cbn. auto.
  - cbn [scan_loop].
    destruct (Py.startswith _ "_index.md").
    + destruct (IH menu0) as (m & t & Hrun & Hw & Hnd & Hin).
      exists m, t. repeat split; try assumption.
      intros e He. destruct (Hin e He) as [?|(r & c & tp & Hfile & ?)]; [now left|].
      right. exists r, c, tp. split; [|assumption]. apply elem_of_cons. now right.
    + destruct (scan_file_returns loader self (content_dir self ++ relative)
                  text menu0) as (m1 & t1 & Hfile & Hw1 & Hm1).
      destruct (IH m1) as (m & t & Hrun & Hw & Hnd & Hin).
      exists m, (t1 ++ t)%list.
      rewrite Hfile, bind_return, Hrun.
      rewrite written_app, Hw1, Hw.
      repeat split.
      * intros Hnd0. apply Hnd.
        destruct Hm1 as [-> | (c & parsed & tp & _ & _ & ->)];
          [assumption | now apply dict_set_NoDup].
      * intros e He.
        destruct (Hin e He) as [He1|(r & c & tp & Hf & ?)].
        -- destruct Hm1 as [-> | (c & parsed & tp & -> & Hparse & ->)];
             [now left|].
           destruct e as [k v].
           destruct (dict_set_elem _ _ _ _ _ He1) as [[-> ->]|?]; [|now left].
           right. exists relative, c, tp. repeat split; [|assumption].
           apply elem_of_cons. now left.
        -- right. exists r, c, tp. split; [|assumption].
           apply elem_of_cons. now right.
Qed.

End Scan.

Lemma scanned_valid loader self files (e : string * item) :
  scanned loader self files e ->
  valid_item (snd e) /\ snd e !! "slug" = Some (PyStr (fst e)).
Proof.
  intros (relative & content & tp & _ & Hparse & ->).
  destruct (parse_menu_item_fields _ _ _ _ _ _ Hparse)
    as (y & d & category & price & f & _ & _ & _ & _ & _ & _ & Hpn & Hslug
          & Hcat & Htitle).
  unfold valid_item. rewrite Hpn, Hcat. eauto.
Qed.

(** The scan never raises and writes no file; the menu it returns has one
    entry per slug, each a parsed and validated item. *)
Lemma scan_menu_items_returns loader fs self :
  exists menu_items t,
    scan_menu_items loader fs self = (Return menu_items, t) /\
    written t = [] /\
    NoDup menu_items.*1 /\
    valid_menu menu_items /\
    (forall e, e ∈ menu_items -> scanned loader self (rglob_md fs) e).
Proof.
  destruct (scan_loop_returns loader self (rglob_md fs) [])
    as (m & t & Hrun & Hw & Hnd & Hin).
  assert (Hall : forall e, e ∈ m -> scanned loader self (rglob_md fs) e).
  { intros e He. destruct (Hin e He) as [Hnil|?]; [|assumption].
    now apply not_elem_of_nil in Hnil. }
  eexists m, _. unfold scan_menu_items.
  rewrite Hrun, bind_return. cbn [fst snd].
  split; [reflexivity|].
  rewrite written_app, Hw.
  repeat split; [apply Hnd, NoDup_nil_2 | | assumption].
  apply Forall_forall. intros e He.
  now apply (scanned_valid loader self (rglob_md fs) e), Hall.
Qed.

Lemma load_pos_mapping_writes_nothing mloader fs self :
  written (snd (load_pos_mapping mloader fs self)) = [].
Proof.
  unfold load_pos_mapping.
  destruct (data_files fs !! "pos-mapping.yaml") as [[text|]|];
    [|reflexivity..].
  now destruct (mloader text).
Qed.

Lemma load_menu_data_writes_nothing loader fs self :
  written (snd (load_menu_data loader fs self)) = [].
Proof.
  unfold load_menu_data.
  destruct (data_files fs !! "menudata.yaml") as [[text|]|];
    [|reflexivity..].
  now destruct (loader text).
Qed.

(** C6. When the configuration has loaded and the scan of the content
    directory yields no valid menu item, the run returns normally, its last
    log line is the warning ["No menu items found"], and it writes no file:
    no combined dump, no per-system file, no report. *)
Theorem run_conversion_no_items loader mloader json fs self self1 self2 t1 t2 t3 :
  load_pos_mapping mloader fs self = (Return self1, t1) ->
  load_menu_data loader fs self1 = (Return self2, t2) ->
  scan_menu_items loader fs self2 = (Return [], t3) ->
  run_conversion loader mloader json fs self
    = (Return tt,
       (Log INFO "Starting menu conversion process..." :: t1 ++ t2 ++ t3
          ++ [Log WARNING "No menu items found"])%list) /\
  written (snd (run_conversion loader mloader json fs self)) = [].
Proof.
  intros Hmap Hdata Hscan.
  assert (Hrun : run_conversion loader mloader json fs self
                 = (Return tt,
                    (Log INFO "Starting menu conversion process..." :: t1 ++ t2
                       ++ t3 ++ [Log WARNING "No menu items found"])%list)).
  { unfold run_conversion, logger_info, emit.
    rewrite bind_return. cbn [fst snd].
    rewrite Hmap, bind_return. cbn [fst snd].
    rewrite Hdata, bind_return. cbn [fst snd].
    rewrite Hscan, bind_return. cbn [fst snd].
    unfold logger_warning, emit. cbn [fst snd].
    reflexivity. }
  split; [exact Hrun|].
  rewrite Hrun. cbn [snd].
  pose proof (load_pos_mapping_writes_nothing mloader fs self) as H1.
  pose proof (load_menu_data_writes_nothing loader fs self1) as H2.
  destruct (scan_menu_items_returns loader fs self2) as (m & t & Hs & H3 & _).
  rewrite Hmap in H1. rewrite Hdata in H2. rewrite Hscan in Hs.
  injection Hs as <- <-. cbn [snd] in H1, H2.
  change (written (Log INFO "Starting menu conversion process..." :: ?l))
    with (written l).
  now rewrite !written_app, H1, H2, H3.
Qed.

(** A neighbouring case: a mapping file that does not load stops the run
    before the scan, with the loader's exception and no file written. *)
Lemma run_conversion_bad_mapping loader mloader json fs self text e :
  data_files fs !! "pos-mapping.yaml" = Some (Some text) ->
  mloader text = Failed e ->
  run_conversion loader mloader json fs self
    = (Raise e, [Log INFO "Starting menu conversion process..."]).
Proof.
  intros Hfile Hbad. unfold run_conversion, logger_info, emit.
  rewrite bind_return. cbn [fst snd].
  unfold load_pos_mapping. now rewrite Hfile, Hbad.
Qed.

(** The scenario of the empty content directory. *)
Lemma run_conversion_empty_tree :
  run_conversion flat_yaml no_mapping json_refuses empty_tree hugo
    = (Return tt,
       [Log INFO "Starting menu conversion process...";
        Log WARNING "POS mapping file not found: data/pos-mapping.yaml";
        Log INFO "Found 0 menu items";
        Log WARNING "No menu items found"]) /\
  written (snd (run_conversion flat_yaml no_mapping json_refuses empty_tree
                  hugo)) = [].
Proof.
  apply (run_conversion_no_items flat_yaml no_mapping json_refuses empty_tree
           hugo hugo hugo
           [Log WARNING "POS mapping file not found: data/pos-mapping.yaml"]
           [] [Log INFO "Found 0 menu items"]);
    vm_compute; reflexivity.
Defined.

(** ** The POS transformer *)

(** *** Keys and tables *)

Lemma key_eqb_true (a b : pyval) :
  key_eqb a b = true <-> key_norm a = key_norm b.
Proof. unfold key_eqb. apply bool_decide_eq_true. Qed.

Lemma key_eqb_false (a b : pyval) :
  key_eqb a b = false <-> key_norm a <> key_norm b.
Proof. unfold key_eqb. apply bool_decide_eq_false. Qed.

(** A string is equal to no other key than itself. *)
Lemma key_norm_str (k : pyval) (s : string) :
  key_norm k = PyStr s -> k = PyStr s.
Proof.
  destruct k as [| b | z | [| neg | neg m e] | s' | truth text]; cbn;
    try congruence.
  destruct (0 <=? e)%Z; congruence.
Qed.

Lemma table_get_set_eq (k k' : pyval) (r : pos_record) (t : pos_table) :
  key_norm k = key_norm k' -> table_get k' (table_set k r t) = Some r.
Proof.
  intros Heq. induction t as [|[k0 r0] t IH]; cbn.
  - apply key_eqb_true in Heq. now rewrite Heq.
  - destruct (key_eqb k0 k) eqn:Hk; cbn.
    + apply key_eqb_true in Hk.
      assert (Hk' : key_eqb k0 k' = true) by (apply key_eqb_true; congruence).
      now rewrite Hk'.
    + apply key_eqb_false in Hk.
      assert (Hk' : key_eqb k0 k' = false) by (apply key_eqb_false; congruence).
      now rewrite Hk'.
Qed.

Lemma table_get_set_ne (k k' : pyval) (r : pos_record) (t : pos_table) :
  key_norm k <> key_norm k' -> table_get k' (table_set k r t) = table_get k' t.
Proof.
  intros Hne. induction t as [|[k0 r0] t IH]; cbn.
  - apply key_eqb_false in Hne. now rewrite Hne.
  - destruct (key_eqb k0 k) eqn:Hk; cbn.
    + apply key_eqb_true in Hk.
      assert (Hk' : key_eqb k0 k' = false) by (apply key_eqb_false; congruence).
      now rewrite Hk'.
    + destruct (key_eqb k0 k'); [reflexivity | exact IH].
Qed.

(** The keys after an assignment: the same, or one more at the end. *)
Lemma table_set_keys (k : pyval) (r : pos_record) (t : pos_table) :
  ((key_norm k ∈ table_keys t) /\
   table_keys (table_set k r t) = table_keys t) \/
  ((key_norm k ∉ table_keys t) /\
   table_keys (table_set k r t) = (table_keys t ++ [key_norm k])%list).
Proof.
  unfold table_keys. induction t as [|[k0 r0] t IH]; cbn.
  - right. split; [apply not_elem_of_nil | reflexivity].
  - destruct (key_eqb k0 k) eqn:Hk; cbn.
    + apply key_eqb_true in Hk. left. split; [|reflexivity].
      rewrite Hk. apply elem_of_cons. now left.
    + apply key_eqb_false in Hk.
      destruct IH as [[Hin ->] | [Hnotin ->]].
      * left. split; [|reflexivity]. apply elem_of_cons. now right.
      * right. split; [|reflexivity].
        rewrite not_elem_of_cons. split; [congruence | assumption].
Qed.

Lemma table_set_NoDup (k : pyval) (r : pos_record) (t : pos_table) :
  NoDup (table_keys t) -> NoDup (table_keys (table_set k r t)).
Proof.
  intros Hnd. destruct (table_set_keys k r t) as [[_ ->] | [Hnotin ->]];
    [assumption|].
  apply NoDup_app. repeat split; [assumption | | apply NoDup_singleton].
  intros x Hx Hk. apply list_elem_of_singleton in Hk. now subst.
Qed.

Lemma table_keys_length (t : pos_table) : length (table_keys t) = length t.
Proof. unfold table_keys. now rewrite !length_fmap. Qed.

(** An entry of the table after an assignment was there before, or is the
    record assigned, under a key equal to the one assigned. *)
Lemma table_set_elem (k k' : pyval) (r r' : pos_record) (t : pos_table) :
  (k', r') ∈ table_set k r t ->
  (k', r') ∈ t \/ (r' = r /\ key_norm k' = key_norm k).
Proof.
  induction t as [|[k0 r0] t IH]; cbn.
  - intros Hin. apply list_elem_of_singleton in Hin. injection Hin as -> ->. auto.
  - destruct (key_eqb k0 k) eqn:Hk; intros Hin;
      apply elem_of_cons in Hin as [Heq|Hin].
    + injection Heq as -> ->. apply key_eqb_true in Hk. auto.
    + left. apply elem_of_cons. now right.
    + left. rewrite Heq. apply elem_of_cons. now left.
    + destruct (IH Hin) as [?|?]; [|now right]. left. apply elem_of_cons. now right.
Qed.

(** What a key is bound to is an entry of the table, under an equal key. *)
Lemma table_get_elem (k : pyval) (r : pos_record) (t : pos_table) :
  table_get k t = Some r ->
  exists k0, (k0, r) ∈ t /\ key_norm k0 = key_norm k.
Proof.
  induction t as [|[k0 r0] t IH]; cbn; [discriminate|].
  destruct (key_eqb k0 k) eqn:Hk.
  - intros [= ->]. apply key_eqb_true in Hk. exists k0.
    split; [apply elem_of_cons; now left | assumption].
  - intros Hget. destruct (IH Hget) as (k1 & Hin & Heq).
    exists k1. split; [apply elem_of_cons; now right | assumption].
Qed.

Lemma table_get_None (k : pyval) (t : pos_table) :
  table_get k t = None <-> key_norm k ∉ table_keys t.
Proof.
  unfold table_keys. induction t as [|[k0 r0] t IH]; cbn.
  - split; [intros _; apply not_elem_of_nil | reflexivity].
  - rewrite not_elem_of_cons. destruct (key_eqb k0 k) eqn:Hk.
    + apply key_eqb_true in Hk. split; [discriminate|]. intros [Hne _]. congruence.
    + apply key_eqb_false in Hk. rewrite IH. split; [|now intros [_ ?]].
      intros Hnotin. split; [congruence | assumption].
Qed.

(** *** Sequences of assignments *)

Lemma insert_all_cons (k : pyval) (r : pos_record)
    (steps : list (pyval * pos_record)) (t : pos_table) :
  insert_all ((k, r) :: steps) t = insert_all steps (table_set k r t).
Proof. reflexivity. Qed.

Lemma insert_all_app (s1 s2 : list (pyval * pos_record)) (t : pos_table) :
  insert_all (s1 ++ s2) t = insert_all s2 (insert_all s1 t).
Proof. apply foldl_app. Qed.

(** A key that no step writes keeps its entry. *)
Lemma insert_all_other (steps : list (pyval * pos_record)) (t : pos_table)
    (k : pyval) :
  key_norm k ∉ table_keys steps ->
  table_get k (insert_all steps t) = table_get k t.
Proof.
  unfold table_keys.
  revert t. induction steps as [|[k0 r0] steps IH]; intros t Hk; [reflexivity|].
  rewrite insert_all_cons. cbn in Hk. apply not_elem_of_cons in Hk as [Hne Hk].
  rewrite IH by assumption. apply table_get_set_ne. congruence.
Qed.

(** What a key is bound to in the result was there before or was written
    by a step under an equal key. *)
Lemma insert_all_lookup (steps : list (pyval * pos_record)) (t : pos_table)
    (k : pyval) (r : pos_record) :
  table_get k (insert_all steps t) = Some r ->
  table_get k t = Some r \/
  exists k0, (k0, r) ∈ steps /\ key_norm k0 = key_norm k.
Proof.
  revert t. induction steps as [|[k0 r0] steps IH]; intros t; [now left|].
  rewrite insert_all_cons. intros H. destruct (IH _ H) as [Hin|(k1 & Hin & Heq)].
  - destruct (decide (key_norm k0 = key_norm k)) as [Heq|Hne].
    + rewrite table_get_set_eq in Hin by assumption. injection Hin as ->.
      right. exists k0. split; [apply elem_of_cons; now left | assumption].
    + rewrite table_get_set_ne in Hin by assumption. now left.
  - right. exists k1. split; [apply elem_of_cons; now right | assumption].
Qed.

(** Every entry of the result was there before or holds the record of a
    step with an equal key. *)
Lemma insert_all_elem (steps : list (pyval * pos_record)) (t : pos_table)
    (k : pyval) (r : pos_record) :
  (k, r) ∈ insert_all steps t ->
  (k, r) ∈ t \/ exists k0, (k0, r) ∈ steps /\ key_norm k0 = key_norm k.
Proof.
  revert t. induction steps as [|[k0 r0] steps IH]; intros t; [now left|].
  rewrite insert_all_cons. intros H. destruct (IH _ H) as [Hin|(k1 & Hin & Heq)].
  - apply table_set_elem in Hin as [Hin | [-> Heq]]; [now left|].
    right. exists k0. split; [apply elem_of_cons; now left | congruence].
  - right. exists k1. split; [apply elem_of_cons; now right | assumption].
Qed.

(** The key of every step is bound, to the record of a step with an equal
    key. *)
Lemma insert_all_present (steps : list (pyval * pos_record)) (t : pos_table)
    (k : pyval) :
  key_norm k ∈ table_keys steps ->
  exists k0 r, table_get k (insert_all steps t) = Some r /\
               (k0, r) ∈ steps /\ key_norm k0 = key_norm k.
Proof.
  unfold table_keys.
  revert t. induction steps as [|[k0 r0] steps IH]; intros t Hk.
  - now apply not_elem_of_nil in Hk.
  - rewrite insert_all_cons.
    destruct (decide (key_norm k ∈ key_norm <$> steps.*1)) as [Hin|Hnotin].
    + destruct (IH (table_set k0 r0 t) Hin) as (k1 & r & Hr & Hmem & Heq).
      exists k1, r. split; [assumption|].
      split; [apply elem_of_cons; now right | assumption].
    + cbn in Hk. apply elem_of_cons in Hk as [Heq|Hk]; [|contradiction].
      exists k0, r0. rewrite insert_all_other by assumption.
      rewrite table_get_set_eq by congruence.
      split; [reflexivity|]. split; [apply elem_of_cons; now left | congruence].
Qed.

Lemma insert_all_NoDup (steps : list (pyval * pos_record)) (t : pos_table) :
  NoDup (table_keys t) -> NoDup (table_keys (insert_all steps t)).
Proof.
  revert t. induction steps as [|[k0 r0] steps IH]; intros t Hnd; [assumption|].
  rewrite insert_all_cons. now apply IH, table_set_NoDup.
Qed.

(** The keys of the result are those there before and those of the steps. *)
Lemma insert_all_keys (steps : list (pyval * pos_record)) (t : pos_table)
    (x : pyval) :
  x ∈ table_keys (insert_all steps t) <->
  x ∈ table_keys t \/ x ∈ table_keys steps.
Proof.
  revert t. induction steps as [|[k0 r0] steps IH]; intros t.
  - cbn. split; [now left|]. intros [?|Hnil]; [assumption|].
    now apply not_elem_of_nil in Hnil.
  - rewrite insert_all_cons, IH.
    change (table_keys ((k0, r0) :: steps))
      with (key_norm k0 :: table_keys steps).
    rewrite elem_of_cons.
    destruct (table_set_keys k0 r0 t) as [[Hin ->] | [Hnotin ->]].
    + split; [tauto|]. intros [?|[->|?]]; tauto.
    + rewrite elem_of_app, list_elem_of_singleton. tauto.
Qed.

Lemma insert_all_length_le (steps : list (pyval * pos_record)) (t : pos_table) :
  length (insert_all steps t) <= length t + length steps.
Proof.
  revert t. induction steps as [|[k0 r0] steps IH]; intros t; [cbn; lia|].
  rewrite insert_all_cons. etransitivity; [apply IH|].
  assert (Hone : length (table_set k0 r0 t) <= S (length t)).
  { rewrite <- !table_keys_length.
    destruct (table_set_keys k0 r0 t) as [[_ ->] | [_ ->]];
      [|rewrite length_app; cbn]; lia. }
  cbn [length]. lia.
Qed.

(** With pairwise distinct, fresh keys every step adds its own entry. *)
Lemma insert_all_fresh (steps : list (pyval * pos_record)) (t : pos_table) :
  NoDup (table_keys steps) ->
  (forall x, x ∈ table_keys steps -> x ∉ table_keys t) ->
  length (insert_all steps t) = length t + length steps /\
  (forall k r, (k, r) ∈ steps -> table_get k (insert_all steps t) = Some r).
Proof.
  revert t. induction steps as [|[k0 r0] steps IH]; intros t Hnd Hfresh.
  - cbn. split; [lia|]. intros k r Hin. now apply not_elem_of_nil in Hin.
  - rewrite insert_all_cons.
    change (table_keys ((k0, r0) :: steps))
      with (key_norm k0 :: table_keys steps) in Hnd, Hfresh.
    apply NoDup_cons in Hnd as [Hk0 Hnd].
    assert (Hnew : key_norm k0 ∉ table_keys t)
      by (apply Hfresh, elem_of_cons; now left).
    assert (Hkeys : table_keys (table_set k0 r0 t)
                    = (table_keys t ++ [key_norm k0])%list).
    { destruct (table_set_keys k0 r0 t) as [[Hin _] | [_ ->]];
        [contradiction | reflexivity]. }
    destruct (IH (table_set k0 r0 t) Hnd) as [Hsize Hown].
    { intros x Hx. rewrite Hkeys, not_elem_of_app, list_elem_of_singleton.
      split; [apply Hfresh, elem_of_cons; now right | congruence]. }
    split.
    + rewrite Hsize. rewrite <- (table_keys_length (table_set k0 r0 t)), Hkeys.
      rewrite length_app, table_keys_length. cbn. lia.
    + intros k r Hin. apply elem_of_cons in Hin as [Heq|Hin].
      * injection Heq as -> ->. rewrite insert_all_other by assumption.
        now apply table_get_set_eq.
      * now apply Hown.
Qed.

(** *** Identifiers *)

(** The lookups of an identifier succeed exactly on a well-shaped mapping,
    and then give the explicit entry or the fallback. *)
Lemma system_id_cases (self : MenuConverter) (system slug : string) :
  (global_mappings ← node_get (pos_mapping self) "global" (NMap ∅);
   system_id global_mappings system slug)
  = if well_shaped self system
    then Return (expected_id self system slug)
    else Raise AttributeError.
Proof.
  unfold system_id, system_items, well_shaped, expected_id, explicit_entry.
  destruct (pos_mapping self) as [top|l|v]; cbn; [|reflexivity..].
  destruct (top !! "global") as [[g|l|v]|]; cbn; [|reflexivity..|].
  - destruct (g !! system) as [[s|l|v]|]; cbn; [|reflexivity..|].
    + destruct (s !! "items") as [[items|l|v]|]; cbn; [|reflexivity..|].
      * now destruct (items !! slug).
      * now rewrite lookup_empty.
    + now rewrite !lookup_empty.
  - now rewrite !lookup_empty.
Qed.

Lemma loyverse_id_cases (self : MenuConverter) (slug : string) :
  loyverse_id self slug
  = if well_shaped self "loyverse"
    then Return (expected_id self "loyverse" slug)
    else Raise AttributeError.
Proof. apply system_id_cases. Qed.

Lemma odoo_id_cases (self : MenuConverter) (slug : string) :
  odoo_id self slug
  = if well_shaped self "odoo"
    then Return (expected_id self "odoo" slug)
    else Raise AttributeError.
Proof. apply system_id_cases. Qed.

(** An identifier that the lookups return is the one the item is due. *)
Lemma loyverse_id_expected (self : MenuConverter) (slug : string) id :
  loyverse_id self slug = Return id -> id = expected_id self "loyverse" slug.
Proof.
  rewrite loyverse_id_cases. destruct (well_shaped self "loyverse");
    [now intros [= <-] | discriminate].
Qed.

Lemma odoo_id_expected (self : MenuConverter) (slug : string) id :
  odoo_id self slug = Return id -> id = expected_id self "odoo" slug.
Proof.
  rewrite odoo_id_cases. destruct (well_shaped self "odoo");
    [now intros [= <-] | discriminate].
Qed.

Lemma hashable_atom (id : yaml_node) :
  hashable id = true -> exists v, id = NAtom v.
Proof. destruct id; try discriminate. eauto. Qed.

(** *** Records *)

Lemma valid_item_getitems (d : item) :
  valid_item d ->
  exists title price category,
    getitem d "title" = Return title /\
    getitem d "price_numeric" = Return price /\
    getitem d "category" = Return category.
Proof.
  intros ([title Ht] & [price Hp] & [category Hc]).
  exists title, price, category. unfold getitem. now rewrite Ht, Hp, Hc.
Qed.

(** The record of a valid item exists, for any identifier that can be a
    key, and is stored under that identifier. *)
Lemma loyverse_record_valid (d : item) (slug : string) (id : pyval) :
  valid_item d -> exists r, loyverse_record d slug (NAtom id) = Return (id, r).
Proof.
  intros Hvalid.
  destruct (valid_item_getitems d Hvalid) as (t & p & c & Ht & Hp & Hc).
  unfold loyverse_record. rewrite Ht, Hp, Hc. cbn. eauto.
Qed.

Lemma odoo_record_valid (d : item) (slug : string) (id : pyval) :
  valid_item d -> exists r, odoo_record d slug (NAtom id) = Return (id, r).
Proof.
  intros Hvalid.
  destruct (valid_item_getitems d Hvalid) as (t & p & c & Ht & Hp & Hc).
  unfold odoo_record. rewrite Ht, Hp, Hc. cbn. eauto.
Qed.

(** A record is stored under its identifier, carries it, and carries the
    slug it was built for. *)
Lemma loyverse_record_fields (d : item) (slug : string) (id : yaml_node)
    (k : pyval) (r : pos_record) :
  loyverse_record d slug id = Return (k, r) ->
  id = NAtom k /\
  dict_get "sku" r = Some k /\ dict_get "hugo_slug" r = Some (PyStr slug).
Proof.
  unfold loyverse_record.
  destruct (getitem d "title"); [|discriminate].
  destruct (getitem d "price_numeric"); [|discriminate].
  destruct (getitem d "category"); [|discriminate].
  destruct id as [m|l|v]; try discriminate.
  cbn. intros [= <- <-]. repeat split; reflexivity.
Qed.

Lemma odoo_record_fields (d : item) (slug : string) (id : yaml_node)
    (k : pyval) (r : pos_record) :
  odoo_record d slug id = Return (k, r) ->
  id = NAtom k /\
  dict_get "default_code" r = Some k /\
  dict_get "hugo_slug" r = Some (PyStr slug).
Proof.
  unfold odoo_record.
  destruct (getitem d "title"); [|discriminate].
  destruct (getitem d "price_numeric"); [|discriminate].
  destruct (getitem d "category"); [|discriminate].
  destruct id as [m|l|v]; try discriminate.
  cbn. intros [= <- <-]. repeat split; reflexivity.
Qed.

(** *** The loop *)

Lemma convert_item_cases self slug (d : item) pos :
  convert_item self slug d pos =
    lid ← loyverse_id self slug;
    '(lkey, lrec) ← loyverse_record d slug lid;
    oid ← odoo_id self slug;
    '(okey, orec) ← odoo_record d slug oid;
    mret (PosItems (table_set lkey lrec (loyverse pos))
                   (table_set okey orec (odoo pos))).
Proof.
  unfold convert_item, loyverse_id, odoo_id.
  destruct (node_get (pos_mapping self) "global" (NMap ∅)) as [g|e];
    [|reflexivity].
  cbn. destruct (system_id g "loyverse" slug) as [lid|e]; [|reflexivity].
  cbn. now destruct (loyverse_record d slug lid) as [[lkey lrec]|e].
Qed.

Lemma convert_item_return self slug (d : item) pos pos' :
  convert_item self slug d pos = Return pos' ->
  exists ls os,
    loyverse_step self (slug, d) ls /\
    odoo_step self (slug, d) os /\
    pos' = PosItems (table_set (fst ls) (snd ls) (loyverse pos))
                    (table_set (fst os) (snd os) (odoo pos)).
Proof.
  rewrite convert_item_cases. unfold loyverse_step, odoo_step.
  destruct (loyverse_id self slug) as [lid|] eqn:Hlid; [|discriminate]. cbn.
  destruct (loyverse_record d slug lid) as [[lkey lrec]|] eqn:Hlrec;
    [|discriminate].
  cbn.
  destruct (odoo_id self slug) as [oid|] eqn:Hoid; [|discriminate]. cbn.
  destruct (odoo_record d slug oid) as [[okey orec]|] eqn:Horec;
    [|discriminate].
  cbn. intros [= <-].
  destruct (loyverse_record_fields _ _ _ _ _ Hlrec) as [-> _].
  destruct (odoo_record_fields _ _ _ _ _ Horec) as [-> _].
  now exists (lkey, lrec), (okey, orec).
Qed.

(** The loop as two sequences of insertions, one per table. *)
Lemma convert_loop_steps self (menu_items : menu) pos0 pos :
  convert_loop self menu_items pos0 = Return pos ->
  exists ls os,
    Forall2 (loyverse_step self) menu_items ls /\
    Forall2 (odoo_step self) menu_items os /\
    loyverse pos = insert_all ls (loyverse pos0) /\
    odoo pos = insert_all os (odoo pos0).
Proof.
  revert pos0. induction menu_items as [|[slug d] rest IH]; intros pos0.
  - cbn. intros [= <-]. exists [], []. repeat split; constructor.
  - cbn [convert_loop].
    destruct (convert_item self slug d pos0) as [pos1|] eqn:Hitem; [|discriminate].
    cbn. intros Hrest.
    destruct (convert_item_return _ _ _ _ _ Hitem) as (l & o & Hl & Ho & ->).
    destruct (IH _ Hrest) as (ls & os & Hls & Hos & Hlt & Hot).
    exists (l :: ls), (o :: os).
    repeat split; try (constructor; assumption); assumption.
Qed.

(** On validated items and with a mapping that serves them the loop
    returns. *)
Lemma convert_loop_valid self (menu_items : menu) pos0 :
  valid_menu menu_items ->
  usable_mapping self menu_items ->
  exists pos, convert_loop self menu_items pos0 = Return pos.
Proof.
  intros Hvalid (Hl & Ho & Hids).
  revert pos0 Hvalid Hids.
  induction menu_items as [|[slug d] rest IH]; intros pos0 Hvalid Hids.
  - now exists pos0.
  - apply Forall_cons in Hvalid as [Hd Hrest]. cbn in Hd.
    destruct (Hids slug) as [Hlh Hoh]; [cbn; apply elem_of_cons; now left|].
    apply hashable_atom in Hlh as [lid Hlid], Hoh as [oid Hoid].
    destruct (loyverse_record_valid d slug lid Hd) as [lr Hlr].
    destruct (odoo_record_valid d slug oid Hd) as [orr Hor].
    cbn [convert_loop]. rewrite convert_item_cases.
    rewrite loyverse_id_cases, Hl, Hlid. cbn. rewrite Hlr. cbn.
    rewrite odoo_id_cases, Ho, Hoid. cbn. rewrite Hor. cbn.
    apply IH; [assumption|].
    intros s Hs. apply Hids. cbn. apply elem_of_cons. now right.
Qed.

(** The key of a step is the identifier its item is due, and its record
    carries that identifier and the slug. *)
Lemma loyverse_step_fields self (e : string * item) (s : pyval * pos_record) :
  loyverse_step self e s ->
  expected_id self "loyverse" (fst e) = NAtom (fst s) /\
  dict_get "sku" (snd s) = Some (fst s) /\
  dict_get "hugo_slug" (snd s) = Some (PyStr (fst e)).
Proof.
  intros [Hid Hrec]. apply loyverse_id_expected in Hid.
  destruct s as [k r]. apply loyverse_record_fields in Hrec as (_ & ? & ?).
  now rewrite <- Hid.
Qed.

Lemma odoo_step_fields self (e : string * item) (s : pyval * pos_record) :
  odoo_step self e s ->
  expected_id self "odoo" (fst e) = NAtom (fst s) /\
  dict_get "default_code" (snd s) = Some (fst s) /\
  dict_get "hugo_slug" (snd s) = Some (PyStr (fst e)).
Proof.
  intros [Hid Hrec]. apply odoo_id_expected in Hid.
  destruct s as [k r]. apply odoo_record_fields in Hrec as (_ & ? & ?).
  now rewrite <- Hid.
Qed.

Lemma Forall2_elem_r {A B : Type} (P : A -> B -> Prop) (l : list A)
    (k : list B) (y : B) :
  Forall2 P l k -> y ∈ k -> exists x, x ∈ l /\ P x y.
Proof.
  induction 1 as [|x y0 l k Hxy _ IH]; intros Hin.
  - now apply not_elem_of_nil in Hin.
  - apply elem_of_cons in Hin as [->|Hin].
    + exists x. split; [apply elem_of_cons; now left | assumption].
    + destruct (IH Hin) as (x' & Hx' & HP).
      exists x'. split; [apply elem_of_cons; now right | assumption].
Qed.

Lemma Forall2_elem_l {A B : Type} (P : A -> B -> Prop) (l : list A)
    (k : list B) (x : A) :
  Forall2 P l k -> x ∈ l -> exists y, y ∈ k /\ P x y.
Proof.
  induction 1 as [|x0 y l k Hxy _ IH]; intros Hin.
  - now apply not_elem_of_nil in Hin.
  - apply elem_of_cons in Hin as [->|Hin].
    + exists y. split; [apply elem_of_cons; now left | assumption].
    + destruct (IH Hin) as (y' & Hy' & HP).
      exists y'. split; [apply elem_of_cons; now right | assumption].
Qed.

(** Each item of a converted menu has a record under the identifier it is
    due, in both tables; the record carries an identifier equal to it as a
    key. *)
Lemma convert_to_pos_format_present self (menu_items : menu) pos slug
    (item_data : item) :
  convert_to_pos_format self menu_items = Return pos ->
  (slug, item_data) ∈ menu_items ->
  (exists id r sku,
     expected_id self "loyverse" slug = NAtom id /\
     table_get id (loyverse pos) = Some r /\
     dict_get "sku" r = Some sku /\ key_norm sku = key_norm id) /\
  (exists id r code,
     expected_id self "odoo" slug = NAtom id /\
     table_get id (odoo pos) = Some r /\
     dict_get "default_code" r = Some code /\ key_norm code = key_norm id).
Proof.
  unfold convert_to_pos_format. intros Hrun Hin.
  destruct (convert_loop_steps _ _ _ _ Hrun) as (ls & os & Hls & Hos & Hlt & Hot).
  cbn [loyverse odoo] in Hlt, Hot. split.
  - destruct (Forall2_elem_l _ _ _ _ Hls Hin) as ([k r] & Hmem & Hstep).
    apply loyverse_step_fields in Hstep as (Hid & _). cbn in Hid.
    destruct (insert_all_present ls [] k) as (k0 & r0 & Hr & Hmem0 & Heq).
    { unfold table_keys. apply list_elem_of_fmap_2, list_elem_of_fmap.
      now exists (k, r). }
    destruct (Forall2_elem_r _ _ _ _ Hls Hmem0) as (e & _ & Hstep0).
    apply loyverse_step_fields in Hstep0 as (_ & Hsku & _).
    exists k, r0, k0. rewrite Hlt. auto.
  - destruct (Forall2_elem_l _ _ _ _ Hos Hin) as ([k r] & Hmem & Hstep).
    apply odoo_step_fields in Hstep as (Hid & _). cbn in Hid.
    destruct (insert_all_present os [] k) as (k0 & r0 & Hr & Hmem0 & Heq).
    { unfold table_keys. apply list_elem_of_fmap_2, list_elem_of_fmap.
      now exists (k, r). }
    destruct (Forall2_elem_r _ _ _ _ Hos Hmem0) as (e & _ & Hstep0).
    apply odoo_step_fields in Hstep0 as (_ & Hcode & _).
    exists k, r0, k0. rewrite Hot. auto.
Qed.

(** Every record of a converted menu belongs to the item whose slug it
    carries: it carries the identifier that item is due, and is stored
    under a key equal to it. *)
Lemma convert_to_pos_format_owner self (menu_items : menu) pos :
  convert_to_pos_format self menu_items = Return pos ->
  (forall key (r : pos_record) slug,
     (key, r) ∈ loyverse pos -> dict_get "hugo_slug" r = Some (PyStr slug) ->
     exists id, expected_id self "loyverse" slug = NAtom id /\
                dict_get "sku" r = Some id /\ key_norm key = key_norm id) /\
  (forall key (r : pos_record) slug,
     (key, r) ∈ odoo pos -> dict_get "hugo_slug" r = Some (PyStr slug) ->
     exists id, expected_id self "odoo" slug = NAtom id /\
                dict_get "default_code" r = Some id /\
                key_norm key = key_norm id).
Proof.
  unfold convert_to_pos_format. intros Hrun.
  destruct (convert_loop_steps _ _ _ _ Hrun) as (ls & os & Hls & Hos & Hlt & Hot).
  cbn [loyverse odoo] in Hlt, Hot. split.
  - intros key r slug Hin Hslug. rewrite Hlt in Hin.
    apply insert_all_elem in Hin as [Hnil | (k0 & Hmem & Heq)];
      [now apply not_elem_of_nil in Hnil|].
    destruct (Forall2_elem_r _ _ _ _ Hls Hmem) as (e & _ & Hstep).
    apply loyverse_step_fields in Hstep as (Hid & Hsku & Hs). cbn in *.
    exists k0. assert (fst e = slug) by congruence. subst slug. auto.
  - intros key r slug Hin Hslug. rewrite Hot in Hin.
    apply insert_all_elem in Hin as [Hnil | (k0 & Hmem & Heq)];
      [now apply not_elem_of_nil in Hnil|].
    destruct (Forall2_elem_r _ _ _ _ Hos Hmem) as (e & _ & Hstep).
    apply odoo_step_fields in Hstep as (Hid & Hcode & Hs). cbn in *.
    exists k0. assert (fst e = slug) by congruence. subst slug. auto.
Qed.

(** C3. For every menu of validated items the transformer returns when the
    loaded mapping serves them (each level that the lookups pass through is
    a mapping or absent, and the identifiers can be keys). Whenever it
    returns, for every item and both POS systems: the identifier the item
    is due (the explicit entry [mapping['global'][system]['items'][slug]]
    when there is one, and otherwise ["omg-sushi-"] followed by the slug)
    is a key of the system's table, bound to a record that carries an
    identifier equal to it; and every record of the table that belongs to
    the item (by its [hugo_slug]) carries that identifier as its [sku] or
    [default_code] and is stored under a key equal to it. *)
Theorem convert_to_pos_format_identifier self (menu_items : menu) :
  valid_menu menu_items ->
  (usable_mapping self menu_items ->
   exists pos, convert_to_pos_format self menu_items = Return pos) /\
  (forall pos, convert_to_pos_format self menu_items = Return pos ->
     (forall slug (item_data : item), (slug, item_data) ∈ menu_items ->
        (exists id r sku,
           expected_id self "loyverse" slug = NAtom id /\
           table_get id (loyverse pos) = Some r /\
           dict_get "sku" r = Some sku /\ key_eqb sku id = true) /\
        (exists id r code,
           expected_id self "odoo" slug = NAtom id /\
           table_get id (odoo pos) = Some r /\
           dict_get "default_code" r = Some code /\
           key_eqb code id = true)) /\
     (forall key (r : pos_record) slug,
        (key, r) ∈ loyverse pos ->
        dict_get "hugo_slug" r = Some (PyStr slug) ->
        exists id, expected_id self "loyverse" slug = NAtom id /\
                   dict_get "sku" r = Some id /\ key_eqb key id = true) /\
     (forall key (r : pos_record) slug,
        (key, r) ∈ odoo pos ->
        dict_get "hugo_slug" r = Some (PyStr slug) ->
        exists id, expected_id self "odoo" slug = NAtom id /\
                   dict_get "default_code" r = Some id /\
                   key_eqb key id = true)).
Proof.
  intros Hvalid. split.
  - intros Husable. now apply convert_loop_valid.
  - intros pos Hrun.
    destruct (convert_to_pos_format_owner _ _ _ Hrun) as [Hl Ho].
    repeat split.
    + destruct (convert_to_pos_format_present _ _ _ _ _ Hrun H)
        as [(id & r & sku & ? & ? & ? & ?) _].
      exists id, r, sku. rewrite key_eqb_true. auto.
    + destruct (convert_to_pos_format_present _ _ _ _ _ Hrun H)
        as [_ (id & r & code & ? & ? & ? & ?)].
      exists id, r, code. rewrite key_eqb_true. auto.
    + intros key r slug Hin Hslug.
      destruct (Hl key r slug Hin Hslug) as (id & ? & ? & ?).
      exists id. rewrite key_eqb_true. auto.
    + intros key r slug Hin Hslug.
      destruct (Ho key r slug Hin Hslug) as (id & ? & ? & ?).
      exists id. rewrite key_eqb_true. auto.
Qed.

Ltac valid_by_computation :=
  repeat first
    [ apply Forall_nil_2
    | apply Forall_cons_2
    | split
    | eexists; vm_compute; reflexivity ].

(** Deciding [usable_mapping] on a concrete mapping and menu. *)
Ltac usable_by_computation :=
  split; [reflexivity|]; split; [reflexivity|];
  let slug := fresh "slug" in
  let Hslug := fresh "Hslug" in
  intros slug Hslug; cbn in Hslug;
  repeat (apply elem_of_cons in Hslug as [->|Hslug]);
  [split; reflexivity.. | now apply not_elem_of_nil in Hslug].

Lemma spicy_tuna_identifier :
  exists pos,
    convert_to_pos_format hugo [("spicy-tuna", spicy_tuna_item)] = Return pos /\
    exists r, table_get (PyStr "omg-sushi-spicy-tuna") (loyverse pos) = Some r /\
              dict_get "sku" r = Some (PyStr "omg-sushi-spicy-tuna").
Proof.
  destruct (convert_to_pos_format_identifier hugo
              [("spicy-tuna", spicy_tuna_item)])
    as (Hreturns & Hrecords).
  - unfold valid_menu, valid_item. valid_by_computation.
  - destruct Hreturns as [pos Hrun]; [usable_by_computation|].
    exists pos. split; [exact Hrun|].
    destruct (Hrecords pos Hrun) as (Hitems & _).
    destruct (Hitems "spicy-tuna" spicy_tuna_item)
      as [(id & r & sku & Hid & Hr & Hsku & Heq) _].
    + apply list_elem_of_singleton. reflexivity.
    + injection Hid as <-. apply key_eqb_true, key_norm_str in Heq.
      subst sku. exists r. split; [exact Hr | exact Hsku].
Defined.

(** With an explicit entry the record goes under the mapped identifier. *)
Example spicy_tuna_mapped_identifier :
  convert_to_pos_format mapped_converter [("spicy-tuna", spicy_tuna_item)]
  = Return
      (PosItems
         [(PyStr "LV-7",
           [("name", PyStr "Spicy Tuna Roll");
            ("price", PyFloat (Py.FDec false 125 (-1)));
            ("description", PyStr "");
            ("category", PyStr "rolls");
            ("available", PyBool true);
            ("sku", PyStr "LV-7");
            ("hugo_slug", PyStr "spicy-tuna")])]
         [(PyStr "omg-sushi-spicy-tuna",
           [("name", PyStr "Spicy Tuna Roll");
            ("list_price", PyFloat (Py.FDec false 125 (-1)));
            ("description", PyStr "");
            ("categ_id", PyStr "rolls");
            ("active", PyBool true);
            ("default_code", PyStr "omg-sushi-spicy-tuna");
            ("hugo_slug", PyStr "spicy-tuna")])]).
Proof. vm_compute. reflexivity. Qed.

Lemma append_inj (p a b : string) : p +:+ a = p +:+ b -> a = b.
Proof.
  induction p as [|c p IH]; [now rewrite !append_nil|].
  rewrite !append_cons. intros [= H]. now apply IH.
Qed.

(** Where no item of the menu has an explicit entry, distinct slugs get
    distinct identifiers. *)
Lemma fallback_ids_NoDup (id_of : string -> yaml_node) (slugs : list string) :
  (forall slug, slug ∈ slugs ->
     id_of slug = NAtom (PyStr ("omg-sushi-" +:+ slug))) ->
  NoDup slugs -> NoDup (id_key <$> (id_of <$> slugs)).
Proof.
  intros Hfallback Hnd. induction Hnd as [|slug slugs Hnotin Hnd IH]; cbn.
  - constructor.
  - constructor.
    + intros Hin. apply list_elem_of_fmap in Hin as (id & Heq & Hin).
      apply list_elem_of_fmap in Hin as (slug' & -> & Hin').
      rewrite !Hfallback in Heq
        by (apply elem_of_cons; (now left) || (now right)).
      cbn in Heq. injection Heq as Heq. apply append_inj in Heq. congruence.
    + apply IH. intros s Hs. apply Hfallback. apply elem_of_cons. now right.
Qed.

(** The keys of the steps are the keys of the identifiers due. *)
Lemma loyverse_steps_keys self (menu_items : menu) ls :
  Forall2 (loyverse_step self) menu_items ls ->
  id_key <$> (expected_id self "loyverse" <$> menu_items.*1)
    = Some <$> table_keys ls.
Proof.
  unfold table_keys.
  induction 1 as [|e s rest ls Hstep _ IH]; [reflexivity|].
  apply loyverse_step_fields in Hstep as (Hid & _).
  cbn. now rewrite Hid, IH.
Qed.

Lemma odoo_steps_keys self (menu_items : menu) os :
  Forall2 (odoo_step self) menu_items os ->
  id_key <$> (expected_id self "odoo" <$> menu_items.*1)
    = Some <$> table_keys os.
Proof.
  unfold table_keys.
  induction 1 as [|e s rest os Hstep _ IH]; [reflexivity|].
  apply odoo_step_fields in Hstep as (Hid & _).
  cbn. now rewrite Hid, IH.
Qed.

(** C4, as amended. For every map of validated items and a loaded mapping
    that serves them (each level that the lookups pass through is a mapping
    or absent, and the identifiers can be keys), the transformer returns
    and raises nothing, whether or not an item has an explicit mapping; and
    for each POS system in which the identifiers given to the items are
    pairwise distinct, the system's table has exactly one record per input
    item, stored under the item's identifier. The identifiers are pairwise
    distinct, in particular, when no item of the menu has an explicit entry
    in that system. *)
Theorem convert_to_pos_format_one_record_each self (menu_items : menu) :
  valid_menu menu_items ->
  usable_mapping self menu_items ->
  exists pos,
    convert_to_pos_format self menu_items = Return pos /\
    (NoDup (id_key <$> (expected_id self "loyverse" <$> menu_items.*1)) ->
       length (loyverse pos) = length menu_items /\
       forall slug (item_data : item), (slug, item_data) ∈ menu_items ->
         exists id r, expected_id self "loyverse" slug = NAtom id /\
                      table_get id (loyverse pos) = Some r /\
                      dict_get "hugo_slug" r = Some (PyStr slug)) /\
    (NoDup (id_key <$> (expected_id self "odoo" <$> menu_items.*1)) ->
       length (odoo pos) = length menu_items /\
       forall slug (item_data : item), (slug, item_data) ∈ menu_items ->
         exists id r, expected_id self "odoo" slug = NAtom id /\
                      table_get id (odoo pos) = Some r /\
                      dict_get "hugo_slug" r = Some (PyStr slug)) /\
    (NoDup menu_items.*1 ->
       (forall slug, slug ∈ menu_items.*1 ->
          explicit_entry self "loyverse" slug = None) ->
       length (loyverse pos) = length menu_items) /\
    (NoDup menu_items.*1 ->
       (forall slug, slug ∈ menu_items.*1 ->
          explicit_entry self "odoo" slug = None) ->
       length (odoo pos) = length menu_items).
Proof.
  intros Hvalid Husable. unfold convert_to_pos_format.
  destruct (convert_loop_valid self menu_items (PosItems [] []) Hvalid Husable)
    as [pos Hrun].
  exists pos. split; [assumption|].
  destruct (convert_loop_steps _ _ _ _ Hrun) as (ls & os & Hls & Hos & Hlt & Hot).
  cbn [loyverse odoo] in Hlt, Hot.
  assert (Hloy : NoDup (id_key <$> (expected_id self "loyverse"
                                      <$> menu_items.*1)) ->
            length (loyverse pos) = length menu_items /\
            forall slug (item_data : item), (slug, item_data) ∈ menu_items ->
              exists id r, expected_id self "loyverse" slug = NAtom id /\
                           table_get id (loyverse pos) = Some r /\
                           dict_get "hugo_slug" r = Some (PyStr slug)).
  { intros Hnd. rewrite (loyverse_steps_keys _ _ _ Hls) in Hnd.
    apply NoDup_fmap_1 in Hnd.
    destruct (insert_all_fresh ls [] Hnd) as [Hsize Hown];
      [intros; apply not_elem_of_nil|].
    rewrite Hlt, Hsize, <- (Forall2_length _ _ _ Hls).
    split; [reflexivity|]. intros slug d Hin.
    destruct (Forall2_elem_l _ _ _ _ Hls Hin) as ([k r] & Hmem & Hstep).
    apply loyverse_step_fields in Hstep as (Hid & _ & Hslug).
    exists k, r. split; [exact Hid|]. split; [now apply Hown | exact Hslug]. }
  assert (Hodoo : NoDup (id_key <$> (expected_id self "odoo"
                                       <$> menu_items.*1)) ->
            length (odoo pos) = length menu_items /\
            forall slug (item_data : item), (slug, item_data) ∈ menu_items ->
              exists id r, expected_id self "odoo" slug = NAtom id /\
                           table_get id (odoo pos) = Some r /\
                           dict_get "hugo_slug" r = Some (PyStr slug)).
  { intros Hnd. rewrite (odoo_steps_keys _ _ _ Hos) in Hnd.
    apply NoDup_fmap_1 in Hnd.
    destruct (insert_all_fresh os [] Hnd) as [Hsize Hown];
      [intros; apply not_elem_of_nil|].
    rewrite Hot, Hsize, <- (Forall2_length _ _ _ Hos).
    split; [reflexivity|]. intros slug d Hin.
    destruct (Forall2_elem_l _ _ _ _ Hos Hin) as ([k r] & Hmem & Hstep).
    apply odoo_step_fields in Hstep as (Hid & _ & Hslug).
    exists k, r. split; [exact Hid|]. split; [now apply Hown | exact Hslug]. }
  split; [exact Hloy|]. split; [exact Hodoo|]. split.
  - intros Hnd Hnone. apply Hloy, fallback_ids_NoDup; [|assumption].
    intros slug Hslug. unfold expected_id. now rewrite Hnone.
  - intros Hnd Hnone. apply Hodoo, fallback_ids_NoDup; [|assumption].
    intros slug Hslug. unfold expected_id. now rewrite Hnone.
Qed.

Lemma two_items_one_record_each :
  exists pos,
    convert_to_pos_format hugo two_items = Return pos /\
    length (loyverse pos) = 2 /\ length (odoo pos) = 2.
Proof.
  destruct (convert_to_pos_format_one_record_each hugo two_items)
    as (pos & Hrun & Hl & Ho & _).
  - unfold valid_menu, valid_item, two_items. valid_by_computation.
  - usable_by_computation.
  - exists pos. split; [exact Hrun|]. split.
    + apply Hl. apply (bool_decide_unpack _). vm_compute. exact I.
    + apply Ho. apply (bool_decide_unpack _). vm_compute. exact I.
Defined.

(** C4, as stated, fails: with a mapping that gives two slugs the same
    Loyverse identifier, the two validated items leave one Loyverse
    record. *)
Lemma convert_to_pos_format_shared_id :
  valid_menu two_items /\ NoDup two_items.*1 /\
  usable_mapping shared_id_converter two_items /\
  ~ (exists pos,
       convert_to_pos_format shared_id_converter two_items = Return pos /\
       length (loyverse pos) = length two_items /\
       length (odoo pos) = length two_items).
Proof.
  split; [unfold valid_menu, valid_item, two_items; valid_by_computation|].
  split; [apply (bool_decide_unpack _); vm_compute; exact I|].
  split; [usable_by_computation|].
  intros (pos & Hrun & Hsize & _).
  vm_compute in Hrun. injection Hrun as <-.
  vm_compute in Hsize. discriminate.
Qed.

(** Nor does the transformer return for every mapping: where the [items:]
    level of the file was left empty, looking up an unmapped item raises
    [AttributeError]. *)
Example convert_to_pos_format_empty_items_level :
  explicit_entry empty_items_converter "loyverse" "maki" = None /\
  convert_to_pos_format empty_items_converter two_items
    = Raise AttributeError.
Proof. vm_compute. split; reflexivity. Qed.

(** C10. For a slug with no explicit entry in either system, the Loyverse
    and the Odoo identifier, whenever the lookups return them, are both
    ["omg-sushi-"] followed by the slug, hence equal; the lookups do return
    them when the mapping is well shaped; and the records of such an item
    are stored under that one identifier in both tables and carry it. *)
Theorem unmapped_ids_agree self slug :
  explicit_entry self "loyverse" slug = None ->
  explicit_entry self "odoo" slug = None ->
  (forall lid oid,
     loyverse_id self slug = Return lid -> odoo_id self slug = Return oid ->
     lid = NAtom (PyStr ("omg-sushi-" +:+ slug)) /\
     oid = NAtom (PyStr ("omg-sushi-" +:+ slug)) /\
     lid = oid) /\
  (well_shaped self "loyverse" = true -> well_shaped self "odoo" = true ->
   loyverse_id self slug = Return (NAtom (PyStr ("omg-sushi-" +:+ slug))) /\
   odoo_id self slug = Return (NAtom (PyStr ("omg-sushi-" +:+ slug)))) /\
  forall (menu_items : menu) pos (item_data : item),
    convert_to_pos_format self menu_items = Return pos ->
    (slug, item_data) ∈ menu_items ->
    exists lr orr,
      table_get (PyStr ("omg-sushi-" +:+ slug)) (loyverse pos) = Some lr /\
      table_get (PyStr ("omg-sushi-" +:+ slug)) (odoo pos) = Some orr /\
      dict_get "sku" lr = Some (PyStr ("omg-sushi-" +:+ slug)) /\
      dict_get "default_code" orr = Some (PyStr ("omg-sushi-" +:+ slug)).
Proof.
  intros Hl Ho.
  assert (Hlid : expected_id self "loyverse" slug
                 = NAtom (PyStr ("omg-sushi-" +:+ slug)))
    by (unfold expected_id; now rewrite Hl).
  assert (Hoid : expected_id self "odoo" slug
                 = NAtom (PyStr ("omg-sushi-" +:+ slug)))
    by (unfold expected_id; now rewrite Ho).
  repeat split.
  - apply loyverse_id_expected in H. congruence.
  - apply odoo_id_expected in H0. congruence.
  - apply loyverse_id_expected in H. apply odoo_id_expected in H0. congruence.
  - rewrite loyverse_id_cases, H. congruence.
  - rewrite odoo_id_cases, H0. congruence.
  - intros menu_items pos item_data Hrun Hin.
    destruct (convert_to_pos_format_present _ _ _ _ _ Hrun Hin)
      as [(lid & lr & sku & Hlid' & Hlr & Hsku & Hleq)
          (oid & orr & code & Hoid' & Horr & Hcode & Hoeq)].
    rewrite Hlid in Hlid'. injection Hlid' as <-.
    rewrite Hoid in Hoid'. injection Hoid' as <-.
    apply key_norm_str in Hleq, Hoeq. subst sku code.
    now exists lr, orr.
Qed.

Lemma spicy_tuna_unmapped_ids :
  loyverse_id hugo "spicy-tuna" = odoo_id hugo "spicy-tuna" /\
  exists pos lr orr,
    convert_to_pos_format hugo [("spicy-tuna", spicy_tuna_item)] = Return pos /\
    table_get (PyStr "omg-sushi-spicy-tuna") (loyverse pos) = Some lr /\
    table_get (PyStr "omg-sushi-spicy-tuna") (odoo pos) = Some orr /\
    dict_get "sku" lr = Some (PyStr "omg-sushi-spicy-tuna") /\
    dict_get "default_code" orr = Some (PyStr "omg-sushi-spicy-tuna").
Proof.
  destruct (unmapped_ids_agree hugo "spicy-tuna") as (_ & Hids & Hrecords).
  - vm_compute. reflexivity.
  - vm_compute. reflexivity.
  - destruct Hids as [Hlid Hoid]; [reflexivity | reflexivity |].
    split; [now rewrite Hlid, Hoid|].
    destruct (convert_loop_valid hugo [("spicy-tuna", spicy_tuna_item)]
                (PosItems [] [])) as [pos Hrun].
    { unfold valid_menu, valid_item. valid_by_computation. }
    { usable_by_computation. }
    destruct (Hrecords _ pos spicy_tuna_item Hrun) as (lr & orr & Hfound).
    { apply list_elem_of_singleton. reflexivity. }
    exists pos, lr, orr. split; [exact Hrun | exact Hfound].
Defined.

(** With an explicit entry in one system only, the two identifiers of an
    item differ. *)
Example mapped_ids_differ :
  loyverse_id shared_id_converter "maki" = Return (NAtom (PyStr "L-1")) /\
  odoo_id shared_id_converter "maki"
    = Return (NAtom (PyStr "omg-sushi-maki")).
Proof. vm_compute. split; reflexivity. Qed.

(** ** The two serialisations *)

Lemma table_set_fresh (k : pyval) (r : pos_record) (t : pos_table) :
  key_norm k ∉ table_keys t -> table_set k r t = (t ++ [(k, r)])%list.
Proof.
  unfold table_keys. induction t as [|[k0 r0] t IH]; cbn; [reflexivity|].
  rewrite not_elem_of_cons. intros [Hne Hnotin].
  assert (Hk : key_eqb k0 k = false) by (apply key_eqb_false; congruence).
  now rewrite Hk, IH.
Qed.

Lemma table_keys_app (t1 t2 : pos_table) :
  table_keys (t1 ++ t2) = (table_keys t1 ++ table_keys t2)%list.
Proof. unfold table_keys. now rewrite !fmap_app. Qed.

(** Both serialisers hand a plain record back as it was. *)
Lemma json_record_plain json yaml (r : pos_record) :
  plain_record json yaml r -> json_record json r = Return r.
Proof.
  unfold plain_record. induction 1 as [|[field v] r Hv _ IH]; [reflexivity|].
  cbn [json_record]. cbn in Hv.
  assert (Hback : json_value json v = Return v).
  { destruct v; try reflexivity. apply Hv. }
  now rewrite Hback, IH.
Qed.

Lemma yaml_record_plain json yaml (r : pos_record) :
  plain_record json yaml r -> yaml_record yaml r = Return r.
Proof.
  unfold plain_record. induction 1 as [|[field v] r Hv _ IH]; [reflexivity|].
  cbn [yaml_record]. cbn in Hv.
  assert (Hback : yaml_value_back yaml v = Return v).
  { destruct v; try reflexivity. apply Hv. }
  now rewrite Hback, IH.
Qed.

Lemma json_table_plain json yaml (t acc : pos_table) :
  NoDup (table_keys (acc ++ t)) ->
  Forall (fun e => string_key (fst e) = true /\
                   plain_record json yaml (snd e)) t ->
  json_table json t acc = Return (acc ++ t)%list.
Proof.
  revert acc. induction t as [|[k r] t IH]; intros acc Hnd Hplain; cbn.
  - now rewrite app_nil_r.
  - apply Forall_cons in Hplain as [[Hk Hr] Hplain]. cbn in Hk, Hr.
    destruct k as [| | | |s|]; try discriminate. cbn.
    rewrite (json_record_plain _ _ _ Hr). cbn.
    assert (Hfresh : key_norm (PyStr s) ∉ table_keys acc).
    { rewrite table_keys_app in Hnd. apply NoDup_app in Hnd as (_ & Hdisj & _).
      intros Hin. apply (Hdisj _ Hin). apply elem_of_cons. now left. }
    rewrite (table_set_fresh _ _ _ Hfresh), IH;
      [|now rewrite <- app_assoc|assumption].
    now rewrite <- app_assoc.
Qed.

Lemma yaml_table_plain json yaml (t acc : pos_table) :
  NoDup (table_keys (acc ++ t)) ->
  Forall (fun e => string_key (fst e) = true /\
                   plain_record json yaml (snd e)) t ->
  yaml_table yaml t acc = Return (acc ++ t)%list.
Proof.
  revert acc. induction t as [|[k r] t IH]; intros acc Hnd Hplain; cbn.
  - now rewrite app_nil_r.
  - apply Forall_cons in Hplain as [[Hk Hr] Hplain]. cbn in Hk, Hr.
    destruct k as [| | | |s|]; try discriminate. cbn.
    rewrite (yaml_record_plain _ _ _ Hr). cbn.
    assert (Hfresh : key_norm (PyStr s) ∉ table_keys acc).
    { rewrite table_keys_app in Hnd. apply NoDup_app in Hnd as (_ & Hdisj & _).
      intros Hin. apply (Hdisj _ Hin). apply elem_of_cons. now left. }
    rewrite (table_set_fresh _ _ _ Hfresh), IH;
      [|now rewrite <- app_assoc|assumption].
    now rewrite <- app_assoc.
Qed.

Lemma same_table_refl (t : pos_table) : same_table t t.
Proof. intros k. now destruct (table_get k t). Qed.

(** C8, as amended. For every table whose identifiers are strings and
    whose records hold strings, numbers other than NaN, booleans, [None]
    and objects that both libraries read back as they were, writing it as
    YAML and as JSON and reading each back gives the table again, so the
    two readings are equal data. *)
Theorem plain_table_round_trip json yaml (t : pos_table) :
  plain_table json yaml t ->
  exists from_yaml from_json,
    yaml_table yaml t [] = Return from_yaml /\
    json_table json t [] = Return from_json /\
    from_yaml = t /\ from_json = t /\
    same_table from_yaml from_json.
Proof.
  intros [Hnd Hplain]. exists t, t.
  rewrite (yaml_table_plain json yaml), (json_table_plain json yaml)
    by assumption.
  repeat split. apply same_table_refl.
Qed.

Lemma spicy_tuna_round_trip :
  exists pos,
    convert_to_pos_format mapped_converter [("spicy-tuna", spicy_tuna_item)]
      = Return pos /\
    yaml_table yaml_keeps (loyverse pos) [] = Return (loyverse pos) /\
    json_table json_refuses (loyverse pos) [] = Return (loyverse pos).
Proof.
  eexists. split; [vm_compute; reflexivity|]. cbn [loyverse].
  match goal with
  | |- yaml_table _ ?t [] = _ /\ _ =>
      destruct (plain_table_round_trip json_refuses yaml_keeps t)
        as (ty & tj & Hy & Hj & -> & -> & _)
  end.
  - split.
    + apply (bool_decide_unpack _). vm_compute. exact I.
    + repeat constructor.
  - split; [exact Hy | exact Hj].
Defined.

(** C8, as stated, fails: an identifier that the mapping file gives as a
    number is a key that YAML reads back as that number and JSON as a
    string, whatever the two libraries do with opaque objects. *)
Lemma int_id_round_trip_differs :
  exists pos,
    convert_to_pos_format int_id_converter [("spicy-tuna", spicy_tuna_item)]
      = Return pos /\
    forall json yaml, exists from_yaml from_json,
      yaml_table yaml (loyverse pos) [] = Return from_yaml /\
      json_table json (loyverse pos) [] = Return from_json /\
      from_yaml.*1 = [PyInt 1042] /\
      from_json.*1 = [PyStr "1042"] /\
      ~ same_table from_yaml from_json.
Proof.
  eexists. split; [vm_compute; reflexivity|]. cbn [loyverse].
  intros json yaml. eexists _, _.
  split; [vm_compute; reflexivity|]. split; [vm_compute; reflexivity|].
  split; [reflexivity|]. split; [reflexivity|].
  intros Hsame. specialize (Hsame (PyInt 1042)). vm_compute in Hsame.
  exact Hsame.
Qed.

(** ** The whole run on a small tree *)

Example run_conversion_one_item :
  fst (run_conversion flat_yaml no_mapping json_refuses one_item_tree hugo)
    = Return tt /\
  written (snd (run_conversion flat_yaml no_mapping json_refuses
                  one_item_tree hugo))
    = [["data"; "pos-menu-data.yaml"];
       ["data"; "pos-menu-data.json"];
       ["data"; "pos-menu-loyverse.yaml"];
       ["data"; "pos-menu-odoo.yaml"];
       ["data"; "mapping-report.md"]].
Proof. vm_compute. split; reflexivity. Qed.

Example scan_one_item :
  fst (scan_menu_items flat_yaml one_item_tree hugo)
    = Return [("spicy-tuna", spicy_tuna_item)].
Proof. vm_compute. reflexivity. Qed.

(** * Further properties *)

(** ** The scanner *)

Lemma scan_file_menu loader self fp text (menu_items : menu) :
  fst (scan_file loader self fp text menu_items) =
    Return
      match text with
      | Some content =>
          match parse_menu_item loader self fp content with
          | (Return (Some parsed), _) => dict_set (path_stem fp) parsed menu_items
          | _ => menu_items
          end
      | None => menu_items
      end.
Proof.
  unfold scan_file. destruct text as [content|]; [|reflexivity].
  cbn [mbind M_bind mret M_ret].
  destruct (parse_menu_item loader self fp content) as [[[parsed|]|e] tp]
    eqn:Hparse; [|reflexivity|reflexivity].
  destruct (parse_menu_item_fields _ _ _ _ _ _ Hparse)
    as (y & d & category & price & f & _ & _ & _ & _ & _ & _ & _ & Hslug & _).
  cbn. destruct (decide (parsed = ∅)) as [Hempty|Hne].
  - rewrite Hempty, lookup_empty in Hslug. discriminate.
  - unfold getitem. rewrite Hslug. reflexivity.
Qed.

Lemma scan_file_total loader self fp text (menu_items : menu) :
  scan_file loader self fp text menu_items
    = (Return match fst (scan_file loader self fp text menu_items) with
              | Return m => m
              | Raise _ => menu_items
              end,
       snd (scan_file loader self fp text menu_items)).
Proof.
  destruct (scan_file_returns loader self fp text menu_items)
    as (m & t & -> & _). reflexivity.
Qed.

(** The loop of the scan, by what each file adds. *)
Lemma scan_loop_menu loader self files (menu0 : menu) :
  fst (scan_loop loader self files menu0)
    = Return (menu_of (omap (contribution loader self) files) menu0).
Proof.
  revert menu0. induction files as [|[relative text] files IH]; intros menu0;
    [reflexivity|].
  assert (Homap : omap (contribution loader self) ((relative, text) :: files)
            = match contribution loader self (relative, text) with
              | Some e => e :: omap (contribution loader self) files
              | None => omap (contribution loader self) files
              end) by reflexivity.
  rewrite Homap. clear Homap. unfold contribution at 1.
  cbn [scan_loop fst snd].
  destruct (Py.startswith _ "_index.md"); [apply IH|].
  pose proof (scan_file_menu loader self (content_dir self ++ relative) text
                menu0) as Hfile.
  rewrite scan_file_total, bind_return. cbn [fst]. rewrite Hfile, IH.
  destruct text as [content|]; [|reflexivity].
  now destruct (parse_menu_item _ _ _ _) as [[[parsed|]|e] tp].
Qed.

Lemma dict_get_set_eq {A : Type} (k : string) (v : A) (d : list (string * A)) :
  dict_get k (dict_set k v d) = Some v.
Proof.
  induction d as [|[k0 v0] d IH]; cbn.
  - now rewrite String.eqb_refl.
  - destruct (String.eqb k0 k) eqn:Hk; cbn; rewrite ?String.eqb_refl, ?Hk; auto.
Qed.

Lemma dict_get_set_ne {A : Type} (k k' : string) (v : A)
    (d : list (string * A)) :
  k <> k' -> dict_get k' (dict_set k v d) = dict_get k' d.
Proof.
  intros Hne. induction d as [|[k0 v0] d IH]; cbn.
  - destruct (String.eqb_spec k k'); [contradiction | reflexivity].
  - destruct (String.eqb_spec k0 k) as [->|Hk0]; cbn.
    + destruct (String.eqb_spec k k'); [contradiction|].
      destruct (String.eqb_spec k k'); [contradiction | reflexivity].
    + destruct (String.eqb_spec k0 k'); [reflexivity | exact IH].
Qed.


Lemma menu_of_app (es es' : list (string * item)) (menu0 : menu) :
  menu_of (es ++ es') menu0 = menu_of es' (menu_of es menu0).
Proof. unfold menu_of. apply foldl_app. Qed.


(** A key that no later entry assigns keeps its value. *)
Lemma menu_of_get_other (es : list (string * item)) (menu0 : menu) (k : string) :
  k ∉ es.*1 -> dict_get k (menu_of es menu0) = dict_get k menu0.
Proof.
  revert menu0. induction es as [|[k0 v0] es IH]; intros menu0 Hk; [reflexivity|].
  cbn in Hk. apply not_elem_of_cons in Hk as [Hne Hk].
  change (menu_of ((k0, v0) :: es) menu0)
    with (menu_of es (dict_set k0 v0 menu0)).
  rewrite IH by assumption. apply dict_get_set_ne. congruence.
Qed.



Lemma scan_menu_items_menu loader fs self :
  fst (scan_menu_items loader fs self)
    = Return (menu_of (omap (contribution loader self) (rglob_md fs)) []).
Proof.
  unfold scan_menu_items.
  destruct (scan_loop_returns loader self (rglob_md fs) [])
    as (m & t & Hrun & _).
  pose proof (scan_loop_menu loader self (rglob_md fs) []) as Hmenu.
  rewrite Hrun in *. cbn [fst] in Hmenu. injection Hmenu as ->.
  now rewrite bind_return.
Qed.


(** X2. The menu of a scan is the fold, in the order of the walk, of what
    each [*.md] file adds: nothing for an index file, an unreadable file or
    a file whose parse yields no item or raises, and otherwise the parsed
    item assigned under its stem. The last line logged is the count of the
    entries of that menu. *)
Theorem scan_menu_items_by_contribution loader fs self :
  let menu_items :=
    menu_of (omap (contribution loader self) (rglob_md fs)) [] in
  exists t,
    scan_menu_items loader fs self
      = (Return menu_items,
         (t ++ [Log INFO ("Found " +:+ Py.str_int (Z.of_nat (length menu_items))
                          +:+ " menu items")])%list).
Proof.
  cbn zeta. unfold scan_menu_items.
  destruct (scan_loop_returns loader self (rglob_md fs) [])
    as (m & t & Hrun & _).
  pose proof (scan_loop_menu loader self (rglob_md fs) []) as Hmenu.
  rewrite Hrun in *. cbn [fst] in Hmenu. injection Hmenu as <-.
  exists t. now rewrite bind_return.
Qed.

Lemma rglob_md_app (pre post : list (path * option string)) data cwd w :
  rglob_md (FileSystem (pre ++ post) data cwd w)
    = (rglob_md (FileSystem pre data cwd w)
         ++ rglob_md (FileSystem post data cwd w))%list.
Proof. unfold rglob_md. cbn [content_files]. apply List.filter_app. Qed.

Lemma omap_contribution_keys loader self files (k : string) :
  (forall g e, g ∈ files -> contribution loader self g = Some e -> fst e <> k) ->
  k ∉ (omap (contribution loader self) files).*1.
Proof.
  intros Hother Hin.
  apply list_elem_of_fmap in Hin as (e & -> & He).
  apply list_elem_of_omap in He as (g & Hg & Hc).
  exact (Hother g e Hg Hc eq_refl).
Qed.

(** X3. A file that is not a [*.md] file, or that adds nothing (an index
    file, an unreadable file, a file without a valid item), leaves the menu
    of the scan as it is without that file: a failure on one file never
    affects the others. *)
Theorem scan_menu_items_skips loader self pre f post data cwd w :
  Py.endswith (path_name (fst f)) ".md" = false \/
  contribution loader self f = None ->
  fst (scan_menu_items loader (FileSystem (pre ++ f :: post) data cwd w) self)
    = fst (scan_menu_items loader (FileSystem (pre ++ post) data cwd w) self).
Proof.
  intros Hskip. rewrite !scan_menu_items_menu. do 2 f_equal.
  change (pre ++ f :: post)%list with (pre ++ [f] ++ post)%list.
  rewrite !rglob_md_app, !omap_app. do 2 f_equal.
  unfold rglob_md. cbn [content_files List.filter].
  destruct (Py.endswith (path_name (fst f)) ".md") eqn:Hmd; [|reflexivity].
  destruct Hskip as [?|Hnone]; [discriminate|].
  change (omap ?c [f]) with (match c f with Some e => [e] | None => [] end).
  now rewrite Hnone.
Qed.

Lemma scan_skips_broken_file :
  fst (scan_menu_items flat_yaml
         (FileSystem ([(["rolls"; "spicy-tuna.md"], Some spicy_tuna_md)]
                        ++ (["rolls"; "broken.md"], Some broken_md) :: [])
                     ∅ ["srv"; "site"] (fun _ => true)) hugo)
    = fst (scan_menu_items flat_yaml
             (FileSystem ([(["rolls"; "spicy-tuna.md"], Some spicy_tuna_md)]
                            ++ [])
                         ∅ ["srv"; "site"] (fun _ => true)) hugo).
Proof.
  apply scan_menu_items_skips. right. vm_compute. reflexivity.
Defined.

(** X4. When several files have the same stem, the last one of the walk
    wins: the item of a file is the menu's entry for its stem whenever no
    later file adds an item under that stem. *)
Theorem scan_menu_items_last_wins loader self pre f post data cwd w k
    (v : item) :
  Py.endswith (path_name (fst f)) ".md" = true ->
  contribution loader self f = Some (k, v) ->
  (forall g e, g ∈ post -> contribution loader self g = Some e -> fst e <> k) ->
  exists menu_items,
    fst (scan_menu_items loader (FileSystem (pre ++ f :: post) data cwd w) self)
      = Return menu_items /\
    dict_get k menu_items = Some v.
Proof.
  intros Hmd Hf Hpost. eexists. split; [apply scan_menu_items_menu|].
  change (pre ++ f :: post)%list with (pre ++ [f] ++ post)%list.
  rewrite !rglob_md_app, !omap_app, !menu_of_app.
  rewrite menu_of_get_other.
  - unfold rglob_md at 1. cbn [content_files List.filter]. rewrite Hmd.
    change (omap ?c [f]) with (match c f with Some e => [e] | None => [] end).
    rewrite Hf. apply dict_get_set_eq.
  - apply omap_contribution_keys. intros g e Hg. apply Hpost.
    unfold rglob_md in Hg. cbn [content_files] in Hg.
    apply list_elem_of_In, List.filter_In in Hg as [Hg _].
    now apply list_elem_of_In.
Qed.

Lemma scan_specials_wins :
  exists menu_items v,
    fst (scan_menu_items flat_yaml specials_tree hugo) = Return menu_items /\
    dict_get "spicy-tuna" menu_items = Some v /\
    v !! "category" = Some (PyStr "specials") /\
    length menu_items = 1.
Proof.
  destruct (scan_menu_items_last_wins flat_yaml hugo
              [(["rolls"; "spicy-tuna.md"], Some spicy_tuna_md);
               (["rolls"; "broken.md"], Some broken_md)]
              (["specials"; "spicy-tuna.md"], Some spicy_tuna_md) []
              ∅ ["srv"; "site"] (fun _ => true) "spicy-tuna"
              (<["category" := PyStr "specials"]>
                 (<["file_path" := PyStr "content/specials/spicy-tuna.md"]>
                    spicy_tuna_item)))
    as (menu_items & Hrun & Hget).
  - reflexivity.
  - vm_compute. reflexivity.
  - intros g e Hg. now apply not_elem_of_nil in Hg.
  - eexists menu_items, _. split; [exact Hrun|]. split; [exact Hget|].
    split; [reflexivity|].
    change (fst (scan_menu_items flat_yaml specials_tree hugo)
            = Return menu_items) in Hrun.
    vm_compute in Hrun. injection Hrun as <-. reflexivity.
Defined.

(** ** The validator, further *)

Lemma present_insert_ne (field k : string) (v : pyval) (d : item) :
  k <> field -> present field (<[k := v]> d) = present field d.
Proof. intros Hne. unfold present. now rewrite lookup_insert_ne. Qed.

(** X5. Validation only adds [price_numeric]: every other field of an
    accepted record is left as it was, and validating the accepted record
    again accepts it, changes nothing and logs nothing. *)
Theorem validate_menu_item_idempotent (d d' : item) (t : list event) :
  validate_menu_item d = (Return (true, d'), t) ->
  (forall k, k <> "price_numeric" -> d' !! k = d !! k) /\
  validate_menu_item d' = (Return (true, d'), []).
Proof.
  intros Hval.
  destruct (validate_menu_item_true _ _ _ Hval)
    as (price & f & Hprice & Htruth & Htitle & Hfloat & -> & _).
  split.
  - intros k Hk. now rewrite lookup_insert_ne.
  - rewrite validate_menu_item_cases, first_missing_required.
    rewrite !present_insert_ne by discriminate. rewrite Htitle.
    assert (Hp : present "price" d = true)
      by (unfold present; now rewrite Hprice).
    rewrite Hp.
    assert (Hlook : <["price_numeric" := PyFloat f]> d !! "price" = Some price)
      by now rewrite lookup_insert_ne.
    rewrite (price_number_get _ price Hlook).
    unfold price_number. rewrite Hlook, Hfloat.
    now rewrite insert_insert_eq.
Qed.

Lemma validate_twice_spicy_tuna :
  validate_menu_item spicy_tuna_item = (Return (true, spicy_tuna_item), []).
Proof.
  apply (validate_menu_item_idempotent
           (delete "price_numeric" spicy_tuna_item) spicy_tuna_item []).
  vm_compute. reflexivity.
Defined.

Lemma without_chars_app (cs : list ascii) (a b : string) :
  without_chars cs (a +:+ b) = without_chars cs a +:+ without_chars cs b.
Proof.
  induction a as [|c a IH]; [reflexivity|].
  rewrite append_cons. cbn [without_chars].
  destruct (existsb (Ascii.eqb c) cs); [exact IH|].
  now rewrite append_cons, IH.
Qed.

Lemma accepts_cases (d : item) :
  accepts d =
    present "title" d && present "price" d &&
    match price_number d with Some _ => true | None => false end.
Proof.
  unfold accepts. rewrite validate_menu_item_cases, first_missing_required.
  destruct (present "title" d); [|reflexivity].
  destruct (present "price" d) eqn:Hp; [|reflexivity].
  destruct (present_Some _ _ Hp) as (p & Hlook & _).
  rewrite (price_number_get d p Hlook).
  now destruct (price_number d).
Qed.

(** X6. A ['$'] or a [','] may stand anywhere in the price, any number of
    times: a price with one more of them is accepted exactly when the
    price without it is, and reads as the same number. *)
Theorem validate_menu_item_price_symbols (d : item) (a b : string) (c : ascii) :
  c = "$"%char \/ c = ","%char ->
  price_number (<["price" := PyStr (a +:+ String c b)]> d)
    = price_number (<["price" := PyStr (a +:+ b)]> d) /\
  accepts (<["price" := PyStr (a +:+ String c b)]> d)
    = accepts (<["price" := PyStr (a +:+ b)]> d).
Proof.
  intros Hc.
  assert (Hnum : price_number (<["price" := PyStr (a +:+ String c b)]> d)
                 = price_number (<["price" := PyStr (a +:+ b)]> d)).
  { unfold price_number. rewrite !lookup_insert_eq. cbn [py_str].
    rewrite !without_chars_app. cbn [without_chars existsb].
    now destruct Hc as [-> | ->]. }
  split; [exact Hnum|].
  rewrite !accepts_cases, Hnum.
  rewrite !(present_insert_ne "title" "price") by discriminate.
  destruct (present "title" d); [|reflexivity]. cbn [andb].
  unfold present. rewrite !lookup_insert_eq. cbn [truthy].
  destruct (String.eqb (a +:+ b) "") eqn:Hempty.
  - apply String.eqb_eq in Hempty.
    unfold price_number. rewrite lookup_insert_eq, Hempty. cbn.
    now rewrite andb_false_r.
  - now destruct a.
Qed.

Lemma grouped_price_symbols :
  price_number (<["price" := PyStr ("1" +:+ String "," "250")]> zero_price_item)
    = Some (Py.FDec false 125 1) /\
  accepts (<["price" := PyStr ("1" +:+ String "," "250")]> zero_price_item)
    = true.
Proof.
  destruct (validate_menu_item_price_symbols zero_price_item "1" "250" ",")
    as [Hnum Hacc]; [now right|].
  rewrite Hnum, Hacc. vm_compute. split; reflexivity.
Defined.

(** ** The parser, further *)

(** X7. A parsed item carries every field of its front matter unchanged,
    except the five computed ones, which replace whatever the front matter
    gave under those names: [file_path] is the path of the file and
    [content] the body text. A successful parse logs nothing. *)
Theorem parse_menu_item_keeps_fields loader self fp content (parsed : item) t :
  parse_menu_item loader self fp content = (Return (Some parsed), t) ->
  exists y d,
    loader (front_matter_text content) = Loaded y /\
    or_empty y = YMap d /\
    (forall k, k ∉ computed_fields -> parsed !! k = d !! k) /\
    parsed !! "file_path" = Some (PyStr (path_str fp)) /\
    parsed !! "content" = Some (PyStr (body_text content)) /\
    t = [].
Proof.
  intros Hparse.
  destruct (parse_menu_item_some _ _ _ _ _ _ Hparse)
    as (y & d & category & _ & Hload & Hor & _ & Hval).
  destruct (validate_menu_item_true _ _ _ Hval)
    as (price & f & _ & _ & _ & _ & -> & ->).
  exists y, d. repeat split; try assumption.
  - intros k Hk. unfold computed_fields in Hk.
    rewrite !not_elem_of_cons in Hk.
    destruct Hk as (? & ? & ? & ? & ? & _).
    unfold prepared_item. now rewrite !lookup_insert_ne by congruence.
  - unfold prepared_item. now simplify_map_eq.
  - unfold prepared_item. now simplify_map_eq.
Qed.

Lemma spicy_tuna_keeps_fields :
  spicy_tuna_item !! "title" = Some (PyStr "Spicy Tuna Roll") /\
  spicy_tuna_item !! "file_path"
    = Some (PyStr (path_str spicy_tuna_path)).
Proof.
  destruct (parse_menu_item_keeps_fields flat_yaml hugo spicy_tuna_path
              spicy_tuna_md spicy_tuna_item [])
    as (y & d & Hload & Hor & Hkeep & Hpath & _).
  - vm_compute. reflexivity.
  - split; [|exact Hpath].
    rewrite Hkeep by (apply (bool_decide_unpack _); vm_compute; exact I).
    vm_compute in Hload. injection Hload as <-.
    vm_compute in Hor. injection Hor as <-. vm_compute. reflexivity.
Defined.

Lemma split_nonempty (sep : ascii) (s : string) : Py.split sep s <> [].
Proof.
  destruct s as [|c s]; cbn; [discriminate|].
  destruct (Ascii.eqb c sep); [discriminate|].
  now destruct (Py.split sep s).
Qed.

Lemma join_cons (sep x y : string) (l : list string) :
  Py.join sep (x :: y :: l) = x +:+ sep +:+ Py.join sep (y :: l).
Proof. reflexivity. Qed.

(** Splitting into lines and joining them again gives the text back. *)
Lemma join_split (s : string) :
  Py.join (String "010" "") (Py.split "010" s) = s.
Proof.
  induction s as [|c s IH]; [reflexivity|].
  cbn [Py.split]. pose proof (split_nonempty "010" s) as Hne.
  destruct (Py.split "010" s) as [|l ls]; [contradiction|].
  destruct (Ascii.eqb_spec c "010") as [->|Hc].
  - rewrite join_cons, IH. reflexivity.
  - destruct ls as [|l' ls].
    + cbn in *. now rewrite IH.
    + rewrite join_cons in *. rewrite append_cons. now rewrite IH.
Qed.

Lemma split_line (l s : string) :
  no_newline l = true ->
  Py.split "010" (l +:+ String "010" s) = l :: Py.split "010" s.
Proof.
  induction l as [|c l IH]; intros Hl.
  - rewrite append_nil. reflexivity.
  - cbn in Hl. apply andb_prop in Hl as [Hc Hl].
    rewrite append_cons. cbn [Py.split].
    destruct (Ascii.eqb c "010"); [discriminate|].
    now rewrite (IH Hl).
Qed.

Lemma split_one_line (l : string) :
  no_newline l = true -> Py.split "010" l = [l].
Proof.
  induction l as [|c l IH]; intros Hl; [reflexivity|].
  cbn in Hl. apply andb_prop in Hl as [Hc Hl].
  cbn [Py.split]. destruct (Ascii.eqb c "010"); [discriminate|].
  now rewrite (IH Hl).
Qed.

(** Joining lines and splitting the text again gives the lines back. *)
Lemma split_join (lines : list string) :
  lines <> [] -> Forall (fun l => no_newline l = true) lines ->
  Py.split "010" (Py.join (String "010" "") lines) = lines.
Proof.
  induction lines as [|l lines IH]; [congruence|]. intros _ Hall.
  apply Forall_cons in Hall as [Hl Hall].
  destruct lines as [|l' lines].
  - cbn. now apply split_one_line.
  - rewrite join_cons, append_cons, append_nil, split_line by assumption.
    now rewrite IH.
Qed.

Lemma front_matter_loop_inside (fm rest : list string) (i : nat)
    (acc : list string) :
  Forall (fun l => Py.startswith l "---" = false) fm ->
  front_matter_loop (fm ++ rest) i true acc
    = front_matter_loop rest (i + length fm) true (acc ++ fm).
Proof.
  revert i acc. induction fm as [|l fm IH]; intros i acc Hfm.
  - cbn. now rewrite Nat.add_0_r, app_nil_r.
  - apply Forall_cons in Hfm as [Hl Hfm].
    cbn [app front_matter_loop]. rewrite Hl. cbn [negb].
    rewrite IH by assumption. cbn [length].
    now rewrite <- app_assoc, Nat.add_succ_r.
Qed.

(** X8. In a text whose first line is a delimiter, the front-matter block
    is made of the lines up to the next line that starts with [---], and
    the body is what follows that line, stripped. *)
Theorem parse_front_matter_block (first close : string)
    (fm rest : list string) :
  Py.startswith first "---" = true ->
  Py.startswith close "---" = true ->
  Forall (fun l => Py.startswith l "---" = false) fm ->
  Forall (fun l => no_newline l = true) (first :: fm ++ close :: rest) ->
  let content := Py.join (String "010" "") (first :: fm ++ close :: rest) in
  front_matter_lines content = fm /\
  front_matter_text content = Py.join (String "010" "") fm /\
  body_text content = Py.strip (Py.join (String "010" "") rest).
Proof.
  intros Hfirst Hclose Hfm Hlines content.
  assert (Hsplit : Py.split "010" content = first :: fm ++ close :: rest)
    by (apply split_join; [discriminate | assumption]).
  assert (Hloop : front_matter_loop (first :: fm ++ close :: rest) 0 false []
                  = (fm, S (S (length fm)))).
  { cbn [front_matter_loop]. rewrite Hfirst. cbn [negb].
    rewrite front_matter_loop_inside by assumption.
    cbn [front_matter_loop app]. now rewrite Hclose. }
  unfold front_matter_text, front_matter_lines, body_text.
  rewrite Hsplit, Hloop. cbn [fst snd]. repeat split.
  cbn [drop].
  replace (S (length fm)) with (length (fm ++ [close]))
    by (rewrite length_app; cbn; lia).
  change (fm ++ close :: rest)%list with (fm ++ [close] ++ rest)%list.
  now rewrite app_assoc, drop_app_length.
Qed.

Lemma spicy_tuna_front_matter_block :
  front_matter_lines spicy_tuna_md
    = ["title: Spicy Tuna Roll"; "price: '$12.50'"] /\
  body_text spicy_tuna_md = "Fresh tuna.".
Proof.
  destruct (parse_front_matter_block "---" "---"
              ["title: Spicy Tuna Roll"; "price: '$12.50'"]
              ["Fresh tuna."; ""])
    as (Hlines & _ & Hbody).
  - reflexivity.
  - reflexivity.
  - repeat constructor.
  - repeat constructor.
  - split; [exact Hlines | exact Hbody].
Defined.

Lemma front_matter_loop_open (lines : list string) (i : nat)
    (acc : list string) :
  Forall (fun l => Py.startswith l "---" = false) lines ->
  front_matter_loop lines i true acc = ((acc ++ lines)%list, 0).
Proof.
  intros Hopen.
  rewrite <- (app_nil_r lines) at 1.
  rewrite front_matter_loop_inside by assumption. reflexivity.
Qed.

(** X9. When no later line starts with [---], the front matter is never
    closed: every line after the first belongs to the block, and the body
    is the whole text, delimiter and block included, stripped. *)
Theorem parse_unclosed_front_matter (content : string) :
  Py.startswith (first_line content) "---" = true ->
  Forall (fun l => Py.startswith l "---" = false)
         (List.tl (Py.split "010" content)) ->
  front_matter_lines content = List.tl (Py.split "010" content) /\
  body_text content = Py.strip content.
Proof.
  unfold first_line, front_matter_lines, body_text.
  pose proof (join_split content) as Hjoin.
  destruct (Py.split "010" content) as [|first rest] eqn:Hsplit.
  { now destruct (split_nonempty "010" content). }
  cbn [hd List.tl]. intros Hfirst Hrest.
  cbn [front_matter_loop]. rewrite Hfirst. cbn [negb].
  rewrite front_matter_loop_open by assumption.
  cbn [fst snd drop]. now rewrite Hjoin.
Qed.

Lemma unclosed_front_matter_body :
  front_matter_lines unclosed_md = ["title: Edamame"; "price: 4"] /\
  body_text unclosed_md = unclosed_md.
Proof.
  destruct (parse_unclosed_front_matter unclosed_md) as [Hlines Hbody].
  - reflexivity.
  - vm_compute. repeat constructor.
  - split; [exact Hlines | exact Hbody].
Defined.

Lemma relative_to_Some (p base relative : path) :
  relative_to p base = Some relative -> p = (base ++ relative)%list.
Proof.
  revert p. induction base as [|b base IH]; intros p; cbn.
  - now intros [= ->].
  - destruct p as [|x p]; [discriminate|].
    destruct (String.eqb_spec b x) as [->|]; [|discriminate].
    intros H. now rewrite (IH _ H).
Qed.

(** X10. [extract_category] raises [ValueError] exactly for a path that
    does not lie under the content root, and returns for every other; and
    as the parser only catches YAML errors, parsing a file outside the
    root whose front matter loads as a mapping raises that [ValueError]. *)
Theorem extract_category_outside_root self (fp : path) :
  (extract_category self fp = Raise ValueError <->
     ~ exists relative, fp = (content_dir self ++ relative)%list) /\
  (forall loader content y (d : item),
     extract_category self fp = Raise ValueError ->
     Py.startswith (first_line content) "---" = true ->
     front_matter_lines content <> [] ->
     loader (front_matter_text content) = Loaded y ->
     or_empty y = YMap d ->
     parse_menu_item loader self fp content = (Raise ValueError, [])).
Proof.
  split.
  - unfold extract_category.
    destruct (relative_to fp (content_dir self)) as [relative|] eqn:Hrel.
    + apply relative_to_Some in Hrel. split.
      * now destruct (1 <? length relative)%nat.
      * intros Hout. destruct Hout. now exists relative.
    + split; [|reflexivity]. intros _ [relative ->].
      rewrite relative_to_app in Hrel. discriminate.
  - intros loader content y d Hraise Hstart Hblock Hload Hor.
    rewrite parse_menu_item_cases, Hstart. cbn [negb].
    destruct (front_matter_lines content); [contradiction|].
    now rewrite Hload, Hor, Hraise.
Qed.

Lemma parse_outside_root_raises :
  parse_menu_item flat_yaml hugo ["drafts"; "spicy-tuna.md"] spicy_tuna_md
    = (Raise ValueError, []).
Proof.
  destruct (extract_category_outside_root hugo ["drafts"; "spicy-tuna.md"])
    as [[_ Hout] Hparse].
  eapply (Hparse flat_yaml spicy_tuna_md).
  - apply Hout. intros [relative Heq]. discriminate.
  - reflexivity.
  - vm_compute. discriminate.
  - vm_compute. reflexivity.
  - vm_compute. reflexivity.
Defined.

(** ** The transformer, further *)

Lemma convert_loop_app self (pre rest : menu) pos0 :
  convert_loop self (pre ++ rest) pos0
    = convert_loop self pre pos0 ≫= convert_loop self rest.
Proof.
  revert pos0. induction pre as [|[slug d] pre IH]; intros pos0; [reflexivity|].
  cbn [app convert_loop].
  destruct (convert_item self slug d pos0) as [pos1|e]; [|reflexivity].
  cbn. apply IH.
Qed.

Lemma first_absent_mandatory (d : item) :
  first_absent mandatory_fields d = None <-> valid_item d.
Proof.
  unfold mandatory_fields, valid_item. cbn.
  destruct (d !! "title") as [t|];
    [|split; [discriminate | intros ([? ?] & _); discriminate]].
  destruct (d !! "price_numeric") as [p|];
    [|split; [discriminate | intros (_ & [? ?] & _); discriminate]].
  destruct (d !! "category") as [c|];
    [|split; [discriminate | intros (_ & _ & [? ?]); discriminate]].
  split; [eauto | reflexivity].
Qed.

Lemma loyverse_record_explicit (d : item) (slug : string) (id : yaml_node)
    (k : pyval) (r : pos_record) :
  loyverse_record d slug id = Return (k, r) ->
  exists title price category,
    d !! "title" = Some title /\ d !! "price_numeric" = Some price /\
    d !! "category" = Some category /\
    r = [("name", title); ("price", price);
         ("description", get d "description" (PyStr ""));
         ("category", category);
         ("available", get d "available" (PyBool true));
         ("sku", k); ("hugo_slug", PyStr slug)].
Proof.
  unfold loyverse_record, getitem.
  destruct (d !! "title") as [title|]; [|discriminate].
  destruct (d !! "price_numeric") as [price|]; [|discriminate].
  destruct (d !! "category") as [category|]; [|discriminate].
  destruct id as [m|l|v]; try discriminate.
  cbn. intros [= <- <-]. now exists title, price, category.
Qed.

Lemma odoo_record_explicit (d : item) (slug : string) (id : yaml_node)
    (k : pyval) (r : pos_record) :
  odoo_record d slug id = Return (k, r) ->
  exists title price category,
    d !! "title" = Some title /\ d !! "price_numeric" = Some price /\
    d !! "category" = Some category /\
    r = [("name", title); ("list_price", price);
         ("description", get d "description" (PyStr ""));
         ("categ_id", category);
         ("active", get d "available" (PyBool true));
         ("default_code", k); ("hugo_slug", PyStr slug)].
Proof.
  unfold odoo_record, getitem.
  destruct (d !! "title") as [title|]; [|discriminate].
  destruct (d !! "price_numeric") as [price|]; [|discriminate].
  destruct (d !! "category") as [category|]; [|discriminate].
  destruct id as [m|l|v]; try discriminate.
  cbn. intros [= <- <-]. now exists title, price, category.
Qed.

(** The entry of an item survives the insertions of the items after it
    when none of them has a key equal to its own. *)
Lemma insert_all_last (s1 s2 : list (pyval * pos_record)) (k : pyval)
    (r : pos_record) (t : pos_table) :
  key_norm k ∉ table_keys s2 ->
  table_get k (insert_all (s1 ++ (k, r) :: s2) t) = Some r.
Proof.
  intros Hk. rewrite insert_all_app, insert_all_cons.
  rewrite insert_all_other by assumption. now apply table_get_set_eq.
Qed.

Lemma id_key_later (k : pyval) (ids : list yaml_node) (keys : list pyval) :
  id_key <$> ids = Some <$> keys ->
  id_key (NAtom k) ∉ id_key <$> ids -> key_norm k ∉ keys.
Proof.
  intros -> Hnotin Hin. apply Hnotin. cbn. now apply list_elem_of_fmap_2.
Qed.

(** X11. Whenever the transformer returns, the record of an item is the
    fixed projection of the item for each system (Loyverse: name, price,
    description, category, available, sku, hugo_slug; Odoo: name,
    list_price, description, categ_id, active, default_code, hugo_slug),
    with [''] for a missing description and [True] for a missing
    availability; it is what the table holds under the item's identifier
    unless a later item has an equal identifier. *)
Theorem convert_to_pos_format_record self (pre post : menu) slug (d : item)
    pos :
  convert_to_pos_format self (pre ++ (slug, d) :: post) = Return pos ->
  exists lid oid title price category,
    expected_id self "loyverse" slug = NAtom lid /\
    expected_id self "odoo" slug = NAtom oid /\
    d !! "title" = Some title /\
    d !! "price_numeric" = Some price /\
    d !! "category" = Some category /\
    (id_key (NAtom lid)
       ∉ id_key <$> (expected_id self "loyverse" <$> post.*1) ->
     table_get lid (loyverse pos) =
       Some [("name", title); ("price", price);
             ("description", get d "description" (PyStr ""));
             ("category", category);
             ("available", get d "available" (PyBool true));
             ("sku", lid);
             ("hugo_slug", PyStr slug)]) /\
    (id_key (NAtom oid)
       ∉ id_key <$> (expected_id self "odoo" <$> post.*1) ->
     table_get oid (odoo pos) =
       Some [("name", title); ("list_price", price);
             ("description", get d "description" (PyStr ""));
             ("categ_id", category);
             ("active", get d "available" (PyBool true));
             ("default_code", oid);
             ("hugo_slug", PyStr slug)]).
Proof.
  unfold convert_to_pos_format. intros Hrun.
  destruct (convert_loop_steps _ _ _ _ Hrun) as (ls & os & Hls & Hos & Hlt & Hot).
  cbn [loyverse odoo] in Hlt, Hot.
  apply Forall2_app_inv_l in Hls as (ls1 & ls2 & _ & Hls2 & ->).
  apply Forall2_cons_inv_l in Hls2 as ([lk lr] & ls3 & Hlstep & Hls3 & ->).
  apply Forall2_app_inv_l in Hos as (os1 & os2 & _ & Hos2 & ->).
  apply Forall2_cons_inv_l in Hos2 as ([ok or] & os3 & Hostep & Hos3 & ->).
  pose proof (loyverse_step_fields _ _ _ Hlstep) as (Hlid & _).
  pose proof (odoo_step_fields _ _ _ Hostep) as (Hoid & _).
  destruct Hlstep as [_ Hlrec]. destruct Hostep as [_ Horec].
  cbn [fst snd] in *.
  apply loyverse_record_explicit in Hlrec
    as (title & price & category & Ht & Hp & Hc & ->).
  apply odoo_record_explicit in Horec as (t' & p' & c' & Ht' & Hp' & Hc' & ->).
  assert (t' = title) by congruence. assert (p' = price) by congruence.
  assert (c' = category) by congruence. subst t' p' c'.
  exists lk, ok, title, price, category.
  repeat split; try assumption.
  - intros Hlast. rewrite Hlt. apply insert_all_last.
    exact (id_key_later _ _ _ (loyverse_steps_keys _ _ _ Hls3) Hlast).
  - intros Hlast. rewrite Hot. apply insert_all_last.
    exact (id_key_later _ _ _ (odoo_steps_keys _ _ _ Hos3) Hlast).
Qed.

Lemma shared_id_last_record :
  exists pos r,
    convert_to_pos_format shared_id_converter two_items = Return pos /\
    table_get (PyStr "L-1") (loyverse pos) = Some r /\
    dict_get "name" r = Some (PyStr "Nigiri") /\
    dict_get "description" r = Some (PyStr "") /\
    dict_get "available" r = Some (PyBool true).
Proof.
  assert (Hrun : exists pos,
             convert_to_pos_format shared_id_converter
               ([("maki", plain_item "Maki")]
                  ++ ("nigiri", plain_item "Nigiri") :: []) = Return pos)
    by (eexists; vm_compute; reflexivity).
  destruct Hrun as [pos Hrun].
  destruct (convert_to_pos_format_record shared_id_converter
              [("maki", plain_item "Maki")] [] "nigiri" (plain_item "Nigiri")
              pos Hrun)
    as (lid & oid & title & price & category & Hlid & _ & Ht & _ & _ & Hl & _).
  eexists pos, _. split; [exact Hrun|].
  vm_compute in Hlid. injection Hlid as <-.
  split; [apply Hl, not_elem_of_nil|].
  vm_compute in Ht. injection Ht as <-. repeat split.
Defined.

Lemma convert_item_missing self slug (d : item) pos k :
  well_shaped self "loyverse" = true ->
  first_absent mandatory_fields d = Some k ->
  convert_item self slug d pos = Raise (KeyError k).
Proof.
  intros Hshape. rewrite convert_item_cases, loyverse_id_cases, Hshape. cbn.
  unfold mandatory_fields, loyverse_record, getitem. cbn.
  destruct (d !! "title"); [|now intros [= <-]].
  destruct (d !! "price_numeric"); [|now intros [= <-]].
  destruct (d !! "category"); [discriminate | now intros [= <-]].
Qed.

(** X12. The transformer does not validate: given a mapping that serves
    the items before, on a menu whose first item without one of [title],
    [price_numeric], [category] lacks the field [k] it raises [KeyError k]
    and returns no table at all, whatever follows that item. *)
Theorem convert_to_pos_format_missing_field self (pre post : menu) slug
    (d : item) k :
  valid_menu pre ->
  usable_mapping self pre ->
  first_absent mandatory_fields d = Some k ->
  convert_to_pos_format self (pre ++ (slug, d) :: post) = Raise (KeyError k).
Proof.
  intros Hpre Husable Hk. unfold convert_to_pos_format.
  destruct (convert_loop_valid self pre (PosItems [] []) Hpre Husable)
    as [pos Hrun].
  rewrite convert_loop_app, Hrun. cbn [mbind outcome_bind convert_loop].
  destruct Husable as (Hshape & _).
  now rewrite (convert_item_missing self slug d pos k Hshape Hk).
Qed.

Lemma unvalidated_item_raises :
  convert_to_pos_format hugo
    ([("maki", plain_item "Maki")] ++ ("gyoza", unvalidated_item) :: two_items)
    = Raise (KeyError "price_numeric").
Proof.
  apply convert_to_pos_format_missing_field.
  - unfold valid_menu, valid_item. valid_by_computation.
  - usable_by_computation.
  - vm_compute. reflexivity.
Defined.

(** X13. Whenever the transformer returns, each table is a dict: no two of
    its keys are equal; its keys are exactly the identifiers due to the
    slugs of the menu, so a table never holds more records than the menu
    has items, and holds none for an empty menu. *)
Theorem convert_to_pos_format_keys self (menu_items : menu) pos :
  convert_to_pos_format self menu_items = Return pos ->
  NoDup (table_keys (loyverse pos)) /\
  NoDup (table_keys (odoo pos)) /\
  (forall x, x ∈ table_keys (loyverse pos) <->
             Some x ∈ id_key <$> (expected_id self "loyverse"
                                    <$> menu_items.*1)) /\
  (forall x, x ∈ table_keys (odoo pos) <->
             Some x ∈ id_key <$> (expected_id self "odoo"
                                    <$> menu_items.*1)) /\
  length (loyverse pos) <= length menu_items /\
  length (odoo pos) <= length menu_items.
Proof.
  unfold convert_to_pos_format. intros Hrun.
  destruct (convert_loop_steps _ _ _ _ Hrun) as (ls & os & Hls & Hos & Hlt & Hot).
  cbn [loyverse odoo] in Hlt, Hot. rewrite Hlt, Hot.
  rewrite (loyverse_steps_keys _ _ _ Hls), (odoo_steps_keys _ _ _ Hos).
  assert (Hsome : forall (x : pyval) (keys : list pyval),
            Some x ∈ Some <$> keys <-> x ∈ keys).
  { intros x keys. split; [|apply list_elem_of_fmap_2].
    intros Hin. apply list_elem_of_fmap in Hin as (y & [= ->] & Hy). exact Hy. }
  repeat split.
  - apply insert_all_NoDup. constructor.
  - apply insert_all_NoDup. constructor.
  - rewrite insert_all_keys, Hsome. intros [Hnil|?]; [|assumption].
    now apply not_elem_of_nil in Hnil.
  - rewrite insert_all_keys, Hsome. now right.
  - rewrite insert_all_keys, Hsome. intros [Hnil|?]; [|assumption].
    now apply not_elem_of_nil in Hnil.
  - rewrite insert_all_keys, Hsome. now right.
  - etransitivity; [apply insert_all_length_le|].
    rewrite <- (Forall2_length _ _ _ Hls). reflexivity.
  - etransitivity; [apply insert_all_length_le|].
    rewrite <- (Forall2_length _ _ _ Hos). reflexivity.
Qed.

Lemma shared_id_keys :
  exists pos,
    convert_to_pos_format shared_id_converter two_items = Return pos /\
    (loyverse pos).*1 = [PyStr "L-1"] /\
    (odoo pos).*1 = [PyStr "omg-sushi-maki"; PyStr "omg-sushi-nigiri"] /\
    NoDup (table_keys (loyverse pos)) /\ NoDup (table_keys (odoo pos)).
Proof.
  assert (Hrun : exists pos,
             convert_to_pos_format shared_id_converter two_items = Return pos)
    by (eexists; vm_compute; reflexivity).
  destruct Hrun as [pos Hrun].
  destruct (convert_to_pos_format_keys shared_id_converter two_items pos Hrun)
    as (Hl & Ho & _).
  exists pos. split; [exact Hrun|].
  vm_compute in Hrun. injection Hrun as <-.
  repeat split; assumption.
Defined.

(** On validated items the transformer can fail in two ways only. *)
Lemma convert_loop_valid_cases self (menu_items : menu) pos0 :
  valid_menu menu_items ->
  (exists pos, convert_loop self menu_items pos0 = Return pos) \/
  convert_loop self menu_items pos0 = Raise AttributeError \/
  convert_loop self menu_items pos0 = Raise TypeError.
Proof.
  revert pos0. induction menu_items as [|[slug d] rest IH]; intros pos0 Hvalid.
  - left. now exists pos0.
  - apply Forall_cons in Hvalid as [Hd Hrest]. cbn in Hd.
    cbn [convert_loop]. rewrite convert_item_cases.
    rewrite loyverse_id_cases.
    destruct (well_shaped self "loyverse"); [|right; now left].
    cbn. destruct (expected_id self "loyverse" slug) as [m|l|lid] eqn:Hlid.
    + right. right. unfold loyverse_record.
      destruct (valid_item_getitems d Hd) as (t & p & c & -> & -> & ->).
      reflexivity.
    + right. right. unfold loyverse_record.
      destruct (valid_item_getitems d Hd) as (t & p & c & -> & -> & ->).
      reflexivity.
    + destruct (loyverse_record_valid d slug lid Hd) as [lr ->]. cbn.
      rewrite odoo_id_cases.
      destruct (well_shaped self "odoo"); [|right; now left].
      cbn. destruct (expected_id self "odoo" slug) as [m|l|oid] eqn:Hoid.
      * right. right. unfold odoo_record.
        destruct (valid_item_getitems d Hd) as (t & p & c & -> & -> & ->).
        reflexivity.
      * right. right. unfold odoo_record.
        destruct (valid_item_getitems d Hd) as (t & p & c & -> & -> & ->).
        reflexivity.
      * destruct (odoo_record_valid d slug oid Hd) as [orr ->]. cbn.
        now apply IH.
Qed.

Lemma convert_loop_usable self (menu_items : menu) pos0 pos :
  menu_items <> [] ->
  convert_loop self menu_items pos0 = Return pos ->
  usable_mapping self menu_items.
Proof.
  intros Hne Hrun.
  destruct (convert_loop_steps _ _ _ _ Hrun) as (ls & os & Hls & Hos & _).
  assert (Hids : forall slug, slug ∈ menu_items.*1 ->
            (exists k, loyverse_id self slug = Return (NAtom k)) /\
            (exists k, odoo_id self slug = Return (NAtom k))).
  { intros slug Hslug. apply list_elem_of_fmap in Hslug as ([s d] & -> & Hin).
    destruct (Forall2_elem_l _ _ _ _ Hls Hin) as ([lk lr] & _ & Hl & _).
    destruct (Forall2_elem_l _ _ _ _ Hos Hin) as ([ok or] & _ & Ho & _).
    cbn in *. eauto. }
  destruct menu_items as [|[slug0 d0] rest]; [contradiction|].
  destruct (Hids slug0) as [[lk Hlk] [ok Hok]]; [cbn; apply elem_of_cons; now left|].
  rewrite loyverse_id_cases in Hlk. rewrite odoo_id_cases in Hok.
  destruct (well_shaped self "loyverse") eqn:Hl; [|discriminate].
  destruct (well_shaped self "odoo") eqn:Ho; [|discriminate].
  split; [exact Hl|]. split; [exact Ho|].
  intros slug Hslug. destruct (Hids slug Hslug) as [[k Hk] [k' Hk']].
  apply loyverse_id_expected in Hk. apply odoo_id_expected in Hk'.
  now rewrite <- Hk, <- Hk'.
Qed.

(** X14. On a menu of validated items that is not empty, the transformer
    returns exactly when the loaded mapping serves the items: each level
    that the lookups pass through is a mapping or absent, and no
    identifier due is a list or a mapping. Otherwise it raises
    [AttributeError] (a level that is no mapping, as an [items:] left
    empty) or [TypeError] (an identifier that cannot be a key), and
    nothing else. *)
Theorem convert_to_pos_format_outcome self (menu_items : menu) :
  valid_menu menu_items ->
  menu_items <> [] ->
  ((exists pos, convert_to_pos_format self menu_items = Return pos) <->
   usable_mapping self menu_items) /\
  ((exists pos, convert_to_pos_format self menu_items = Return pos) \/
   convert_to_pos_format self menu_items = Raise AttributeError \/
   convert_to_pos_format self menu_items = Raise TypeError).
Proof.
  intros Hvalid Hne. unfold convert_to_pos_format. split.
  - split.
    + intros [pos Hrun]. exact (convert_loop_usable _ _ _ _ Hne Hrun).
    + now apply convert_loop_valid.
  - now apply convert_loop_valid_cases.
Qed.

Lemma empty_items_level_raises :
  valid_menu two_items /\
  ~ usable_mapping empty_items_converter two_items /\
  convert_to_pos_format empty_items_converter two_items
    = Raise AttributeError.
Proof.
  assert (Hvalid : valid_menu two_items)
    by (unfold valid_menu, valid_item, two_items; valid_by_computation).
  destruct (convert_to_pos_format_outcome empty_items_converter two_items
              Hvalid) as [Hiff _]; [discriminate|].
  split; [exact Hvalid|]. split; [|vm_compute; reflexivity].
  intros Husable. apply Hiff in Husable as [pos Hrun].
  vm_compute in Hrun. discriminate.
Defined.

(** ** The report and the run *)

Lemma system_items_shaped (gm : gmap string yaml_node) (system : string) :
  mapping_or_absent (gm !! system) = true ->
  mapping_or_absent (s ← gm !! system; entries s !! "items") = true ->
  exists items,
    system_items (NMap gm) system = Return (NMap items) /\
    forall slug,
      items !! slug
      = (s ← gm !! system; i ← entries s !! "items"; entries i !! slug).
Proof.
  unfold system_items. cbn.
  destruct (gm !! system) as [[s|l|v]|]; cbn; try discriminate.
  - intros _. destruct (s !! "items") as [[i|l|v]|]; cbn; try discriminate;
      intros _; eexists; (split; [reflexivity|]); intros slug;
      [reflexivity | apply lookup_empty].
  - intros _ _. eexists. split; [reflexivity|]. intros slug. apply lookup_empty.
Qed.

(** On a well-shaped mapping the report finds the two tables of explicit
    entries. *)
Lemma report_mappings_shaped self :
  well_shaped self "loyverse" = true ->
  well_shaped self "odoo" = true ->
  exists litems oitems,
    (global_mappings ← node_get (pos_mapping self) "global" (NMap ∅);
     loyverse_mappings ← system_items global_mappings "loyverse";
     odoo_mappings ← system_items global_mappings "odoo";
     mret (loyverse_mappings, odoo_mappings))
      = Return (NMap litems, NMap oitems) /\
    (forall slug, litems !! slug = explicit_entry self "loyverse" slug) /\
    (forall slug, oitems !! slug = explicit_entry self "odoo" slug).
Proof.
  unfold well_shaped, explicit_entry.
  destruct (pos_mapping self) as [top|l|v]; cbn -[system_items];
    try discriminate.
  destruct (top !! "global") as [[gm|l|v]|]; cbn -[system_items];
    try discriminate.
  - intros [Hl1 Hl2]%andb_true_iff [Ho1 Ho2]%andb_true_iff.
    destruct (system_items_shaped gm "loyverse" Hl1 Hl2) as (li & -> & Hli).
    destruct (system_items_shaped gm "odoo" Ho1 Ho2) as (oi & -> & Hoi).
    cbn. eexists _, _. split; [reflexivity|]. split; assumption.
  - intros _ _. exists ∅, ∅. split; [reflexivity|].
    split; intros slug; apply lookup_empty.
Qed.

Lemma report_rows_reportable (litems oitems : gmap string yaml_node)
    (menu_items : menu) :
  Forall (fun e => reportable (snd e)) menu_items ->
  exists rows,
    report_rows (NMap litems) (NMap oitems) menu_items = (rows, None) /\
    row_slug <$> rows = menu_items.*1 /\
    Forall (fun r =>
              row_loyverse_mapped r
                = bool_decide (is_Some (litems !! row_slug r)) /\
              row_odoo_mapped r
                = bool_decide (is_Some (oitems !! row_slug r)))
           rows.
Proof.
  induction menu_items as [|[slug d] rest IH]; intros Hall.
  - exists []. repeat split. constructor.
  - apply Forall_cons in Hall as [Hd Hrest]. cbn in Hd.
    destruct Hd as ([title Ht] & [category Hc] & [f Hp]).
    destruct (IH Hrest) as (rows & Hrows & Hslugs & Hflags).
    cbn [report_rows node_contains]. unfold getitem. rewrite Ht, Hc, Hp. cbn.
    rewrite Hrows. eexists. split; [reflexivity|]. split.
    + cbn. now rewrite Hslugs.
    + constructor; [|assumption]. now cbn.
Qed.

Lemma explicit_entry_fallback self system slug :
  explicit_entry self system slug = None ->
  expected_id self system slug = NAtom (PyStr ("omg-sushi-" +:+ slug)).
Proof. unfold expected_id. now intros ->. Qed.

(** The report of validated items on a well-shaped mapping: its trace and
    the flags of its rows. *)
Lemma generate_mapping_report_returns fs self (menu_items : menu) :
  Forall (fun e => reportable (snd e)) menu_items ->
  well_shaped self "loyverse" = true ->
  well_shaped self "odoo" = true ->
  writable fs (data_dir self ++ ["mapping-report.md"]) = true ->
  exists rows,
    generate_mapping_report fs self menu_items
      = (Return tt,
         [WriteFile (data_dir self ++ ["mapping-report.md"])
            (Report (cwd fs) (length menu_items) rows);
          Log INFO ("Generated mapping report: "
                    +:+ path_str (data_dir self ++ ["mapping-report.md"]))]) /\
    row_slug <$> rows = menu_items.*1 /\
    Forall (fun r =>
              row_loyverse_mapped r
                = bool_decide
                    (is_Some (explicit_entry self "loyverse" (row_slug r))) /\
              row_odoo_mapped r
                = bool_decide
                    (is_Some (explicit_entry self "odoo" (row_slug r))))
           rows.
Proof.
  intros Hall Hl Ho Hw.
  destruct (report_mappings_shaped self Hl Ho) as (li & oi & Hmaps & Hli & Hoi).
  destruct (report_rows_reportable li oi menu_items Hall)
    as (rows & Hrows & Hslugs & Hflags).
  exists rows. split.
  { unfold generate_mapping_report. rewrite Hw. cbn [negb].
    rewrite Hmaps, Hrows. reflexivity. }
  split; [exact Hslugs|].
  eapply Forall_impl; [exact Hflags|].
  intros r [Hlf Hof]. now rewrite <- Hli, <- Hoi.
Qed.

(** X15. For a menu of validated items, a well-shaped mapping and a
    report file that can be written, the report is written and has one
    row per item, in the order of the menu; the mapped flag of a row for a
    system is set exactly when the mapping has an explicit entry for the
    slug in that system, so an unset flag means that the transformer gave
    the item its fallback identifier. *)
Theorem report_rows_flags fs self (menu_items : menu) :
  Forall (fun e => reportable (snd e)) menu_items ->
  well_shaped self "loyverse" = true ->
  well_shaped self "odoo" = true ->
  writable fs (data_dir self ++ ["mapping-report.md"]) = true ->
  exists rows,
    generate_mapping_report fs self menu_items
      = (Return tt,
         [WriteFile (data_dir self ++ ["mapping-report.md"])
            (Report (cwd fs) (length menu_items) rows);
          Log INFO ("Generated mapping report: "
                    +:+ path_str (data_dir self ++ ["mapping-report.md"]))]) /\
    row_slug <$> rows = menu_items.*1 /\
    forall r, r ∈ rows ->
      (row_loyverse_mapped r = true <->
         is_Some (explicit_entry self "loyverse" (row_slug r))) /\
      (row_odoo_mapped r = true <->
         is_Some (explicit_entry self "odoo" (row_slug r))) /\
      (row_loyverse_mapped r = false ->
         loyverse_id self (row_slug r)
           = Return (NAtom (PyStr ("omg-sushi-" +:+ row_slug r)))) /\
      (row_odoo_mapped r = false ->
         odoo_id self (row_slug r)
           = Return (NAtom (PyStr ("omg-sushi-" +:+ row_slug r)))).
Proof.
  intros Hall Hl Ho Hw.
  destruct (generate_mapping_report_returns fs self menu_items Hall Hl Ho Hw)
    as (rows & Hrun & Hslugs & Hflags).
  exists rows. split; [exact Hrun|]. split; [exact Hslugs|].
  intros r Hr. rewrite Forall_forall in Hflags.
  destruct (Hflags r Hr) as [Hlf Hof].
  repeat split.
  - intros Htrue. rewrite Hlf in Htrue. now apply bool_decide_eq_true in Htrue.
  - intros Hsome. rewrite Hlf. now apply bool_decide_eq_true.
  - intros Htrue. rewrite Hof in Htrue. now apply bool_decide_eq_true in Htrue.
  - intros Hsome. rewrite Hof. now apply bool_decide_eq_true.
  - intros Hfalse. rewrite Hlf in Hfalse. apply bool_decide_eq_false in Hfalse.
    rewrite loyverse_id_cases, Hl. f_equal. apply explicit_entry_fallback.
    destruct (explicit_entry self "loyverse" (row_slug r)); [|reflexivity].
    destruct Hfalse. eauto.
  - intros Hfalse. rewrite Hof in Hfalse. apply bool_decide_eq_false in Hfalse.
    rewrite odoo_id_cases, Ho. f_equal. apply explicit_entry_fallback.
    destruct (explicit_entry self "odoo" (row_slug r)); [|reflexivity].
    destruct Hfalse. eauto.
Qed.

Lemma report_rows_shared_id :
  exists rows,
    fst (generate_mapping_report empty_tree shared_id_converter two_items)
      = Return tt /\
    writes (snd (generate_mapping_report empty_tree shared_id_converter
                   two_items))
      = [(["data"; "mapping-report.md"], Report ["srv"; "site"] 2 rows)] /\
    row_slug <$> rows = ["maki"; "nigiri"] /\
    row_loyverse_mapped <$> rows = [true; true] /\
    row_odoo_mapped <$> rows = [false; false].
Proof.
  destruct (report_rows_flags empty_tree shared_id_converter two_items)
    as (rows & Hrun & Hslugs & _).
  - unfold reportable, two_items. valid_by_computation.
  - reflexivity.
  - reflexivity.
  - reflexivity.
  - exists rows. rewrite Hrun. split; [reflexivity|]. split; [reflexivity|].
    split; [exact Hslugs|].
    vm_compute in Hrun. injection Hrun as <-. split; reflexivity.
Defined.

(** A neighbouring case: called on a mapping that is not well shaped, the
    report is left with its heading and the method raises. *)
Example report_empty_items_level :
  generate_mapping_report empty_tree
    (Converter ["content"] ["data"] (YMap ∅) (NAtom (PyStr "global")))
    two_items
  = (Raise AttributeError,
     [WriteFile ["data"; "mapping-report.md"]
        (ReportHeading ["srv"; "site"] 2)]).
Proof. vm_compute. reflexivity. Qed.

Lemma writes_app (t1 t2 : list event) :
  writes (t1 ++ t2) = (writes t1 ++ writes t2)%list.
Proof. apply omap_app. Qed.

Lemma writes_nil (t : list event) : written t = [] -> writes t = [].
Proof.
  induction t as [|[l msg|f data] t IH]; [reflexivity| |discriminate].
  intros H. apply IH. exact H.
Qed.

Lemma written_writes (t : list event) : written t = (writes t).*1.
Proof.
  induction t as [|[l msg|f data] t IH]; [reflexivity| |].
  - exact IH.
  - change (written (WriteFile f data :: t)) with (f :: written t).
    change (writes (WriteFile f data :: t)) with ((f, data) :: writes t).
    cbn. now rewrite IH.
Qed.

(** Loading a configuration file raises, or returns a converter with the
    same directories; it writes nothing. *)
Lemma load_pos_mapping_cases mloader fs self :
  (exists e, load_pos_mapping mloader fs self = (Raise e, [])) \/
  exists self1 t1,
    load_pos_mapping mloader fs self = (Return self1, t1) /\
    written t1 = [] /\
    content_dir self1 = content_dir self /\ data_dir self1 = data_dir self.
Proof.
  unfold load_pos_mapping.
  destruct (data_files fs !! "pos-mapping.yaml") as [[text|]|].
  - destruct (mloader text) as [m|e]; [|left; now exists e].
    right. eexists _, _. split; [reflexivity|]. now repeat split.
  - left. now exists OSError.
  - right. eexists _, _. split; [reflexivity|]. now repeat split.
Qed.

Lemma load_menu_data_cases loader fs self :
  (exists e, load_menu_data loader fs self = (Raise e, [])) \/
  exists self1 t1,
    load_menu_data loader fs self = (Return self1, t1) /\
    written t1 = [] /\
    content_dir self1 = content_dir self /\ data_dir self1 = data_dir self /\
    pos_mapping self1 = pos_mapping self.
Proof.
  unfold load_menu_data.
  destruct (data_files fs !! "menudata.yaml") as [[text|]|].
  - destruct (loader text) as [y|e]; [|left; now exists e].
    right. eexists _, _. split; [reflexivity|]. now repeat split.
  - left. now exists OSError.
  - right. eexists _, _. split; [reflexivity|]. now repeat split.
Qed.

Lemma scanned_reportable loader self files (e : string * item) :
  scanned loader self files e -> reportable (snd e).
Proof.
  intros (relative & content & tp & _ & Hparse & _).
  destruct (parse_menu_item_fields _ _ _ _ _ _ Hparse)
    as (y & d & category & price & f & _ & _ & _ & _ & _ & _ & Hpn & _
          & Hcat & Htitle).
  unfold reportable. rewrite Hpn, Hcat. eauto.
Qed.

(** Saving, when the four files can be written and [json] has the data. *)
Lemma save_pos_data_trace json fs self pos back :
  writable fs (data_dir self ++ ["pos-menu-data.yaml"]) = true ->
  writable fs (data_dir self ++ ["pos-menu-data.json"]) = true ->
  writable fs (data_dir self ++ ["pos-menu-loyverse.yaml"]) = true ->
  writable fs (data_dir self ++ ["pos-menu-odoo.yaml"]) = true ->
  json_items json pos = Return back ->
  save_pos_data json fs self pos =
    (Return tt,
     [WriteFile (data_dir self ++ ["pos-menu-data.yaml"]) (YamlDump pos);
      Log INFO ("Saved POS menu data to "
                +:+ path_str (data_dir self ++ ["pos-menu-data.yaml"]));
      WriteFile (data_dir self ++ ["pos-menu-data.json"]) (JsonDump pos);
      Log INFO ("Saved POS menu data to "
                +:+ path_str (data_dir self ++ ["pos-menu-data.json"]));
      WriteFile (data_dir self ++ ["pos-menu-loyverse.yaml"])
        (YamlDumpTable (loyverse pos));
      Log INFO ("Saved loyverse menu data to "
                +:+ path_str (data_dir self ++ ["pos-menu-loyverse.yaml"]));
      WriteFile (data_dir self ++ ["pos-menu-odoo.yaml"])
        (YamlDumpTable (odoo pos));
      Log INFO ("Saved odoo menu data to "
                +:+ path_str (data_dir self ++ ["pos-menu-odoo.yaml"]))]).
Proof.
  intros H1 H2 H3 H4 Hjson.
  unfold save_pos_data, save_system_files, pos_systems, write_file.
  change ("pos-menu-" +:+ "loyverse" +:+ ".yaml") with "pos-menu-loyverse.yaml".
  change ("pos-menu-" +:+ "odoo" +:+ ".yaml") with "pos-menu-odoo.yaml".
  rewrite H1, H2, H3, H4, Hjson. reflexivity.
Qed.

(** What saving writes is a beginning of its four files, and all four when
    it returns. *)
Lemma save_pos_data_written json fs self pos :
  written (snd (save_pos_data json fs self pos))
    `prefix_of` take 4 (output_files self) /\
  (fst (save_pos_data json fs self pos) = Return tt ->
   written (snd (save_pos_data json fs self pos)) = take 4 (output_files self)).
Proof.
  unfold save_pos_data, save_system_files, pos_systems, write_file.
  change ("pos-menu-" +:+ "loyverse" +:+ ".yaml") with "pos-menu-loyverse.yaml".
  change ("pos-menu-" +:+ "odoo" +:+ ".yaml") with "pos-menu-odoo.yaml".
  destruct (writable fs (data_dir self ++ ["pos-menu-data.yaml"]));
    [|split; [apply prefix_nil | discriminate]].
  destruct (writable fs (data_dir self ++ ["pos-menu-data.json"]));
    [|split; [repeat apply prefix_cons; apply prefix_nil | discriminate]].
  destruct (json_items json pos) as [back|e];
    [|split; [repeat apply prefix_cons; apply prefix_nil | discriminate]].
  destruct (writable fs (data_dir self ++ ["pos-menu-loyverse.yaml"]));
    [|split; [repeat apply prefix_cons; apply prefix_nil | discriminate]].
  destruct (writable fs (data_dir self ++ ["pos-menu-odoo.yaml"]));
    [|split; [repeat apply prefix_cons; apply prefix_nil | discriminate]].
  split; [repeat apply prefix_cons; apply prefix_nil | reflexivity].
Qed.

Lemma generate_mapping_report_written fs self (menu_items : menu) :
  written (snd (generate_mapping_report fs self menu_items))
    `prefix_of` [(data_dir self ++ ["mapping-report.md"])%list] /\
  (fst (generate_mapping_report fs self menu_items) = Return tt ->
   written (snd (generate_mapping_report fs self menu_items))
     = [(data_dir self ++ ["mapping-report.md"])%list]).
Proof.
  unfold generate_mapping_report.
  destruct (writable fs _); cbn [negb];
    [|split; [apply prefix_nil | discriminate]].
  match goal with
  | |- context [match ?m with Return _ => _ | Raise _ => _ end] =>
      destruct m as [[lm om]|e]
  end.
  - destruct (report_rows lm om menu_items) as [rows [e|]];
      (split; [apply prefix_cons, prefix_nil | reflexivity || discriminate]).
  - split; [apply prefix_cons, prefix_nil | discriminate].
Qed.

(** The run after a scan that found items. *)
Lemma run_conversion_after_scan loader mloader json fs self self1 self2 t1 t2 t3
    (menu_items : menu) :
  load_pos_mapping mloader fs self = (Return self1, t1) ->
  load_menu_data loader fs self1 = (Return self2, t2) ->
  scan_menu_items loader fs self2 = (Return menu_items, t3) ->
  menu_items <> [] ->
  run_conversion loader mloader json fs self =
    match convert_to_pos_format self2 menu_items with
    | Raise e =>
        (Raise e,
         (Log INFO "Starting menu conversion process..." :: t1 ++ t2 ++ t3)%list)
    | Return pos =>
        match save_pos_data json fs self2 pos with
        | (Raise e, ts) =>
            (Raise e,
             (Log INFO "Starting menu conversion process..." :: t1 ++ t2 ++ t3
                ++ ts)%list)
        | (Return _, ts) =>
            match generate_mapping_report fs self2 menu_items with
            | (Raise e, tr) =>
                (Raise e,
                 (Log INFO "Starting menu conversion process..." :: t1 ++ t2
                    ++ t3 ++ ts ++ tr)%list)
            | (Return _, tr) =>
                (Return tt,
                 (Log INFO "Starting menu conversion process..." :: t1 ++ t2
                    ++ t3 ++ ts ++ tr
                    ++ [Log INFO "Menu conversion completed successfully!"])%list)
            end
        end
    end.
Proof.
  intros Hmap Hdata Hscan Hne.
  unfold run_conversion, logger_info, emit.
  rewrite bind_return. cbn [fst snd].
  rewrite Hmap, bind_return. cbn [fst snd].
  rewrite Hdata, bind_return. cbn [fst snd].
  rewrite Hscan, bind_return. cbn [fst snd].
  destruct menu_items as [|e0 rest]; [contradiction|].
  unfold lift.
  destruct (convert_to_pos_format self2 (e0 :: rest)) as [pos|e].
  - rewrite bind_return. cbn [fst snd].
    destruct (save_pos_data json fs self2 pos) as [[[]|e] ts].
    + rewrite bind_return. cbn [fst snd].
      destruct (generate_mapping_report fs self2 (e0 :: rest)) as [[[]|e] tr].
      * rewrite bind_return. cbn [fst snd app]. now rewrite ?app_nil_r.
      * rewrite bind_raise. cbn [fst snd app]. now rewrite ?app_nil_r.
    + rewrite bind_raise. cbn [fst snd app]. now rewrite ?app_nil_r.
  - rewrite bind_raise. cbn [fst snd app]. now rewrite ?app_nil_r.
Qed.

(** X16. When the configuration has loaded, the scan found items, the
    mapping serves them, the five output files can be written and JSON has
    the values of the records, the run returns normally and writes exactly
    five files, in this order: the combined YAML and JSON dumps, both of
    the table the transformer made of the menu, the Loyverse and the Odoo
    file with the two halves of that table, and the report with one row
    per item. *)
Theorem run_conversion_writes loader mloader json fs self self1 self2 t1 t2 t3
    (menu_items : menu) :
  load_pos_mapping mloader fs self = (Return self1, t1) ->
  load_menu_data loader fs self1 = (Return self2, t2) ->
  scan_menu_items loader fs self2 = (Return menu_items, t3) ->
  menu_items <> [] ->
  usable_mapping self2 menu_items ->
  (forall file, file ∈ output_files self2 -> writable fs file = true) ->
  (forall pos, convert_to_pos_format self2 menu_items = Return pos ->
               exists back, json_items json pos = Return back) ->
  exists pos rows,
    convert_to_pos_format self2 menu_items = Return pos /\
    length rows = length menu_items /\
    fst (run_conversion loader mloader json fs self) = Return tt /\
    writes (snd (run_conversion loader mloader json fs self))
      = [((data_dir self2 ++ ["pos-menu-data.yaml"])%list, YamlDump pos);
         ((data_dir self2 ++ ["pos-menu-data.json"])%list, JsonDump pos);
         ((data_dir self2 ++ ["pos-menu-loyverse.yaml"])%list,
          YamlDumpTable (loyverse pos));
         ((data_dir self2 ++ ["pos-menu-odoo.yaml"])%list,
          YamlDumpTable (odoo pos));
         ((data_dir self2 ++ ["mapping-report.md"])%list,
          Report (cwd fs) (length menu_items) rows)].
Proof.
  intros Hmap Hdata Hscan Hne Husable Hw Hjson.
  destruct (scan_menu_items_returns loader fs self2)
    as (m & t & Hs & Hw3 & _ & Hvalid & Hscanned).
  rewrite Hscan in Hs. injection Hs as <- <-.
  destruct (convert_loop_valid self2 menu_items (PosItems [] []) Hvalid Husable)
    as [pos Hpos].
  fold (convert_to_pos_format self2 menu_items) in Hpos.
  destruct (Hjson pos Hpos) as [back Hback].
  destruct Husable as (Hl & Ho & _).
  destruct (generate_mapping_report_returns fs self2 menu_items)
    as (rows & Hrep & Hslugs & _); try assumption.
  { apply Forall_forall. intros e He.
    exact (scanned_reportable _ _ _ _ (Hscanned e He)). }
  { apply Hw. unfold output_files. rewrite !elem_of_cons. tauto. }
  exists pos, rows. split; [exact Hpos|]. split.
  { rewrite <- (length_fmap row_slug), Hslugs. apply length_fmap. }
  rewrite (run_conversion_after_scan _ _ _ _ _ _ _ _ _ _ _
             Hmap Hdata Hscan Hne), Hpos.
  rewrite (save_pos_data_trace json fs self2 pos back), Hrep;
    try assumption;
    try (apply Hw; unfold output_files; rewrite !elem_of_cons; tauto).
  split; [reflexivity|]. cbn [snd].
  pose proof (load_pos_mapping_writes_nothing mloader fs self) as H1.
  pose proof (load_menu_data_writes_nothing loader fs self1) as H2.
  rewrite Hmap in H1. rewrite Hdata in H2. cbn [snd] in H1, H2.
  change (writes (Log INFO "Starting menu conversion process..." :: ?l))
    with (writes l).
  rewrite !writes_app, (writes_nil _ H1), (writes_nil _ H2), (writes_nil _ Hw3).
  reflexivity.
Qed.

Lemma run_conversion_one_item_writes :
  exists pos rows,
    fst (run_conversion flat_yaml no_mapping json_refuses one_item_tree hugo)
      = Return tt /\
    writes (snd (run_conversion flat_yaml no_mapping json_refuses
                   one_item_tree hugo))
      = [(["data"; "pos-menu-data.yaml"], YamlDump pos);
         (["data"; "pos-menu-data.json"], JsonDump pos);
         (["data"; "pos-menu-loyverse.yaml"], YamlDumpTable (loyverse pos));
         (["data"; "pos-menu-odoo.yaml"], YamlDumpTable (odoo pos));
         (["data"; "mapping-report.md"], Report ["srv"; "site"] 1 rows)] /\
    length rows = 1 /\
    (loyverse pos).*1 = [PyStr "omg-sushi-spicy-tuna"].
Proof.
  destruct (run_conversion_writes flat_yaml no_mapping json_refuses
              one_item_tree hugo hugo hugo
              [Log WARNING "POS mapping file not found: data/pos-mapping.yaml"]
              [] [Log INFO "Found 1 menu items"]
              [("spicy-tuna", spicy_tuna_item)])
    as (pos & rows & Hpos & Hlen & Hret & Hwrites).
  - vm_compute. reflexivity.
  - vm_compute. reflexivity.
  - vm_compute. reflexivity.
  - discriminate.
  - usable_by_computation.
  - intros file _. reflexivity.
  - intros pos Hpos. vm_compute in Hpos. injection Hpos as <-.
    eexists. vm_compute. reflexivity.
  - exists pos, rows. split; [exact Hret|]. split; [exact Hwrites|].
    split; [exact Hlen|].
    vm_compute in Hpos. injection Hpos as <-. reflexivity.
Defined.

(** The run after a scan that found nothing. *)
Lemma run_conversion_no_items_trace loader mloader json fs self self1 self2
    t1 t2 t3 :
  load_pos_mapping mloader fs self = (Return self1, t1) ->
  load_menu_data loader fs self1 = (Return self2, t2) ->
  scan_menu_items loader fs self2 = (Return [], t3) ->
  run_conversion loader mloader json fs self
    = (Return tt,
       (Log INFO "Starting menu conversion process..." :: t1 ++ t2 ++ t3
          ++ [Log WARNING "No menu items found"])%list).
Proof.
  intros Hmap Hdata Hscan.
  unfold run_conversion, logger_info, emit.
  rewrite bind_return. cbn [fst snd].
  rewrite Hmap, bind_return. cbn [fst snd].
  rewrite Hdata, bind_return. cbn [fst snd].
  rewrite Hscan, bind_return. cbn [fst snd].
  unfold logger_warning, emit. cbn [fst snd].
  reflexivity.
Qed.

(** X17. Whatever the files hold, a run writes nothing but its five output
    files, each at most once and in their order: what it has written is a
    beginning of that list, also when it raises. When it returns, it has
    written none of them (no item was found) or all five. *)
Theorem run_conversion_outcome loader mloader json fs self :
  written (snd (run_conversion loader mloader json fs self))
    `prefix_of` output_files self /\
  (fst (run_conversion loader mloader json fs self) = Return tt ->
   written (snd (run_conversion loader mloader json fs self)) = [] \/
   written (snd (run_conversion loader mloader json fs self))
     = output_files self).
Proof.
  destruct (load_pos_mapping_cases mloader fs self)
    as [[e Hbad] | (self1 & t1 & Hmap & Hw1 & _ & Hd1)].
  { assert (Hrun : run_conversion loader mloader json fs self
                   = (Raise e, [Log INFO "Starting menu conversion process..."])).
    { unfold run_conversion, logger_info, emit.
      rewrite bind_return. cbn [fst snd]. now rewrite Hbad. }
    rewrite Hrun. split; [apply prefix_nil | discriminate]. }
  destruct (load_menu_data_cases loader fs self1)
    as [[e Hbad] | (self2 & t2 & Hdata & Hw2 & _ & Hd2 & _)].
  { assert (Hrun : run_conversion loader mloader json fs self
                   = (Raise e,
                      (Log INFO "Starting menu conversion process..."
                         :: t1 ++ [])%list)).
    { unfold run_conversion, logger_info, emit.
      rewrite bind_return. cbn [fst snd].
      rewrite Hmap, bind_return. cbn [fst snd]. now rewrite Hbad. }
    rewrite Hrun. cbn [fst snd].
    change (written (Log INFO "Starting menu conversion process..." :: ?l))
      with (written l).
    rewrite written_app, Hw1. split; [apply prefix_nil | discriminate]. }
  destruct (scan_menu_items_returns loader fs self2)
    as (menu_items & t3 & Hscan & Hw3 & _).
  assert (Hfiles : output_files self2 = output_files self)
    by (unfold output_files; now rewrite Hd2, Hd1).
  destruct menu_items as [|e0 rest].
  { rewrite (run_conversion_no_items_trace _ _ json _ _ _ _ _ _ _
               Hmap Hdata Hscan).
    cbn [fst snd].
    change (written (Log INFO "Starting menu conversion process..." :: ?l))
      with (written l).
    rewrite !written_app, Hw1, Hw2, Hw3.
    split; [apply prefix_nil | now left]. }
  rewrite (run_conversion_after_scan _ _ json _ _ _ _ _ _ _ _ Hmap Hdata Hscan)
    by discriminate.
  assert (Hhead : forall tail,
            written (Log INFO "Starting menu conversion process..."
                       :: t1 ++ t2 ++ t3 ++ tail) = written tail).
  { intros tail.
    change (written (Log INFO "Starting menu conversion process..." :: ?l))
      with (written l).
    now rewrite !written_app, Hw1, Hw2, Hw3. }
  destruct (convert_to_pos_format self2 (e0 :: rest)) as [pos|e].
  2:{ cbn [fst snd]. rewrite <- (app_nil_r t3), Hhead.
      split; [apply prefix_nil | discriminate]. }
  pose proof (save_pos_data_written json fs self2 pos) as [Hsp Hsr].
  pose proof (generate_mapping_report_written fs self2 (e0 :: rest))
    as [Hrp Hrr].
  rewrite Hfiles in Hsp, Hsr.
  replace (data_dir self2) with (data_dir self) in Hrp, Hrr by congruence.
  destruct (save_pos_data json fs self2 pos) as [[[]|e] ts]; cbn [fst snd] in *.
  2:{ rewrite Hhead. split; [|discriminate].
      change (output_files self)
        with (take 4 (output_files self)
                ++ [(data_dir self ++ ["mapping-report.md"])%list])%list.
      now apply prefix_app_r. }
  specialize (Hsr eq_refl).
  destruct (generate_mapping_report fs self2 (e0 :: rest)) as [[[]|e] tr];
    cbn [fst snd] in *.
  - specialize (Hrr eq_refl). rewrite Hhead, !written_app, Hsr, Hrr.
    split; [reflexivity | intros _; now right].
  - rewrite Hhead, written_app, Hsr. split; [|discriminate].
    change (output_files self)
      with (take 4 (output_files self)
              ++ [(data_dir self ++ ["mapping-report.md"])%list])%list.
    now apply prefix_app.
Qed.

Lemma run_conversion_one_item_outcome :
  written (snd (run_conversion flat_yaml no_mapping json_refuses one_item_tree
                  hugo))
    = output_files hugo.
Proof.
  destruct (run_conversion_outcome flat_yaml no_mapping json_refuses
              one_item_tree hugo) as [_ Hret].
  destruct Hret as [Hnone | Hall].
  - vm_compute. reflexivity.
  - vm_compute in Hnone. discriminate.
  - exact Hall.
Defined.


